(** * A task-automation agent: validators, path guard, dispatcher, HTTP surface

    Shallow embedding of the Python sources

      - [src/utils/validators.py]       ([is_valid_task])
      - [src/utils/security.py]         ([validate_path])
      - [src/handlers/task_handlers.py] ([TaskHandler])
      - [src/main.py]                   ([LLMClient], [run_task], [read_file])

    and the properties of them that the specification states.

    The file has three parts: the embedding (Python's strings, values and
    exceptions, the operating system and the LLM service as interfaces,
    then the sources function by function, and a POSIX file system that
    implements the interface); the predicates of the specification; the
    proofs.

    Python [str] values are modelled as [string]; a character stands for the
    code point of the same number (U+0000 .. U+00FF), and the string methods
    below follow CPython on that range. *)

From Stdlib Require Import String Ascii ZArith List Bool Lia Permutation Sorted.
From Stdlib Require Import DecimalString QArith.
From stdpp Require Import base option list gmap strings.

Set Warnings "-register-all".

Local Open Scope string_scope.
Local Open Scope Z_scope.

Abbreviation str := string.

(** ** Python's [str] methods *)

Module PyStr.

(** [len(s)] *)
Definition len (s : str) : Z := Z.of_nat (String.length s).

(** Truth value of a string: the empty string is falsy. *)
Definition truthy (s : str) : bool :=
  match s with EmptyString => false | String _ _ => true end.

Definition code (c : ascii) : Z := Z.of_N (N_of_ascii c).

(** [c.isspace()] for one character: the code points below U+0100 that
    [str.strip()] removes. *)
Definition isspace (c : ascii) : bool :=
  let n := code c in
  ((9 <=? n) && (n <=? 13)) || ((28 <=? n) && (n <=? 32))
  || (n =? 133) || (n =? 160).

Fixpoint lstrip (s : str) : str :=
  match s with
  | String c s' => if isspace c then lstrip s' else s
  | EmptyString => EmptyString
  end.

(** [rstrip] keeps a character when it is not a space or when something
    non-blank follows it. *)
Fixpoint rstrip (s : str) : str :=
  match s with
  | EmptyString => EmptyString
  | String c s' =>
      match rstrip s' with
      | EmptyString => if isspace c then EmptyString else String c EmptyString
      | r => String c r
      end
  end.

(** [s.strip()] *)
Definition strip (s : str) : str := lstrip (rstrip s).

(** [c.lower()] for one character: A-Z, and the Latin-1 capitals
    U+00C0 .. U+00DE without the multiplication sign U+00D7. *)
Definition lower_char (c : ascii) : ascii :=
  let n := code c in
  if ((65 <=? n) && (n <=? 90))
     || ((192 <=? n) && (n <=? 222) && negb (n =? 215))
  then ascii_of_N (Z.to_N (n + 32)) else c.

(** [s.lower()] *)
Fixpoint lower (s : str) : str :=
  match s with
  | EmptyString => EmptyString
  | String c s' => String (lower_char c) (lower s')
  end.

(** [s.startswith(p)] *)
Definition startswith (s p : str) : bool := String.prefix p s.

(** [sub in s]: [sub] occurs in [s] as a contiguous substring. *)
Fixpoint contains (sub s : str) : bool :=
  String.prefix sub s ||
  match s with
  | EmptyString => false
  | String _ s' => contains sub s'
  end.

(** Every character of [s] is white space. *)
Fixpoint all_space (s : str) : bool :=
  match s with
  | EmptyString => true
  | String c s' => isspace c && all_space s'
  end.

End PyStr.

(** ** [src/utils/validators.py] *)

Module Validators.
Import PyStr.

Definition dangerous_ops : list str :=
  ["rm "; "remove"; "delete"; "chmod"; "chown"].

(** [is_valid_task(task)] *)
Definition is_valid_task (task : str) : bool :=
  if negb (truthy task) || (len (strip task) <? 5) then false
  else negb (existsb (fun op => contains op (lower task)) dangerous_ops).

End Validators.

(** ** Python values, exceptions and results *)

Module Py.
Import PyStr.

(** [str(n)] for an integer. *)
Definition str_of_Z (n : Z) : str := NilZero.string_of_int (Z.to_int n).

(** Exceptions (instances of [Exception]).  [HTTPException] is FastAPI's;
    every other exception is kept as its class name and [str(e)]. *)
Inductive exn : Type :=
| HTTPException (status_code : Z) (detail : str)
| PyExc (cls : str) (msg : str).

(** [isinstance(e, HTTPException)] *)
Definition is_HTTPException (e : exn) : bool :=
  match e with HTTPException _ _ => true | PyExc _ _ => false end.

(** [str(e)]; Starlette prints an [HTTPException] as "status: detail". *)
Definition str_exn (e : exn) : str :=
  match e with
  | HTTPException s d => str_of_Z s +:+ ": " +:+ d
  | PyExc _ msg => msg
  end.

(** The outcome of evaluating an expression: a value or a raised
    exception. *)
Inductive result (A : Type) : Type :=
| Ok (a : A)
| Raise (e : exn).
Arguments Ok {A} a.
Arguments Raise {A} e.

#[global] Instance result_ret : MRet result := fun A a => Ok a.
#[global] Instance result_bind : MBind result := fun A B f m =>
  match m with Ok a => f a | Raise e => Raise e end.

(** JSON values as [json.loads] builds them; numbers are the integers. *)
Inductive json : Type :=
| JNull
| JBool (b : bool)
| JNum (n : Z)
| JStr (s : str)
| JList (l : list json)
| JObj (m : list (str * json)).

(** [d.get(k)] on the items of a [dict] in insertion order. *)
Fixpoint dict_get (m : list (str * json)) (k : str) : option json :=
  match m with
  | [] => None
  | (k', v) :: m' => if String.eqb k k' then Some v else dict_get m' k
  end.

(** [v[k]] for a string key [k]. *)
Definition getitem (v : json) (k : str) : result json :=
  match v with
  | JObj m =>
      match dict_get m k with
      | Some x => Ok x
      | None => Raise (PyExc "KeyError" ("'" +:+ k +:+ "'"))
      end
  | JList _ =>
      Raise (PyExc "TypeError"
               "list indices must be integers or slices, not str")
  | JStr _ =>
      Raise (PyExc "TypeError" "string indices must be integers, not 'str'")
  | JNum _ => Raise (PyExc "TypeError" "'int' object is not subscriptable")
  | JBool _ => Raise (PyExc "TypeError" "'bool' object is not subscriptable")
  | JNull =>
      Raise (PyExc "TypeError" "'NoneType' object is not subscriptable")
  end.

End Py.

(** ** The operating system as the program sees it *)

Module Os.
Import Py.

(** The [pathlib] and [open] calls of the sources, over a file-system
    state [FS].  Paths are passed as their string form. *)
Class OS (FS : Type) : Type := {
  (** [str(Path(p).resolve())] *)
  resolve : FS -> str -> result str;
  (** [Path(p).is_file()] *)
  is_file : FS -> str -> result bool;
  (** [Path(p).exists()] *)
  path_exists : FS -> str -> result bool;
  (** [Path(p).read_text()] *)
  read_text : FS -> str -> result str;
  (** [with open(p) as f: f.read()] *)
  open_read : FS -> str -> result str;
  (** [with open(p, 'w') as f: f.write(s)], with the file system it
      leaves *)
  open_write : FS -> str -> str -> result unit * FS;
}.

End Os.

(** ** [src/utils/security.py] *)

Module Security.
Import PyStr Py Os.

Section WithOS.
Context {FS : Type} `{!OS FS}.

(** The body of the [try] block of [validate_path]. *)
Definition validate_path_body (fs : FS) (path : str) : result bool :=
  file_path ← resolve fs path;
  data_dir ← resolve fs "/data";
  if negb (startswith file_path data_dir) then Ok false
  else
    is_f ← is_file fs file_path;
    if negb is_f then Ok false else Ok true.

(** [validate_path(path)]: [except Exception: return False]. *)
Definition validate_path (fs : FS) (path : str) : bool :=
  match validate_path_body fs path with
  | Ok b => b
  | Raise _ => false
  end.

End WithOS.

End Security.

(** ** [datetime.strptime(s, '%Y-%m-%d')] and [weekday()] *)

Module Datetime.
Import PyStr Py.

Definition is_leap (y : Z) : bool :=
  (y mod 4 =? 0) && (negb (y mod 100 =? 0) || (y mod 400 =? 0)).

Definition DAYS_IN_MONTH : list Z :=
  [-1; 31; 28; 31; 30; 31; 30; 31; 31; 30; 31; 30; 31].

Definition DAYS_BEFORE_MONTH : list Z :=
  [-1; 0; 31; 59; 90; 120; 151; 181; 212; 243; 273; 304; 334].

(** Number of days in month [m] of year [y]. *)
Definition days_in_month (y m : Z) : Z :=
  if (m =? 2) && is_leap y then 29
  else nth (Z.to_nat m) DAYS_IN_MONTH 0.

(** Number of days before January 1st of year [y]. *)
Definition days_before_year (y : Z) : Z :=
  let p := y - 1 in p * 365 + p / 4 - p / 100 + p / 400.

(** Number of days in year [y] before the first day of month [m]. *)
Definition days_before_month (y m : Z) : Z :=
  nth (Z.to_nat m) DAYS_BEFORE_MONTH 0
  + (if (2 <? m) && is_leap y then 1 else 0).

(** The proleptic Gregorian ordinal: 0001-01-01 is day 1. *)
Definition ymd2ord (y m d : Z) : Z :=
  days_before_year y + days_before_month y m + d.

(** [date(y, m, d).weekday()]: Monday is 0, Wednesday is 2. *)
Definition weekday (y m d : Z) : Z := (ymd2ord y m d + 6) mod 7.

(** [date(y, m, d)] exists. *)
Definition valid_date (y m d : Z) : bool :=
  (1 <=? y) && (y <=? 9999) && (1 <=? m) && (m <=? 12)
  && (1 <=? d) && (d <=? days_in_month y m).

Definition is_digit (c : ascii) : bool := (48 <=? code c) && (code c <=? 57).
Definition digit (c : ascii) : Z := code c - 48.
Definition in_range (lo hi : Z) (c : ascii) : bool :=
  (lo <=? code c) && (code c <=? hi).

(** [(?P<Y>\d\d\d\d)] *)
Definition re_Y (s : str) : option (Z * str) :=
  match s with
  | String a (String b (String c (String d rest))) =>
      if is_digit a && is_digit b && is_digit c && is_digit d
      then Some (((digit a * 10 + digit b) * 10 + digit c) * 10 + digit d,
                 rest)
      else None
  | _ => None
  end.

(** [(?P<m>1[0-2]|0[1-9]|[1-9])]: every alternative that matches at the
    head of [s], in the order the regular expression tries them. *)
Definition re_m (s : str) : list (Z * str) :=
  match s with
  | String a rest1 =>
      (match rest1 with
       | String b rest2 =>
           (if (code a =? 49) && in_range 48 50 b
            then [(10 + digit b, rest2)] else [])
           ++ (if (code a =? 48) && in_range 49 57 b
               then [(digit b, rest2)] else [])
       | EmptyString => []
       end)
      ++ (if in_range 49 57 a then [(digit a, rest1)] else [])
  | EmptyString => []
  end.

(** [(?P<d>3[01]|[12]\d|0[1-9]|[1-9]| [1-9])]: the group ends the pattern,
    so the first alternative that matches is taken. *)
Definition re_d (s : str) : option (Z * str) :=
  match s with
  | String a rest1 =>
      let two :=
        match rest1 with
        | String b rest2 =>
            if (code a =? 51) && in_range 48 49 b
            then Some (30 + digit b, rest2)
            else if in_range 49 50 a && is_digit b
            then Some (digit a * 10 + digit b, rest2)
            else if (code a =? 48) && in_range 49 57 b
            then Some (digit b, rest2)
            else None
        | EmptyString => None
        end in
      match two with
      | Some r => Some r
      | None =>
          if in_range 49 57 a then Some (digit a, rest1)
          else
            match rest1 with
            | String b rest2 =>
                if (code a =? 32) && in_range 49 57 b
                then Some (digit b, rest2) else None
            | EmptyString => None
            end
      end
  | EmptyString => None
  end.

(** A literal ["-"]. *)
Definition re_dash (s : str) : option str :=
  match s with
  | String c rest => if code c =? 45 then Some rest else None
  | EmptyString => None
  end.

(** After the year: a dash, then the first month alternative after which
    a dash and a day match. *)
Fixpoint re_month_day (alts : list (Z * str)) : option (Z * Z * str) :=
  match alts with
  | [] => None
  | (m, rest) :: alts' =>
      match rest' ← re_dash rest; re_d rest' with
      | Some (d, tail) => Some (m, d, tail)
      | None => re_month_day alts'
      end
  end.

(** [format_regex.match(s)] for the format ['%Y-%m-%d']: the three
    fields and the text left after the match. *)
Definition re_match (s : str) : option (Z * Z * Z * str) :=
  '(y, rest) ← re_Y s;
  rest' ← re_dash rest;
  '(m, d, tail) ← re_month_day (re_m rest');
  Some (y, m, d, tail).

(** [datetime.strptime(s, '%Y-%m-%d')], as the date it denotes;
    [repr] is Python's [repr] on strings. *)
Definition strptime (repr : str -> str) (s : str) : result (Z * Z * Z) :=
  match re_match s with
  | None =>
      Raise (PyExc "ValueError"
               ("time data " +:+ repr s
                +:+ " does not match format '%Y-%m-%d'"))
  | Some (y, m, d, tail) =>
      if PyStr.truthy tail
      then Raise (PyExc "ValueError"
                    ("unconverted data remains: " +:+ tail))
      else if y <? 1
      then Raise (PyExc "ValueError"
                    ("year " +:+ str_of_Z y +:+ " is out of range"))
      else if days_in_month y m <? d
      then Raise (PyExc "ValueError" "day is out of range for month")
      else Ok (y, m, d)
  end.

(** The character of a decimal digit. *)
Definition digit_char (n : Z) : ascii := ascii_of_N (Z.to_N (48 + n)).

Definition pad2 (n : Z) : str :=
  String (digit_char (n / 10)) (String (digit_char (n mod 10)) EmptyString).

Definition pad4 (n : Z) : str :=
  String (digit_char (n / 1000))
    (String (digit_char ((n / 100) mod 10))
       (String (digit_char ((n / 10) mod 10))
          (String (digit_char (n mod 10)) EmptyString))).

(** [date(y, m, d).isoformat()]: the ISO 8601 form YYYY-MM-DD. *)
Definition isoformat (y m d : Z) : str :=
  pad4 y +:+ "-" +:+ pad2 m +:+ "-" +:+ pad2 d.

End Datetime.

(** ** Python's comparisons on JSON values and [sorted] *)

Module PyCompare.
Import PyStr Py.

(** [type(v).__name__] *)
Definition type_name (v : json) : str :=
  match v with
  | JNull => "NoneType"
  | JBool _ => "bool"
  | JNum _ => "int"
  | JStr _ => "str"
  | JList _ => "list"
  | JObj _ => "dict"
  end.

(** The number a value stands for; [bool] is a subclass of [int]. *)
Definition num_of (v : json) : option Z :=
  match v with
  | JBool b => Some (Z.b2z b)
  | JNum n => Some n
  | _ => None
  end.

(** [a == b] *)
Fixpoint py_eq (a b : json) {struct a} : bool :=
  match a, b with
  | JNull, JNull => true
  | JStr s, JStr t => String.eqb s t
  | JList l, JList m =>
      (fix eq_list (l m : list json) {struct l} : bool :=
         match l, m with
         | [], [] => true
         | x :: l', y :: m' => py_eq x y && eq_list l' m'
         | _, _ => false
         end) l m
  | JObj x, JObj y =>
      (Nat.eqb (length x) (length y))
      && (fix eq_items (x : list (str * json)) {struct x} : bool :=
            match x with
            | [] => true
            | (k, v) :: x' =>
                match dict_get y k with
                | Some w => py_eq v w && eq_items x'
                | None => false
                end
            end) x
  | _, _ =>
      match num_of a, num_of b with
      | Some x, Some y => x =? y
      | _, _ => false
      end
  end.

Definition not_supported (a b : json) : exn :=
  PyExc "TypeError"
    ("'<' not supported between instances of '" +:+ type_name a
     +:+ "' and '" +:+ type_name b +:+ "'").

(** [a < b] *)
Fixpoint py_lt (a b : json) {struct a} : result bool :=
  match a, b with
  | JStr s, JStr t => Ok (String.ltb s t)
  | JList l, JList m =>
      (fix lt_list (l m : list json) {struct l} : result bool :=
         match l, m with
         | [], [] => Ok false
         | [], _ :: _ => Ok true
         | _ :: _, [] => Ok false
         | x :: l', y :: m' =>
             if py_eq x y then lt_list l' m' else py_lt x y
         end) l m
  | _, _ =>
      match num_of a, num_of b with
      | Some x, Some y => Ok (x <? y)
      | _, _ => Raise (not_supported a b)
      end
  end.

(** [(a1, a2) < (b1, b2)] on pairs: the first components that differ
    decide. *)
Definition tuple_lt (a b : json * json) : result bool :=
  if py_eq (fst a) (fst b)
  then (if py_eq (snd a) (snd b) then Ok false else py_lt (snd a) (snd b))
  else py_lt (fst a) (fst b).

End PyCompare.

Module PySorted.
Import Py.

Section Sort.
Context {K A : Type}.
Variable lt : K -> K -> result bool.

(** Insert [x] after every element that is not greater than it. *)
Fixpoint insert (x : K * A) (l : list (K * A)) : result (list (K * A)) :=
  match l with
  | [] => Ok [x]
  | y :: l' =>
      b ← lt (fst x) (fst y);
      if b : bool then Ok (x :: y :: l')
      else r ← insert x l'; Ok (y :: r)
  end.

(** Insert the elements of [l], from left to right, into [acc]. *)
Fixpoint sort_into (acc l : list (K * A)) : result (list (K * A)) :=
  match l with
  | [] => Ok acc
  | x :: l' => acc' ← insert x acc; sort_into acc' l'
  end.

(** [f x] for every [x] of [l], left to right. *)
Fixpoint decorate (key : A -> result K) (l : list A)
  : result (list (K * A)) :=
  match l with
  | [] => Ok []
  | x :: l' => k ← key x; r ← decorate key l'; Ok ((k, x) :: r)
  end.

(** [sorted(l, key=key)]: the keys are computed first, then the list is
    sorted by them with [<] alone, equal keys keeping their order.  A
    stable sort has one result, so the order of the comparisons only
    matters when one of them raises. *)
Definition sorted (key : A -> result K) (l : list A) : result (list A) :=
  d ← decorate key l;
  s ← sort_into [] d;
  Ok (map snd s).

End Sort.

End PySorted.

(** ** The world a request runs in *)

Module World.
Import PyStr Py Os.

(** The state a request can observe and change: the file system, the
    prompts sent to the LLM service so far, and the lines printed. *)
Record world (FS : Type) : Type := mkWorld {
  fs : FS;
  llm_calls : list str;
  stdout : list str;
}.
Arguments mkWorld {FS} _ _ _.
Arguments fs {FS} _.
Arguments llm_calls {FS} _.
Arguments stdout {FS} _.

(** A computation that may raise and may change the world; a raised
    exception keeps the changes made before it. *)
Definition M (FS A : Type) : Type := world FS -> result A * world FS.

Definition ret {FS A} (a : A) : M FS A := fun w => (Ok a, w).
Definition raise {FS A} (e : exn) : M FS A := fun w => (Raise e, w).
Definition lift {FS A} (r : result A) : M FS A := fun w => (r, w).
Definition bind {FS A B} (m : M FS A) (k : A -> M FS B) : M FS B :=
  fun w =>
    match m w with
    | (Ok a, w') => k a w'
    | (Raise e, w') => (Raise e, w')
    end.

#[global] Instance M_ret {FS} : MRet (M FS) := fun A a => ret a.
#[global] Instance M_bind {FS} : MBind (M FS) := fun A B k m => bind m k.

(** [try: m  except Exception as e: h e] *)
Definition try_except {FS A} (m : M FS A) (h : exn -> M FS A) : M FS A :=
  fun w =>
    match m w with
    | (Ok a, w') => (Ok a, w')
    | (Raise e, w') => h e w'
    end.

(** [print(s)] *)
Definition print {FS} (s : str) : M FS unit :=
  fun w => (Ok tt, mkWorld (fs w) (llm_calls w) (stdout w ++ [s])).

(** What lies outside the modelled sources: the LLM service, the [json]
    module, [repr], and the bodies of the handlers that run external
    programs, query the model or a database. *)
Class Env (FS : Type) : Type := {
  (** what [_classify_task] gets from
      [LLMClient.get_completion(prompt)]: the text of the completion, or
      the exception raised.  A completion that is not a string makes
      [json.loads] raise [TypeError] at once, and stands here as that
      exception; the handlers that use a completion otherwise call the
      client itself ([LLMClient.get_completion]). *)
  gateway : str -> result str;
  (** [json.loads(s)] *)
  json_loads : str -> result json;
  (** [json.dumps(v, indent=2)] *)
  json_dumps : json -> str;
  (** [repr(s)] of a string *)
  repr_str : str -> str;
  (** [str(v)] of a list or a dict *)
  str_container : json -> str;
  (** the body of a handler method that is not modelled here *)
  external : str -> json -> M FS json;
}.

Section Ops.
Context {FS : Type} `{!OS FS} `{!Env FS}.

(** [await self.llm_client.get_completion(prompt)] in [_classify_task] *)
Definition get_completion (prompt : str) : M FS str :=
  fun w =>
    (gateway prompt,
     mkWorld (fs w) (llm_calls w ++ [prompt]) (stdout w)).

(** [with open(p) as f: f.read()] *)
Definition read_file_text (p : str) : M FS str :=
  fun w => (open_read (fs w) p, w).

(** [with open(p, 'w') as f: f.write(s)] *)
Definition write_file_text (p s : str) : M FS unit :=
  fun w =>
    let '(r, fs') := open_write (fs w) p s in
    (r, mkWorld fs' (llm_calls w) (stdout w)).

(** [str(v)] *)
Definition py_str (v : json) : str :=
  match v with
  | JStr s => s
  | JNum n => str_of_Z n
  | JBool true => "True"
  | JBool false => "False"
  | JNull => "None"
  | JList _ | JObj _ => str_container v
  end.

End Ops.

End World.

(** ** [src/handlers/task_handlers.py] *)

Module TaskHandler.
Import PyStr Py Os World.

Definition nl : str := String (ascii_of_nat 10) EmptyString.

(** [self.data_dir / name] *)
Definition data_dir (name : str) : str := "/data/" +:+ name.

(** [f.readlines()]: the lines of a text, each with its newline. *)
Fixpoint readlines (s : str) : list str :=
  match s with
  | EmptyString => []
  | String c s' =>
      if Ascii.eqb c (ascii_of_nat 10) then String c EmptyString :: readlines s'
      else
        match readlines s' with
        | [] => [String c EmptyString]
        | l :: ls => String c l :: ls
        end
  end.

(** The methods the class body defines. *)
Definition TaskHandler_methods : list str :=
  [ "__init__"; "handle_task"; "_classify_task";
    "_handle_uv_installation"; "_handle_markdown_formatting";
    "_handle_weekday_counting"; "_handle_contact_sorting";
    "_handle_recent_logs"; "_handle_markdown_index";
    "_handle_email_extraction"; "_handle_card_extraction";
    "_handle_similar_comments"; "_handle_database_query" ].

(** The items of the [handlers] dict of [handle_task], in source order:
    task type and the method bound to it. *)
Definition handler_items : list (str * str) :=
  [ ("install_uv", "_handle_uv_installation");
    ("format_markdown", "_handle_markdown_formatting");
    ("count_weekdays", "_handle_weekday_counting");
    ("sort_contacts", "_handle_contact_sorting");
    ("recent_logs", "_handle_recent_logs");
    ("create_index", "_handle_markdown_index");
    ("extract_email", "_handle_email_extraction");
    ("extract_card", "_handle_card_extraction");
    ("find_similar", "_handle_similar_comments");
    ("query_database", "_handle_database_query");
    ("fetch_api", "_handle_api_fetch");
    ("git_operations", "_handle_git_ops");
    ("scrape_website", "_handle_web_scraping");
    ("process_image", "_handle_image_processing");
    ("process_audio", "_handle_audio_processing");
    ("convert_markdown", "_handle_markdown_conversion");
    ("filter_csv", "_handle_csv_filtering") ].

(** The Operation Registry's key set. *)
Definition registry_keys : list str := map fst handler_items.

Definition success : json := JObj [("status", JStr "success")].

Section WithEnv.
Context {FS : Type} `{!OS FS} `{!Env FS}.

(** The methods of the [TaskHandler] object; [TaskHandler_methods] for
    the class as it is written. *)
Variable methods : list str.

(** [self.<name>] for a method name. *)
Definition getattr (name : str) : result str :=
  if existsb (String.eqb name) methods then Ok name
  else Raise (PyExc "AttributeError"
                ("'TaskHandler' object has no attribute '" +:+ name
                 +:+ "'")).

(** Evaluation of the dict display [{key: self.method, ...}]. *)
Fixpoint build_handlers (items : list (str * str)) (acc : gmap str str)
  : result (gmap str str) :=
  match items with
  | [] => Ok acc
  | (k, name) :: items' =>
      h ← getattr name; build_handlers items' (<[k := h]> acc)
  end.

(** [handlers.get(task_type)] *)
Definition handlers_get (handlers : gmap str str) (task_type : json)
  : result (option str) :=
  match task_type with
  | JStr s => Ok (handlers !! s)
  | JList _ => Raise (PyExc "TypeError" "unhashable type: 'list'")
  | JObj _ => Raise (PyExc "TypeError" "unhashable type: 'dict'")
  | JNull | JBool _ | JNum _ => Ok None
  end.

(** [except Exception as e: raise Exception(f"{prefix}{str(e)}")] *)
Definition reraise {A} (prefix : str) (m : M FS A) : M FS A :=
  try_except m
    (fun e => raise (PyExc "Exception" (prefix +:+ str_exn e))).

(** [sum(1 for date in dates
         if datetime.strptime(date.strip(), '%Y-%m-%d').weekday() == 2)] *)
Fixpoint count_wednesdays (dates : list str) : result Z :=
  match dates with
  | [] => Ok 0
  | date :: dates' =>
      '(y, m, d) ← Datetime.strptime repr_str (strip date);
      n ← count_wednesdays dates';
      Ok ((if Datetime.weekday y m d =? 2 then 1 else 0) + n)
  end.

(** A3: count the Wednesdays of [/data/dates.txt]. *)
Definition _handle_weekday_counting (params : json) : M FS json :=
  reraise "Failed to count weekdays: "
    (let dates_file := data_dir "dates.txt" in
     let output_file := data_dir "dates-wednesdays.txt" in
     text ← read_file_text dates_file;
     let dates := readlines text in
     count ← lift (count_wednesdays dates);
     _ ← write_file_text output_file (str_of_Z count);
     mret success).

(** Iteration over a value, as [sorted] does it. *)
Definition iterate (v : json) : result (list json) :=
  match v with
  | JList l => Ok l
  | JObj m => Ok (map (fun kv => JStr (fst kv)) m)
  | JStr s =>
      Ok (map (fun c => JStr (String c EmptyString))
            (list_ascii_of_string s))
  | _ =>
      Raise (PyExc "TypeError"
               ("'" +:+ PyCompare.type_name v
                +:+ "' object is not iterable"))
  end.

(** [lambda x: (x['last_name'], x['first_name'])] *)
Definition contact_key (x : json) : result (json * json) :=
  last ← getitem x "last_name";
  first ← getitem x "first_name";
  Ok (last, first).

(** A4: sort [/data/contacts.json] by last name, then first name. *)
Definition _handle_contact_sorting (params : json) : M FS json :=
  reraise "Failed to sort contacts: "
    (let input_file := data_dir "contacts.json" in
     let output_file := data_dir "contacts-sorted.json" in
     text ← read_file_text input_file;
     contacts ← lift (json_loads text);
     sorted_contacts ←
       lift (items ← iterate contacts;
             PySorted.sorted PyCompare.tuple_lt contact_key items);
     _ ← write_file_text output_file (json_dumps (JList sorted_contacts));
     mret success).

(** [await handler(params)] for the bound method [name]. *)
Definition call_method (name : str) (params : json) : M FS json :=
  if String.eqb name "_handle_weekday_counting"
  then _handle_weekday_counting params
  else if String.eqb name "_handle_contact_sorting"
  then _handle_contact_sorting params
  else external name params.

(** The prompt of [_classify_task]. *)
Definition classify_prompt (task : str) : str :=
  nl +:+ "        Classify the following task and extract relevant parameters:"
  +:+ nl +:+ "        " +:+ task
  +:+ nl +:+ "        "
  +:+ nl +:+ "        Return a JSON with:"
  +:+ nl +:+ "        - task_type: one of [install_uv, format_markdown, count_weekdays, ...]"
  +:+ nl +:+ "        - parameters: dictionary of relevant parameters"
  +:+ nl +:+ "        ".

(** [_classify_task(task)] *)
Definition _classify_task (task : str) : M FS json :=
  response ← get_completion (classify_prompt task);
  lift (json_loads response).

(** The first step of [handle_task]: the classification and its two
    fields. *)
Definition classify (task : str) : M FS (json * json) :=
  classification ← _classify_task task;
  task_type ← lift (getitem classification "task_type");
  params ← lift (getitem classification "parameters");
  mret (task_type, params).

(** The rest of [handle_task]: build the [handlers] dict, look the
    handler up and call it. *)
Definition dispatch (task_type params : json) : M FS json :=
  handlers ← lift (build_handlers handler_items ∅);
  handler ← lift (handlers_get handlers task_type);
  match handler with
  | None =>
      raise (PyExc "ValueError"
               ("Unknown task type: " +:+ py_str task_type))
  | Some h => call_method h params
  end.

(** [handle_task(task)] *)
Definition handle_task (task : str) : M FS json :=
  '(task_type, params) ← classify task;
  dispatch task_type params.

End WithEnv.

End TaskHandler.

(** ** [src/main.py] *)

Module Main.
Import PyStr Py Os World.

(** A successful response of an endpoint; its status is 200. *)
Inductive response : Type :=
| JSONResponse (body : json)
| PlainTextResponse (content : str).

(** The status code FastAPI answers with: 200 for a returned response,
    the code of a raised [HTTPException], 500 for any other exception. *)
Definition status_code (r : result response) : Z :=
  match r with
  | Ok _ => 200
  | Raise (HTTPException s _) => s
  | Raise (PyExc _ _) => 500
  end.

Section WithEnv.
Context {FS : Type} `{!OS FS} `{!Env FS}.

Variable methods : list str.

(** The [try] block of [run_task]. *)
Definition run_task_body (task : str) : M FS response :=
  if negb (truthy task) || negb (Validators.is_valid_task task)
  then raise (HTTPException 400 "Invalid task description")
  else
    result ← TaskHandler.handle_task methods task;
    mret (JSONResponse
            (JObj [("status", JStr "success"); ("result", result)])).

(** [POST /run]: [run_task(task)] *)
Definition run_task (task : str) : M FS response :=
  try_except (run_task_body task)
    (fun e =>
       _ ← print ("Error executing task: " +:+ str_exn e);
       if is_HTTPException e then raise e
       else if contains "Invalid" (str_exn e)
               || contains "Failed to parse" (str_exn e)
       then raise (HTTPException 400 (str_exn e))
       else raise (HTTPException 500
                     ("Internal server error: " +:+ str_exn e))).

(** The [try] block of [read_file]. *)
Definition read_file_body (path : str) : M FS response :=
  fun w =>
    (if negb (Security.validate_path (fs w) path)
     then Raise (HTTPException 400
                   "Invalid path: Must be within /data directory")
     else
       present ← path_exists (fs w) path;
       if negb present
       then Raise (HTTPException 404 ("File not found: " +:+ path))
       else
         content ← read_text (fs w) path;
         Ok (PlainTextResponse content),
     w).

(** [GET /read]: [read_file(path)] *)
Definition read_file (path : str) : M FS response :=
  try_except (read_file_body path)
    (fun e =>
       _ ← print ("Error reading file: " +:+ str_exn e);
       if is_HTTPException e then raise e
       else raise (HTTPException 500
                     ("Internal server error: " +:+ str_exn e))).

(** [GET /health] *)
Definition health_check : json := JObj [("status", JStr "healthy")].

End WithEnv.

End Main.

(** ** A POSIX file system

    An implementation of the [OS] interface: directories, regular files
    and symbolic links, the kernel's path walk, and [os.path.realpath]
    (not strict) as [Path.resolve] uses it. *)

Module Posix.
Import PyStr Py Os.

Inductive node : Type :=
| Dir
| File (access : bool) (text : str)   (* [access]: mode allows read/write *)
| Binary (access : bool)              (* a regular file that is not text *)
| Symlink (target : str).

(** The nodes by canonical absolute path ("/a/b"; the root "/" is a
    directory and has no entry), and the working directory of the
    process. *)
Record filesystem : Type := mkFs {
  nodes : gmap str node;
  cwd : list str;
}.

Definition slash : ascii := ascii_of_nat 47.

(** [s.split('/')] *)
Fixpoint split_slash (s : str) : list str :=
  match s with
  | EmptyString => [EmptyString]
  | String c s' =>
      if Ascii.eqb c slash then EmptyString :: split_slash s'
      else
        match split_slash s' with
        | [] => [String c EmptyString]
        | x :: xs => String c x :: xs
        end
  end.

(** The parts of a path as [pathlib] and the kernel see them: empty
    parts and "." are dropped, ".." is kept. *)
Definition components (s : str) : list str :=
  filter (fun c => negb (String.eqb c "") && negb (String.eqb c "."))
    (split_slash s).

Definition is_abs (s : str) : bool := startswith s "/".

Definition render (cs : list str) : str :=
  match cs with
  | [] => "/"
  | _ => fold_right (fun c r => "/" +:+ c +:+ r) "" cs
  end.

Definition lookup_node (fs : filesystem) (cs : list str) : option node :=
  match cs with
  | [] => Some Dir
  | _ => nodes fs !! render cs
  end.

Definition start (fs : filesystem) (p : str) : list str :=
  if is_abs p then [] else cwd fs.

(** [os.path.realpath(p)], not strict: symbolic links are followed, a
    part that does not exist is kept, and ".." drops the last part of
    the path built so far.  [links] bounds the links followed; [None]
    stands for a loop. *)
Fixpoint realpath_from (links : nat) (fs : filesystem)
    (cur rest : list str) {struct links} : option (list str) :=
  (fix go (cur rest : list str) {struct rest} : option (list str) :=
     match rest with
     | [] => Some cur
     | name :: rest' =>
         if String.eqb name ".." then go (removelast cur) rest'
         else
           let p := (cur ++ [name])%list in
           match lookup_node fs p with
           | Some (Symlink target) =>
               match links with
               | O => None
               | S links' =>
                   realpath_from links' fs
                     (if is_abs target then [] else cur)
                     (components target ++ rest')%list
               end
           | _ => go p rest'
           end
     end) cur rest.

Inductive errno : Type := ENOENT | ENOTDIR | ELOOP.

(** The kernel's path walk: every part but ".." must exist, and every
    part walked through must be a directory. *)
Fixpoint namei_from (links : nat) (fs : filesystem)
    (cur rest : list str) {struct links} : errno + list str :=
  (fix go (cur rest : list str) {struct rest} : errno + list str :=
     match rest with
     | [] => inr cur
     | name :: rest' =>
         match lookup_node fs cur with
         | Some Dir =>
             if String.eqb name ".." then go (removelast cur) rest'
             else
               let p := (cur ++ [name])%list in
               match lookup_node fs p with
               | None => inl ENOENT
               | Some (Symlink target) =>
                   match links with
                   | O => inl ELOOP
                   | S links' =>
                       namei_from links' fs
                         (if is_abs target then [] else cur)
                         (components target ++ rest')%list
                   end
               | Some _ => go p rest'
               end
         | _ => inl ENOTDIR
         end
     end) cur rest.

Definition max_links : nat := 40.

Definition has_nul (p : str) : bool :=
  existsb (fun c => Ascii.eqb c (ascii_of_nat 0)) (list_ascii_of_string p).

Definition realpath (fs : filesystem) (p : str) : option (list str) :=
  realpath_from max_links fs (start fs p) (components p).

Definition namei (fs : filesystem) (p : str) : errno + list str :=
  namei_from max_links fs (start fs p) (components p).

(** [os.stat(p)]: the node the path leads to. *)
Definition stat (fs : filesystem) (p : str) : errno + node :=
  match namei fs p with
  | inl e => inl e
  | inr cs =>
      match lookup_node fs cs with
      | Some n => inr n
      | None => inl ENOENT
      end
  end.

Definition os_error (e : errno) (p : str) : exn :=
  match e with
  | ENOENT =>
      PyExc "FileNotFoundError"
        ("[Errno 2] No such file or directory: '" +:+ p +:+ "'")
  | ENOTDIR =>
      PyExc "NotADirectoryError"
        ("[Errno 20] Not a directory: '" +:+ p +:+ "'")
  | ELOOP =>
      PyExc "OSError"
        ("[Errno 40] Too many levels of symbolic links: '" +:+ p +:+ "'")
  end.

Definition null_byte : exn := PyExc "ValueError" "embedded null byte".

Definition posix_resolve (fs : filesystem) (p : str) : result str :=
  if has_nul p then Raise null_byte
  else
    match realpath fs p with
    | Some cs => Ok (render cs)
    | None => Raise (PyExc "RuntimeError" ("Symlink loop from '" +:+ p +:+ "'"))
    end.

Definition posix_is_file (fs : filesystem) (p : str) : result bool :=
  if has_nul p then Ok false
  else
    match stat fs p with
    | inr (File _ _) | inr (Binary _) => Ok true
    | _ => Ok false
    end.

Definition posix_exists (fs : filesystem) (p : str) : result bool :=
  if has_nul p then Ok false
  else
    match stat fs p with
    | inr _ => Ok true
    | inl _ => Ok false
    end.

(** A text as text mode reads it: a carriage return, with the line feed
    after it when there is one, is read as one line feed. *)
Fixpoint universal_newlines (s : str) : str :=
  match s with
  | EmptyString => EmptyString
  | String c s' =>
      if Ascii.eqb c (ascii_of_nat 13) then
        String (ascii_of_nat 10)
          match s' with
          | String c' s'' =>
              if Ascii.eqb c' (ascii_of_nat 10) then universal_newlines s''
              else universal_newlines s'
          | EmptyString => EmptyString
          end
      else String c (universal_newlines s')
  end.

Definition posix_read (fs : filesystem) (p : str) : result str :=
  if has_nul p then Raise null_byte
  else
    match stat fs p with
    | inr (File true text) => Ok (universal_newlines text)
    | inr (Binary true) =>
        Raise (PyExc "UnicodeDecodeError"
                 "'utf-8' codec can't decode byte 0x89 in position 0: invalid start byte")
    | inr (File false _) | inr (Binary false) =>
        Raise (PyExc "PermissionError"
                 ("[Errno 13] Permission denied: '" +:+ p +:+ "'"))
    | inr _ =>
        Raise (PyExc "IsADirectoryError"
                 ("[Errno 21] Is a directory: '" +:+ p +:+ "'"))
    | inl e => Raise (os_error e p)
    end.

Definition posix_write (fs : filesystem) (p s : str)
  : result unit * filesystem :=
  if has_nul p then (Raise null_byte, fs)
  else
    match namei fs p with
    | inr cs =>
        match lookup_node fs cs with
        | Some (File true _) | Some (Binary true) =>
            (Ok tt, mkFs (<[render cs := File true s]> (nodes fs)) (cwd fs))
        | Some (File false _) | Some (Binary false) =>
            (Raise (PyExc "PermissionError"
                      ("[Errno 13] Permission denied: '" +:+ p +:+ "'")),
             fs)
        | _ =>
            (Raise (PyExc "IsADirectoryError"
                      ("[Errno 21] Is a directory: '" +:+ p +:+ "'")), fs)
        end
    | inl _ =>
        let cs := components p in
        match namei_from max_links fs (start fs p) (removelast cs),
              List.last cs ".." with
        | inr dir, name =>
            match lookup_node fs dir, lookup_node fs (dir ++ [name])%list with
            | Some Dir, None =>
                (Ok tt,
                 mkFs (<[render (dir ++ [name])%list := File true s]> (nodes fs))
                   (cwd fs))
            | Some Dir, Some _ => (Raise (os_error ELOOP p), fs)
            | _, _ => (Raise (os_error ENOTDIR p), fs)
            end
        | inl e, _ => (Raise (os_error e p), fs)
        end
    end.

#[global] Instance posix_os : OS filesystem := {|
  resolve := posix_resolve;
  is_file := posix_is_file;
  path_exists := posix_exists;
  read_text := posix_read;
  open_read := posix_read;
  open_write := posix_write;
|}.

(** *** A sample file system

    /data/x.txt, /data/secret.txt (mode 000) and /data/credit-card.png
    (an image) are regular files, /data/link points to /etc/passwd,
    /data2/x.txt is a regular file in a sibling of /data. *)
Definition sample : filesystem :=
  mkFs
    (list_to_map
       [ ("/data", Dir);
         ("/data/x.txt", File true "hello");
         ("/data/secret.txt", File false "s3cr3t");
         ("/data/credit-card.png", Binary true);
         ("/data/link", Symlink "/etc/passwd");
         ("/data/loop", Symlink "loop");
         ("/data2", Dir);
         ("/data2/x.txt", File true "outside");
         ("/etc", Dir);
         ("/etc/passwd", File true "root:x:0:0") ])
    [].

End Posix.

(** ** Environments for the examples *)

Module SampleEnv.
Import PyStr Py Os World.

(** The double quote. *)
Definition q : str := String (ascii_of_nat 34) EmptyString.

Definition quoted (s : str) : str := q +:+ s +:+ q.

(** ["key": value] *)
Definition member (k v : str) : str := quoted k +:+ ": " +:+ v.

(** [json.loads] on the texts of [table]; any other text is taken not to
    be JSON. *)
Fixpoint loads_table (table : list (str * json)) (s : str) : result json :=
  match table with
  | [] =>
      Raise (PyExc "JSONDecodeError"
               "Expecting value: line 1 column 1 (char 0)")
  | (t, v) :: table' =>
      if String.eqb s t then Ok v else loads_table table' s
  end.

(** [json.dumps(v, indent=2)] for values whose strings are plain
    (printable ASCII without quotes or backslashes). *)
Fixpoint dumps (indent : str) (v : json) {struct v} : str :=
  match v with
  | JNull => "null"
  | JBool true => "true"
  | JBool false => "false"
  | JNum n => str_of_Z n
  | JStr s => quoted s
  | JList [] => "[]"
  | JList (x :: l) =>
      let inner := indent +:+ "  " in
      "[" +:+ TaskHandler.nl +:+ inner +:+ dumps inner x
      +:+ (fix rest (l : list json) : str :=
             match l with
             | [] => ""
             | y :: l' =>
                 "," +:+ TaskHandler.nl +:+ inner +:+ dumps inner y +:+ rest l'
             end) l
      +:+ TaskHandler.nl +:+ indent +:+ "]"
  | JObj [] => "{}"
  | JObj ((k, x) :: m) =>
      let inner := indent +:+ "  " in
      "{" +:+ TaskHandler.nl +:+ inner +:+ member k (dumps inner x)
      +:+ (fix rest (m : list (str * json)) : str :=
             match m with
             | [] => ""
             | (k', y) :: m' =>
                 "," +:+ TaskHandler.nl +:+ inner
                 +:+ member k' (dumps inner y) +:+ rest m'
             end) m
      +:+ TaskHandler.nl +:+ indent +:+ "}"
  end.

(** The service answers every prompt with [reply]; [json.loads] reads the
    texts of [table]; the handlers that are not modelled succeed without
    effect. *)
Definition env (FS : Type) (reply : result str) (table : list (str * json))
  : Env FS := {|
  gateway := fun _ => reply;
  json_loads := loads_table table;
  json_dumps := dumps "";
  repr_str := fun s => "'" +:+ s +:+ "'";
  str_container := dumps "";
  external := fun _ _ => ret TaskHandler.success;
|}.

(** The class with the seven methods it lacks added. *)
Definition completed_methods : list str :=
  (TaskHandler.TaskHandler_methods
   ++ [ "_handle_api_fetch"; "_handle_git_ops"; "_handle_web_scraping";
        "_handle_image_processing"; "_handle_audio_processing";
        "_handle_markdown_conversion"; "_handle_csv_filtering" ])%list.

(** The answer [{"task_type": t, "parameters": {}}] as text and as value. *)
Definition classification_text (t : str) : str :=
  "{" +:+ member "task_type" (quoted t) +:+ ", "
  +:+ member "parameters" "{}" +:+ "}".

Definition classification (t : str) : json :=
  JObj [("task_type", JStr t); ("parameters", JObj [])].

(** The service classifies every task as [t]. *)
Definition classifies_as (FS : Type) (t : str) : Env FS :=
  env FS (Ok (classification_text t))
    [(classification_text t, classification t)].

(** An empty world over the sample file system. *)
Definition world0 : world Posix.filesystem := mkWorld Posix.sample [] [].

(** The sample file system with a file of dates. *)
Definition dates_text : str :=
  "2024-01-01" +:+ TaskHandler.nl +:+ "2024-01-03" +:+ TaskHandler.nl
  +:+ "2024-01-10" +:+ TaskHandler.nl.

Definition with_file (fs : Posix.filesystem) (path text : str)
  : Posix.filesystem :=
  Posix.mkFs (<[path := Posix.File true text]> (Posix.nodes fs))
    (Posix.cwd fs).

Definition dates_world : world Posix.filesystem :=
  mkWorld (with_file Posix.sample "/data/dates.txt" dates_text) [] [].

(** Contact records. *)
Definition contact (last first : json) : json :=
  JObj [("first_name", first); ("last_name", last)].

Definition contacts : list json :=
  [ contact (JStr "Smith") (JStr "Bob");
    contact (JStr "Adams") (JStr "Zoe");
    JObj [("first_name", JStr "Al"); ("last_name", JStr "Smith");
          ("email", JStr "al@example.com")];
    contact (JStr "Adams") (JStr "Zoe") ].

(** Two records, one of them with [null] for last name. *)
Definition mixed_contacts : list json :=
  [ contact JNull (JStr "a"); contact (JStr "b") (JStr "c") ].

(** A world whose /data/contacts.json holds [records], with a [json]
    module that reads it. *)
Definition contacts_world (records : list json) : world Posix.filesystem :=
  mkWorld
    (with_file Posix.sample "/data/contacts.json" (dumps "" (JList records)))
    [] [].

Definition contacts_env (records : list json) : Env Posix.filesystem :=
  env _ (Ok "") [(dumps "" (JList records), JList records)].

(** A task that passes validation. *)
Definition task : str := "sort the contacts file by name".

(** The exception of [LLMClient.get_completion] when the service refuses
    the token. *)
Definition invalid_token : exn :=
  PyExc "Exception" "LLM request failed: Invalid token".

End SampleEnv.

(** ** [src/main.py]: the client of the LLM service *)

Module LLMClient.
Import PyStr Py.

(** A request as [httpx] sends it: URL, headers, JSON body. *)
Record request : Type := mkRequest {
  url : str;
  headers : list (str * str);
  payload : json;
}.

(** The response: [response.status_code], [response.text] and the
    outcome of [response.json()]. *)
Record response : Type := mkResponse {
  r_status_code : Z;
  r_text : str;
  r_json : result json;
}.

(** [await client.post(url, headers=..., json=...)] *)
Class Http : Type := {
  post : request -> result response;
}.

(** [v[i]] for an integer [i]. *)
Definition getitem_int (v : json) (i : Z) : result json :=
  match v with
  | JList l =>
      let n := Z.of_nat (length l) in
      let k := if i <? 0 then i + n else i in
      if (0 <=? k) && (k <? n) then
        match nth_error l (Z.to_nat k) with
        | Some x => Ok x
        | None => Raise (PyExc "IndexError" "list index out of range")
        end
      else Raise (PyExc "IndexError" "list index out of range")
  | JStr s =>
      let n := len s in
      let k := if i <? 0 then i + n else i in
      if (0 <=? k) && (k <? n) then
        match String.get (Z.to_nat k) s with
        | Some c => Ok (JStr (String c EmptyString))
        | None => Raise (PyExc "IndexError" "string index out of range")
        end
      else Raise (PyExc "IndexError" "string index out of range")
  | JObj _ => Raise (PyExc "KeyError" (str_of_Z i))
  | JNum _ => Raise (PyExc "TypeError" "'int' object is not subscriptable")
  | JBool _ => Raise (PyExc "TypeError" "'bool' object is not subscriptable")
  | JNull =>
      Raise (PyExc "TypeError" "'NoneType' object is not subscriptable")
  end.

Definition base_url : str := "YOUR_AI_PROXY_ENDPOINT".

(** The request of [get_completion]. *)
Definition completion_request (token prompt : str) : request :=
  mkRequest base_url
    [ ("Authorization", "Bearer " +:+ token);
      ("Content-Type", "application/json") ]
    (JObj
       [ ("model", JStr "gpt-4o-mini");
         ("messages",
          JList
            [ JObj [ ("role", JStr "system");
                     ("content", JStr "You are a task parsing assistant.") ];
              JObj [ ("role", JStr "user"); ("content", JStr prompt) ] ]) ]).

Section WithHttp.
Context `{!Http}.

(** [LLMClient(token).get_completion(prompt)] *)
Definition get_completion (token prompt : str) : result json :=
  response ← post (completion_request token prompt);
  if negb (r_status_code response =? 200)
  then Raise (PyExc "Exception"
                ("LLM request failed: " +:+ r_text response))
  else
    body ← r_json response;
    choices ← getitem body "choices";
    first ← getitem_int choices 0;
    message ← getitem first "message";
    getitem message "content".

End WithHttp.

End LLMClient.

(** ** More of [src/handlers/task_handlers.py]: the handlers A1, A2, A5,
    A6, A7 and A9 *)

Module OsDir.
Import Py.

(** The directory and time-stamp calls of the handlers, over a
    file-system state [FS]. *)
Class DirOS (FS : Type) : Type := {
  (** the paths that [Path(dir).glob(pattern)] yields, in its order and
      relative to [dir], and the exception that ends the iteration when
      there is one *)
  glob : FS -> str -> str -> list str * option exn;
  (** [Path(p).stat().st_mtime]; a float is a rational number *)
  st_mtime : FS -> str -> result Q;
  (** [with open(p) as f: f.readline()] *)
  open_readline : FS -> str -> result str;
}.

End OsDir.

Module PhaseA.
Import PyStr Py Os World TaskHandler OsDir.

(** [sep.join(l)] *)
Fixpoint join (sep : str) (l : list str) : str :=
  match l with
  | [] => ""
  | x :: l' =>
      match l' with
      | [] => x
      | _ :: _ => x +:+ sep +:+ join sep l'
      end
  end.

(** [s.split(sep)] for a separator of one character. *)
Fixpoint split (sep : ascii) (s : str) : list str :=
  match s with
  | EmptyString => [EmptyString]
  | String c s' =>
      if Ascii.eqb c sep then EmptyString :: split sep s'
      else
        match split sep s' with
        | [] => [String c EmptyString]
        | x :: xs => String c x :: xs
        end
  end.

(** [s[n:]] *)
Fixpoint slice_from (n : nat) (s : str) : str :=
  match n, s with
  | O, _ => s
  | S _, EmptyString => EmptyString
  | S n', String _ s' => slice_from n' s'
  end.

(** The characters at which [str.splitlines] breaks a line. *)
Definition is_linebreak (c : ascii) : bool :=
  let n := code c in
  ((10 <=? n) && (n <=? 13)) || ((28 <=? n) && (n <=? 30)) || (n =? 133).

(** [s.splitlines()]: a carriage return and the line feed after it are
    one break, and no empty line follows the last break. *)
Fixpoint splitlines (s : str) : list str :=
  match s with
  | EmptyString => []
  | String c s' =>
      if is_linebreak c then
        EmptyString ::
        match s' with
        | String c' s'' =>
            if Ascii.eqb c (ascii_of_nat 13) && Ascii.eqb c' (ascii_of_nat 10)
            then splitlines s'' else splitlines s'
        | EmptyString => []
        end
      else
        match splitlines s' with
        | [] => [String c EmptyString]
        | l :: ls => String c l :: ls
        end
  end.

(** [d[k] = v] on the items of a [dict]: a key that is there keeps its
    place. *)
Fixpoint dict_set {V : Type} (m : list (str * V)) (k : str) (v : V)
  : list (str * V) :=
  match m with
  | [] => [(k, v)]
  | (k', v') :: m' =>
      if String.eqb k k' then (k, v) :: m' else (k', v') :: dict_set m' k v
  end.

(** [a < b] on floats. *)
Definition float_lt (a b : Q) : result bool :=
  Ok (match Qcompare a b with Lt => true | _ => false end).

(** [sorted(l, key=key, reverse=True)]: the keys are computed in the
    order of [l]; the list is reversed, sorted as [sorted] does, and
    reversed again, so that equal keys keep their order. *)
Definition sorted_reverse {K A : Type} (lt : K -> K -> result bool)
    (key : A -> result K) (l : list A) : result (list A) :=
  d ← PySorted.decorate key l;
  s ← PySorted.sort_into lt [] (rev d);
  Ok (map snd (rev s)).

(** The first line that starts with "# ", without these two characters
    and trimmed: the inner loop of [_handle_markdown_index]. *)
Fixpoint first_heading (lines : list str) : option str :=
  match lines with
  | [] => None
  | line :: lines' =>
      if startswith line "# " then Some (strip (slice_from 2 line))
      else first_heading lines'
  end.

(** The prompt of [_handle_email_extraction]. *)
Definition email_prompt (email_content : str) : str :=
  nl +:+ "            Extract the sender's email address from this email:"
  +:+ nl +:+ "            " +:+ email_content
  +:+ nl +:+ "            Return only the email address, nothing else."
  +:+ nl +:+ "            ".

(** What [_handle_similar_comments] takes from outside the sources: the
    values the embeddings endpoint answers with, and what Python does
    with them. *)
Class Embeddings (FS : Type) : Type := {
  value : Type;
  (** the service's answer to [LLMClient.get_embeddings(texts)] *)
  embeddings_gateway : list str -> result value;
  (** [v[i]] *)
  item : value -> nat -> result value;
  (** the body of a method [_cosine_similarity], on an object that has
      one *)
  cosine_similarity : value -> value -> M FS value;
  (** the number [-1] *)
  minus_one : value;
  (** [a > b] *)
  gt : value -> value -> result bool;
}.

(** [subprocess.run(args, check=True)]: what the command does to the
    world, and the exception when it cannot be run or fails. *)
Class Subprocess (FS : Type) : Type := {
  subprocess_run : list json -> M FS unit;
}.

(** The index pairs [(i, j)] of the two nested loops
    [for i in range(n): for j in range(i + 1, n)], in the order they are
    visited. *)
Definition index_pairs (n : nat) : list (nat * nat) :=
  flat_map (fun i => map (pair i) (seq (S i) (n - S i))) (seq 0 n).

Section WithEnv.
Context {FS : Type} `{!OS FS} `{!Env FS} `{!DirOS FS} `{!Embeddings FS}.
Context `{!Subprocess FS} `{!LLMClient.Http}.

Variable methods : list str.

(** The token the client of the handler was built with. *)
Variable token : str.

(** [await self.llm_client.get_completion(prompt)] with the client of
    [src/main.py]: the value returned is the [content] of the answer,
    which need not be a string. *)
Definition await_completion (prompt : str) : M FS json :=
  fun w =>
    (LLMClient.get_completion token prompt,
     mkWorld (fs w) (llm_calls w ++ [prompt]) (stdout w)).

(** [v.strip()] *)
Definition value_strip (v : json) : result str :=
  match v with
  | JStr s => Ok (strip s)
  | _ =>
      Raise (PyExc "AttributeError"
               ("'" +:+ PyCompare.type_name v
                +:+ "' object has no attribute 'strip'"))
  end.

(** A1: download the installer of uv and the data generator, and run
    the generator with the e-mail address of the parameters. *)
Definition _handle_uv_installation (params : json) : M FS json :=
  reraise "Failed to handle uv installation: "
    (_ ← subprocess_run
           [JStr "curl"; JStr "-LsSf"; JStr "https://astral.sh/uv/install.sh"];
     let script_url :=
       "https://raw.githubusercontent.com/sanand0/tools-in-data-science-public/tds-2025-01/project-1/datagen.py" in
     _ ← subprocess_run [JStr "wget"; JStr script_url];
     email ← lift (getitem params "email");
     _ ← subprocess_run [JStr "python"; JStr "datagen.py"; email];
     mret success).

(** A2: format /data/format.md with prettier. *)
Definition _handle_markdown_formatting (params : json) : M FS json :=
  reraise "Failed to format markdown: "
    (let input_file := data_dir "format.md" in
     _ ← subprocess_run
           [JStr "npx"; JStr "prettier@3.4.2"; JStr "--write";
            JStr input_file];
     mret success).

(** [for x in items: s = body s x] *)
Fixpoint for_each {A S : Type} (items : list A) (body : S -> A -> M FS S)
    (s : S) : M FS S :=
  match items with
  | [] => mret s
  | x :: items' => s' ← body s x; for_each items' body s'
  end.

(** A loop over a generator: the items it yields, then its exception. *)
Definition for_each_yielded {A S : Type} (g : list A * option exn)
    (body : S -> A -> M FS S) (s : S) : M FS S :=
  s' ← for_each (fst g) body s;
  match snd g with
  | None => mret s'
  | Some e => raise e
  end.

(** [list(g)] for a generator. *)
Definition list_of_yielded {A : Type} (g : list A * option exn)
  : result (list A) :=
  match snd g with
  | None => Ok (fst g)
  | Some e => Raise e
  end.

(** [with open(p, 'w') as f: f.write(content)] where evaluating
    [content] may raise: the file is opened, and so created or emptied,
    before [content] is evaluated. *)
Definition write_file_result (p : str) (content : result str) : M FS unit :=
  match content with
  | Ok s => write_file_text p s
  | Raise e => _ ← write_file_text p ""; raise e
  end.

(** The body of the loop of [_handle_recent_logs]. *)
Definition read_first_line (logs_dir : str) (first_lines : list str)
    (log_file : str) : M FS (list str) :=
  fun w =>
    (line ← open_readline (fs w) (logs_dir +:+ "/" +:+ log_file);
     Ok (first_lines ++ [strip line])%list,
     w).

(** A5: the first lines of the ten most recent log files. *)
Definition _handle_recent_logs (params : json) : M FS json :=
  reraise "Failed to process log files: "
    (let logs_dir := data_dir "logs" in
     let output_file := data_dir "logs-recent.txt" in
     log_files ←
       (fun w =>
          (found ← list_of_yielded (glob (fs w) logs_dir "*.log");
           ordered ←
             sorted_reverse float_lt
               (fun x => st_mtime (fs w) (logs_dir +:+ "/" +:+ x)) found;
           Ok (firstn 10 ordered),
           w));
     first_lines ← for_each log_files (read_first_line logs_dir) [];
     _ ← write_file_text output_file (join nl first_lines);
     mret success).

(** The body of the loop of [_handle_markdown_index]. *)
Definition index_file (docs_dir : str) (index : list (str * json))
    (md_file : str) : M FS (list (str * json)) :=
  content ← read_file_text (docs_dir +:+ "/" +:+ md_file);
  match first_heading (split (ascii_of_nat 10) content) with
  | Some title => mret (dict_set index md_file (JStr title))
  | None => mret index
  end.

(** A6: the index of the first level-1 headings of the Markdown files. *)
Definition _handle_markdown_index (params : json) : M FS json :=
  reraise "Failed to create markdown index: "
    (let docs_dir := data_dir "docs" in
     let output_file := data_dir "docs/index.json" in
     index ←
       (fun w =>
          for_each_yielded (glob (fs w) docs_dir "**/*.md")
            (index_file docs_dir) [] w);
     _ ← write_file_text output_file (json_dumps (JObj index));
     mret success).

(** A7: the sender of an e-mail, as the LLM service reads it.  The
    output file is opened before the answer is trimmed. *)
Definition _handle_email_extraction (params : json) : M FS json :=
  reraise "Failed to extract email: "
    (let input_file := data_dir "email.txt" in
     let output_file := data_dir "email-sender.txt" in
     email_content ← read_file_text input_file;
     email ← await_completion (email_prompt email_content);
     _ ← write_file_result output_file (value_strip email);
     mret success).

(** [await self.llm_client.get_embeddings(texts)]; the texts sent are
    recorded with the prompts. *)
Definition get_embeddings (texts : list str) : M FS value :=
  fun w =>
    (embeddings_gateway texts,
     mkWorld (fs w) (llm_calls w ++ texts) (stdout w)).

(** The body of the two nested loops of [_handle_similar_comments]; the
    method is looked up before its arguments are evaluated. *)
Definition compare_pair (comments : list str) (embeddings : value)
    (state : value * option (str * str)) (ij : nat * nat)
  : M FS (value * option (str * str)) :=
  let '(max_similarity, similar_pair) := state in
  let '(i, j) := ij in
  _ ← lift (getattr methods "_cosine_similarity");
  ei ← lift (item embeddings i);
  ej ← lift (item embeddings j);
  similarity ← cosine_similarity ei ej;
  more ← lift (gt similarity max_similarity);
  if more : bool
  then mret (similarity, Some (nth i comments "", nth j comments ""))
  else mret (max_similarity, similar_pair).

(** ['\n'.join(similar_pair)] *)
Definition join_pair (similar_pair : option (str * str)) : result str :=
  match similar_pair with
  | Some (a, b) => Ok (join nl [a; b])
  | None => Raise (PyExc "TypeError" "can only join an iterable")
  end.

(** A9: the most similar pair of comments. *)
Definition _handle_similar_comments (params : json) : M FS json :=
  reraise "Failed to find similar comments: "
    (let input_file := data_dir "comments.txt" in
     let output_file := data_dir "comments-similar.txt" in
     text ← read_file_text input_file;
     let comments := splitlines text in
     embeddings ← get_embeddings comments;
     '(max_similarity, similar_pair) ←
       for_each (index_pairs (length comments))
         (compare_pair comments embeddings) (minus_one, None);
     _ ← write_file_result output_file (join_pair similar_pair);
     mret success).

End WithEnv.

End PhaseA.

(** ** A sample directory listing for the examples *)

Module SampleDir.
Import PyStr Py Os World OsDir TaskHandler.

(** The log files of /data/logs: name, time stamp, text. *)
Definition log_files : list (str * (Q * str)) :=
  [ ("app.log", (100 # 1, "started" +:+ nl +:+ "stopped" +:+ nl)%Q);
    ("db.log", (300 # 1, "  connected  " +:+ nl)%Q);
    ("web.log", (200 # 1, "listening")%Q) ].

(** The Markdown files of /data/docs: path relative to it, text. *)
Definition md_files : list (str * str) :=
  [ ("a.md", "# Alpha" +:+ nl +:+ "text" +:+ nl);
    ("sub/b.md", "intro" +:+ nl +:+ "#   Beta  " +:+ nl +:+ "# Other");
    ("c.md", "## second level" +:+ nl +:+ "#no space") ].

(** The entry of the file [p] of the directory [dir]. *)
Fixpoint entry {V : Type} (table : list (str * V)) (dir p : str) : option V :=
  match table with
  | [] => None
  | (name, v) :: table' =>
      if String.eqb p (dir +:+ "/" +:+ name) then Some v
      else entry table' dir p
  end.

Definition log_time (name : str) : Q :=
  match entry log_files "/data/logs" ("/data/logs/" +:+ name) with
  | Some (t, _) => t
  | None => 0
  end.

Definition first_line (text : str) : str :=
  match readlines text with
  | [] => ""
  | line :: _ => line
  end.

Definition log_line (name : str) : str :=
  match entry log_files "/data/logs" ("/data/logs/" +:+ name) with
  | Some (_, text) => first_line text
  | None => ""
  end.

Definition md_text (name : str) : str :=
  match entry md_files "/data/docs" ("/data/docs/" +:+ name) with
  | Some text => text
  | None => ""
  end.

Definition no_such_file (p : str) : exn :=
  PyExc "FileNotFoundError"
    ("[Errno 2] No such file or directory: '" +:+ p +:+ "'").

(** The listing of the two directories, whatever the rest of the file
    system. *)
#[global] Instance sample_dir {FS : Type} : DirOS FS := {|
  glob := fun _ dir pattern =>
    if String.eqb dir "/data/logs" && String.eqb pattern "*.log"
    then (map fst log_files, None)
    else if String.eqb dir "/data/docs" && String.eqb pattern "**/*.md"
    then (map fst md_files, None)
    else ([], None);
  st_mtime := fun _ p =>
    match entry log_files "/data/logs" p with
    | Some (t, _) => Ok t
    | None => Raise (no_such_file p)
    end;
  open_readline := fun _ p =>
    match entry log_files "/data/logs" p with
    | Some (_, text) => Ok (first_line text)
    | None => Raise (no_such_file p)
    end;
|}.

(** The sample file system with the Markdown files. *)
Definition docs_fs : Posix.filesystem :=
  Posix.mkFs
    (<["/data/docs" := Posix.Dir]>
       (<["/data/docs/sub" := Posix.Dir]>
          (<["/data/docs/a.md" := Posix.File true (md_text "a.md")]>
             (<["/data/docs/sub/b.md" := Posix.File true (md_text "sub/b.md")]>
                (<["/data/docs/c.md" := Posix.File true (md_text "c.md")]>
                   (Posix.nodes Posix.sample))))))
    [].

Definition docs_world : world Posix.filesystem := mkWorld docs_fs [] [].

End SampleDir.

(** ** A sample LLM service for the examples *)

Module SampleClient.
Import PyStr Py Os World TaskHandler LLMClient.

(** A service that answers every request with the status [status], the
    text [text] and, read as JSON, [body]. *)
Definition answering (status : Z) (text : str) (body : result json) : Http :=
  {| post := fun _ => Ok (mkResponse status text body) |}.

(** The environment of [_classify_task] whose service is the client with
    the bearer [token], over the transport [http]; the other fields are
    those of [base].  On a completion that is not a string [json.loads]
    raises the [TypeError] below before anything else happens. *)
Definition client_env {FS : Type} (http : Http) (token : str) (base : Env FS)
  : Env FS := {|
  gateway := fun prompt =>
    match @get_completion http token prompt with
    | Ok (JStr s) => Ok s
    | Ok v =>
        Raise (PyExc "TypeError"
                 ("the JSON object must be str, bytes or bytearray, not "
                  +:+ PyCompare.type_name v))
    | Raise e => Raise e
    end;
  json_loads := @json_loads _ base;
  json_dumps := @json_dumps _ base;
  repr_str := @repr_str _ base;
  str_container := @str_container _ base;
  external := @external _ base;
|}.

(** The service refuses the token. *)
Definition refusing : Http :=
  answering 401 "Invalid token"
    (Raise (PyExc "JSONDecodeError"
              "Expecting value: line 1 column 1 (char 0)")).

(** A world whose /data/email.txt holds an e-mail, and a service that
    answers with the address of its sender. *)
Definition email_text : str :=
  "From: Alice <alice@example.com>" +:+ nl +:+ "To: bob@example.com" +:+ nl
  +:+ nl +:+ "Hello" +:+ nl.

Definition email_world : world Posix.filesystem :=
  mkWorld (SampleEnv.with_file Posix.sample "/data/email.txt" email_text)
    [] [].

Definition email_answer : str := "  alice@example.com" +:+ nl.

(** The text of an argument of a command. *)
Definition py_str_plain (v : json) : str :=
  match v with
  | JStr s => s
  | _ => ""
  end.

(** Commands that succeed and leave their command line on the standard
    output. *)
Definition echoing {FS : Type} : PhaseA.Subprocess FS := {|
  PhaseA.subprocess_run := fun args w =>
    (Ok tt,
     mkWorld (fs w) (llm_calls w)
       (stdout w ++ [PhaseA.join " " (map py_str_plain args)]));
|}.

End SampleClient.

(** * Specifications

    The predicates in which the properties of the program are stated. *)

Module StrSpec.
Import PyStr.

(** [occurs sub s]: [sub] is a contiguous substring of [s]. *)
Definition occurs (sub s : str) : Prop :=
  exists pre post : str, s = pre +:+ sub +:+ post.

(** [t] does not begin with white space. *)
Definition starts_clean (t : str) : Prop :=
  match t with
  | EmptyString => True
  | String c _ => isspace c = false
  end.

(** [t] does not end with white space. *)
Fixpoint ends_clean (t : str) : Prop :=
  match t with
  | EmptyString => True
  | String c EmptyString => isspace c = false
  | String _ t' => ends_clean t'
  end.

(** [t] is [s] without the white space at its two ends. *)
Definition trimmed (s t : str) : Prop :=
  (exists pre post,
     s = pre +:+ t +:+ post /\ all_space pre = true /\ all_space post = true)
  /\ starts_clean t /\ ends_clean t.

End StrSpec.

Module ValidatorSpec.
Import PyStr StrSpec Validators.

(** The text of a task is flagged when its lower-case form contains one of
    the deny-list tokens. *)
Definition flagged (t : str) : Prop :=
  exists op, In op dangerous_ops /\ occurs op (lower t).

(** The text of a task, once trimmed, has fewer than 5 characters. *)
Definition short (t : str) : Prop :=
  exists t', trimmed t t' /\ len t' < 5.

(** The reasons for which a task is rejected. *)
Definition rejected (t : str) : Prop :=
  t = "" \/ all_space t = true \/ short t \/ flagged t.

End ValidatorSpec.

Module GuardSpec.
Import PyStr Py Os Security.

Section WithOS.
Context {FS : Type} `{!OS FS}.

(** What the guard requires of [path]: it resolves to [r], the root
    "/data" resolves to [d], the text of [r] starts with the text of
    [d], and [r] is a regular file. *)
Definition accepted (fs : FS) (path : str) : Prop :=
  exists r d : str,
    resolve fs path = Ok r
    /\ resolve fs "/data" = Ok d
    /\ (exists rest, r = d +:+ rest)
    /\ is_file fs r = Ok true.

(** One of the calls of the guard raises [e]. *)
Definition raises (fs : FS) (path : str) (e : exn) : Prop :=
  resolve fs path = Raise e
  \/ resolve fs "/data" = Raise e
  \/ exists r, resolve fs path = Ok r /\ is_file fs r = Raise e.

End WithOS.

(** A resolved path lies under the directory [root] when its parts
    start with the parts of [root]. *)
Definition under (root cs : list str) : Prop :=
  exists rest, cs = (root ++ rest)%list.

End GuardSpec.

Module ReadSpec.
Import PyStr Py Os World Security Main.

Section WithOS.
Context {FS : Type} `{!OS FS}.

(** The response of [read_file] in the world [w]. *)
Definition read_response (w : world FS) (path : str) : result response :=
  fst (read_file path w).

End WithOS.

End ReadSpec.

Module DispatchSpec.
Import PyStr Py Os World TaskHandler.

Section WithEnv.
Context {FS : Type} `{!Env FS}.

(** The world once the prompt of [task] has been sent to the service. *)
Definition after_call (w : world FS) (task : str) : world FS :=
  mkWorld (fs w) (llm_calls w ++ [classify_prompt task]) (stdout w).

End WithEnv.



(** [ty] is not a key of the registry: a string that is none of the
    seventeen task types, or a value that is not a string. *)
Definition outside_registry (ty : json) : Prop :=
  match ty with
  | JStr s => ~ In s registry_keys
  | _ => True
  end.

(** [ty] can be a dict key. *)
Definition hashable (ty : json) : Prop :=
  match ty with
  | JList _ | JObj _ => False
  | _ => True
  end.

(** Every method named in the [handlers] dict exists. *)
Definition all_bound (methods : list str) : Prop :=
  forall name, In name (map snd handler_items) -> In name methods.

End DispatchSpec.

Module RunSpec.
Import PyStr Py Os World.

Section WithFS.
Context {FS : Type}.

(** The world with one more printed line. *)
Definition printed (w : world FS) (line : str) : world FS :=
  mkWorld (fs w) (llm_calls w) (stdout w ++ [line]).

End WithFS.

(** The message of [e] carries one of the two marks of a task error. *)
Definition marked (e : exn) : bool :=
  contains "Invalid" (str_exn e) || contains "Failed to parse" (str_exn e).

End RunSpec.

Module DateSpec.
Import PyStr Py Datetime StrSpec.

(** The month and the day are read back, for every month and every day
    number. *)
Definition month_day_ok (m d : Z) : bool :=
  match re_month_day (re_m (pad2 m +:+ "-" +:+ pad2 d)) with
  | Some (m', d', EmptyString) => (m' =? m) && (d' =? d)
  | _ => false
  end.

Definition upto (n : nat) : list Z := map Z.of_nat (seq 1 n).

(** The day after a date. *)
Definition next_day (date : Z * Z * Z) : Z * Z * Z :=
  let '(y, m, d) := date in
  if d <? days_in_month y m then (y, m, d + 1)
  else if m <? 12 then (y, m + 1, 1)
  else (y + 1, 1, 1).

Definition weekday_of (date : Z * Z * Z) : Z :=
  let '(y, m, d) := date in weekday y m d.

Definition is_wednesday (date : Z * Z * Z) : bool :=
  let '(y, m, d) := date in weekday y m d =? 2.

(** The number of Wednesdays among [dates]. *)
Definition wednesdays (dates : list (Z * Z * Z)) : Z :=
  Z.of_nat (length (List.filter is_wednesday dates)).

(** [line], once trimmed, is the ISO form of the calendar date [date]. *)
Definition iso_line (line : str) (date : Z * Z * Z) : Prop :=
  let '(y, m, d) := date in
  valid_date y m d = true /\ trimmed line (isoformat y m d).

End DateSpec.

Module OrderSpec.

(** [cmp] decides a strict total order. *)
Record total_cmp {T : Type} (cmp : T -> T -> comparison) : Prop := {
  cmp_eq : forall x y, cmp x y = Eq <-> x = y;
  cmp_antisym : forall x y, cmp y x = CompOpp (cmp x y);
  cmp_trans : forall x y z, cmp x y = Lt -> cmp y z = Lt -> cmp x z = Lt;
}.

(** First [c], then [r] when [c] does not decide. *)
Definition then_cmp (c r : comparison) : comparison :=
  match c with Eq => r | _ => c end.

(** The lexicographic comparison of pairs. *)
Definition lex {A B : Type} (ca : A -> A -> comparison)
    (cb : B -> B -> comparison) (x y : A * B) : comparison :=
  then_cmp (ca (fst x) (fst y)) (cb (snd x) (snd y)).

Definition is_lt (c : comparison) : bool :=
  match c with Lt => true | _ => false end.

(** The strict order of [cmp]. *)
Definition ltb {T : Type} (cmp : T -> T -> comparison) (x y : T) : bool :=
  is_lt (cmp x y).

End OrderSpec.

Module StableSort.

Section Sort.
Context {K A : Type}.
Variable ltb : K -> K -> bool.

Implicit Types (x y : K * A) (l acc : list (K * A)).

(** The sort without exceptions. *)
Fixpoint ins x l : list (K * A) :=
  match l with
  | [] => [x]
  | y :: l' => if ltb (fst x) (fst y) then x :: y :: l' else y :: ins x l'
  end.

Fixpoint isort_into acc l : list (K * A) :=
  match l with
  | [] => acc
  | x :: l' => isort_into (ins x acc) l'
  end.

(** [x] is not above [y]. *)
Definition le x y : Prop := ltb (fst y) (fst x) = false.

(** The elements of [l] that satisfy [P] have equivalent keys. *)
Definition one_class (P : K * A -> bool) l : Prop :=
  forall x y, In x l -> In y l -> P x = true -> P y = true ->
              ltb (fst x) (fst y) = false.

End Sort.

Section Keys.
Context {K A : Type}.
Implicit Types (l : list (K * A)).

Definition keys_in (D : K -> Prop) l : Prop := Forall (fun x => D (fst x)) l.

End Keys.

End StableSort.

Module ContactSpec.
Import PyStr Py Os World PyCompare PySorted TaskHandler.
Import OrderSpec StableSort.

(** The last and first name of a contact record, when both are strings. *)
Definition names (r : json) : option (str * str) :=
  match r with
  | JObj m =>
      match dict_get m "last_name", dict_get m "first_name" with
      | Some (JStr last), Some (JStr first) => Some (last, first)
      | _, _ => None
      end
  | _ => None
  end.

Definition named (r : json) : Prop := exists k, names r = Some k.

(** The order of the keys: by last name, then by first name. *)
Definition key_cmp : str * str -> str * str -> comparison :=
  lex String.compare String.compare.

(** [r1] is not after [r2]. *)
Definition names_le (r1 r2 : json) : Prop :=
  exists a b, names r1 = Some a /\ names r2 = Some b /\ key_cmp a b <> Gt.

(** The key of [r] is [k]. *)
Definition has_names (k : str * str) (r : json) : bool :=
  match names r with
  | Some k' => String.eqb (fst k') (fst k) && String.eqb (snd k') (snd k)
  | None => false
  end.

Definition text_of (v : json) : str :=
  match v with JStr s => s | _ => EmptyString end.

Definition proj (k : json * json) : str * str :=
  (text_of (fst k), text_of (snd k)).

Definition both_str (k : json * json) : Prop :=
  exists last first, k = (JStr last, JStr first).

Definition key_ltb (a b : json * json) : bool :=
  ltb key_cmp (proj a) (proj b).

(** The record with its key, as [sorted] decorates it. *)
Definition deco (r : json) : (json * json) * json :=
  (match names r with
   | Some (last, first) => (JStr last, JStr first)
   | None => (JNull, JNull)
   end, r).

(** The sorted records. *)
Definition sorted_records (contacts : list json) : list json :=
  map snd (isort_into key_ltb [] (map deco contacts)).

(** [r] has the two fields. *)
Definition has_both (r : json) : Prop :=
  exists m last first,
    r = JObj m /\ dict_get m "last_name" = Some last
    /\ dict_get m "first_name" = Some first.

End ContactSpec.

Module LogSpec.
Import PyStr Py StableSort.

(** [a] was modified no earlier than [b], for the time stamps [t]. *)
Definition newer (t : str -> Q) (a b : str) : Prop := (t b <= t a)%Q.

(** The time stamp of [f] is [q]. *)
Definition has_time (t : str -> Q) (q : Q) (f : str) : bool :=
  Qeq_bool (t f) q.

(** The strict order of the time stamps. *)
Definition time_ltb (a b : Q) : bool :=
  match Qcompare a b with Lt => true | _ => false end.

(** A file with its time stamp, as [sorted] decorates it. *)
Definition timed (t : str -> Q) (f : str) : Q * str := (t f, f).

(** The files from the most recent to the oldest. *)
Definition by_recency (t : str -> Q) (files : list str) : list str :=
  map snd (rev (isort_into time_ltb [] (rev (map (timed t) files)))).

End LogSpec.

Module IndexSpec.
Import PyStr Py TaskHandler PhaseA StrSpec.

(** [line] is a level-1 heading: it starts with "# ". *)
Definition is_heading (line : str) : Prop := exists rest, line = "# " +:+ rest.

(** [title] is the heading of a text whose lines are [lines]: the rest,
    trimmed, of the first line that is a level-1 heading. *)
Definition heading_of (lines : list str) (title : str) : Prop :=
  exists (before : list str) (rest : str) (after : list str),
    lines = (before ++ ("# " +:+ rest) :: after)%list
    /\ Forall (fun l => ~ is_heading l) before
    /\ trimmed rest title.

(** The lines of a text, as the handler splits it. *)
Definition lines_of (content : str) : list str :=
  split (ascii_of_nat 10) content.

(** The entries of the index for [files] with the texts [content]: a
    file without heading has none. *)
Definition entries (content : str -> str) (files : list str)
  : list (str * json) :=
  flat_map
    (fun f =>
       match first_heading (lines_of (content f)) with
       | Some title => [(f, JStr title)]
       | None => []
       end)
    files.

End IndexSpec.

Module ClientSpec.
Import PyStr Py Os World.

Section WithFS.
Context {FS : Type}.

(** The world once [prompt] has been sent to the service. *)
Definition asked (w : world FS) (prompt : str) : world FS :=
  mkWorld (fs w) (llm_calls w ++ [prompt]) (stdout w).

End WithFS.

Section WithHttp.
Context {FS : Type} `{!Env FS} `{!LLMClient.Http}.

(** The service of the environment is the client of [src/main.py] with
    the bearer [token]: what [get_completion] raises or returns is what
    the environment answers. *)
Definition served_by (token : str) : Prop :=
  forall prompt,
    match LLMClient.get_completion token prompt with
    | Ok (JStr s) => gateway prompt = Ok s
    | Ok _ => True
    | Raise e => gateway prompt = Raise e
    end.

End WithHttp.

(** The body of a response of the choices format with one message. *)
Definition completion_body (content : json) : json :=
  JObj [("choices", JList [JObj [("message", JObj [("content", content)])]])].

End ClientSpec.

Module NewlineSpec.
Import PyStr.

(** [s] holds no carriage return. *)
Fixpoint no_cr (s : str) : bool :=
  match s with
  | EmptyString => true
  | String c s' => negb (Ascii.eqb c (ascii_of_nat 13)) && no_cr s'
  end.

End NewlineSpec.

Module ClassifySpec.
Import Py.


End ClassifySpec.

(** ** Facts about the string methods *)

Module PyStrFacts.
Import PyStr StrSpec.

Lemma app_cons (c : ascii) (s t : str) :
  String c s +:+ t = String c (s +:+ t).
Proof. reflexivity. Qed.

Lemma app_nil (t : str) : "" +:+ t = t.
Proof. reflexivity. Qed.

Lemma prefix_app (p s : str) :
  String.prefix p s = true <-> exists post, s = p +:+ post.
Proof.
  revert s; induction p as [|c p IH]; intros s; simpl.
  - destruct s; split; eauto.
  - destruct s as [|d s]; simpl.
    + split; [discriminate | intros [post H]; discriminate].
    + destruct (Ascii.ascii_dec c d) as [->|Hne].
      * rewrite IH. split; intros [post H]; exists post;
          rewrite app_cons in *; congruence.
      * split; [discriminate|].
        intros [post H]; rewrite app_cons in H; congruence.
Qed.

Lemma contains_occurs (sub s : str) :
  contains sub s = true <-> occurs sub s.
Proof.
  induction s as [|c s IH].
  - cbn [contains]. rewrite orb_false_r, prefix_app. split.
    + intros [post H]. exists "", post. exact H.
    + intros [pre [post H]]. destruct pre; [eauto | discriminate].
  - cbn [contains]. rewrite orb_true_iff, IH, prefix_app. split.
    + intros [[post H] | [pre [post H]]].
      * exists "", post. exact H.
      * exists (String c pre), post. rewrite app_cons. congruence.
    + intros [pre [post H]]. destruct pre as [|d pre].
      * left. eauto.
      * right. exists pre, post. rewrite app_cons in H. congruence.
Qed.

Lemma rstrip_all_space (s : str) : all_space s = true -> rstrip s = "".
Proof.
  induction s as [|c s IH]; simpl; [reflexivity|].
  intros [Hc Hs]%andb_true_iff. rewrite (IH Hs), Hc. reflexivity.
Qed.

Lemma strip_all_space (s : str) : all_space s = true -> strip s = "".
Proof. intros H. unfold strip. rewrite rstrip_all_space; auto. Qed.

Lemma app_assoc_str (a b c : str) : (a +:+ b) +:+ c = a +:+ b +:+ c.
Proof.
  induction a as [|x a IH]; [reflexivity|].
  rewrite !app_cons, IH. reflexivity.
Qed.

Lemma lstrip_app (s : str) :
  exists pre, s = pre +:+ lstrip s /\ all_space pre = true.
Proof.
  induction s as [|c s (pre & Hs & Hpre)]; cbn [lstrip].
  - exists "". auto.
  - destruct (isspace c) eqn:Hc.
    + exists (String c pre). rewrite app_cons, <- Hs. cbn. rewrite Hc. auto.
    + exists "". auto.
Qed.

Lemma lstrip_starts (s : str) : starts_clean (lstrip s).
Proof.
  induction s as [|c s IH]; cbn [lstrip]; [exact I|].
  destruct (isspace c) eqn:Hc; [exact IH | exact Hc].
Qed.

Lemma lstrip_ends (s : str) : ends_clean s -> ends_clean (lstrip s).
Proof.
  induction s as [|c s IH]; cbn [lstrip]; [auto|].
  intros H. destruct (isspace c); [|exact H].
  apply IH. destruct s; [exact I | exact H].
Qed.

Lemma rstrip_app (s : str) :
  exists post, s = rstrip s +:+ post /\ all_space post = true.
Proof.
  induction s as [|c s (post & Hs & Hpost)]; cbn [rstrip].
  - exists "". auto.
  - destruct (rstrip s) as [|d r] eqn:Hr.
    + rewrite app_nil in Hs. subst post.
      destruct (isspace c) eqn:Hc.
      * exists (String c s). cbn. rewrite Hc. auto.
      * exists s. auto.
    + exists post. rewrite app_cons, <- Hs. auto.
Qed.

Lemma rstrip_ends (s : str) : ends_clean (rstrip s).
Proof.
  induction s as [|c s IH]; cbn [rstrip]; [exact I|].
  destruct (rstrip s) as [|d r].
  - destruct (isspace c) eqn:Hc; [exact I | exact Hc].
  - exact IH.
Qed.

(** [strip] removes the white space at the two ends, and nothing else. *)
Lemma strip_trimmed (s : str) : trimmed s (strip s).
Proof.
  unfold trimmed, strip. split; [|split].
  - destruct (rstrip_app s) as (post & Hs & Hpost).
    destruct (lstrip_app (rstrip s)) as (pre & Hr & Hpre).
    exists pre, post. split; [|auto].
    rewrite <- app_assoc_str, <- Hr. exact Hs.
  - apply lstrip_starts.
  - apply lstrip_ends, rstrip_ends.
Qed.

Lemma app_empty_r (a : str) : a +:+ "" = a.
Proof. induction a as [|x a IH]; [reflexivity|]. rewrite app_cons, IH. reflexivity. Qed.

Lemma rstrip_cons (c : ascii) (s : str) :
  rstrip (String c s)
  = match rstrip s with
    | EmptyString => if isspace c then EmptyString else String c EmptyString
    | r => String c r
    end.
Proof. reflexivity. Qed.

Lemma rstrip_clean (u : str) : ends_clean u -> rstrip u = u.
Proof.
  induction u as [|c u IH]; [reflexivity|].
  destruct u as [|d u'].
  - cbn. intros ->. reflexivity.
  - intros H. rewrite rstrip_cons, (IH H). reflexivity.
Qed.

Lemma rstrip_app_space (u post : str) :
  all_space post = true -> rstrip (u +:+ post) = rstrip u.
Proof.
  intros Hp. induction u as [|c u IH].
  - rewrite app_nil. apply rstrip_all_space, Hp.
  - rewrite app_cons, !rstrip_cons, IH. reflexivity.
Qed.

Lemma lstrip_app_space (pre t : str) :
  all_space pre = true -> lstrip (pre +:+ t) = lstrip t.
Proof.
  induction pre as [|c pre IH]; [reflexivity|].
  cbn [all_space]. intros [Hc Hp]%andb_true_iff.
  rewrite app_cons. cbn [lstrip]. rewrite Hc. apply IH, Hp.
Qed.

Lemma lstrip_clean (t : str) : starts_clean t -> lstrip t = t.
Proof. destruct t as [|c t]; [reflexivity|]. cbn. intros ->. reflexivity. Qed.

Lemma ends_clean_app (pre t : str) :
  t <> "" -> ends_clean t -> ends_clean (pre +:+ t).
Proof.
  intros Hne Ht. induction pre as [|c pre IH]; [exact Ht|].
  rewrite app_cons. cbn [ends_clean].
  destruct (pre +:+ t) eqn:E; [|exact IH].
  destruct pre; [rewrite app_nil in E; contradiction | discriminate E].
Qed.

(** The trimmed form of a string is the result of [strip]. *)
Lemma trimmed_strip (s t : str) : trimmed s t -> t = strip s.
Proof.
  intros [(pre & post & -> & Hpre & Hpost) [Hstart Hend]]. unfold strip.
  rewrite <- app_assoc_str, (rstrip_app_space _ _ Hpost).
  destruct t as [|c t].
  - rewrite app_empty_r, (rstrip_all_space _ Hpre). reflexivity.
  - rewrite rstrip_clean by (apply ends_clean_app; [discriminate | exact Hend]).
    rewrite (lstrip_app_space _ _ Hpre). symmetry. apply lstrip_clean, Hstart.
Qed.

Lemma truthy_false (s : str) : truthy s = false <-> s = "".
Proof. destruct s; simpl; split; congruence. Qed.

End PyStrFacts.

(** ** The task validator *)

Module ValidatorsFacts.
Import PyStr StrSpec PyStrFacts Validators ValidatorSpec.

Lemma flagged_existsb (t : str) :
  existsb (fun op => contains op (lower t)) dangerous_ops = true
  <-> flagged t.
Proof.
  rewrite existsb_exists. unfold flagged.
  split; intros [op [Hin H]]; exists op; split; auto;
    apply contains_occurs; exact H.
Qed.

Lemma short_strip (t : str) : short t <-> len (strip t) < 5.
Proof.
  unfold short. split.
  - intros (t' & Ht & Hlen). rewrite <- (trimmed_strip _ _ Ht). exact Hlen.
  - intros Hlen. exists (strip t). split; [apply strip_trimmed | exact Hlen].
Qed.

Lemma is_valid_task_false (t : str) : is_valid_task t = false <-> rejected t.
Proof.
  unfold is_valid_task, rejected. rewrite short_strip.
  destruct (truthy t) eqn:Ht; cbn [negb orb].
  - destruct (len (strip t) <? 5) eqn:Hlen.
    + apply Z.ltb_lt in Hlen. split; auto.
    + apply Z.ltb_ge in Hlen. rewrite negb_false_iff, flagged_existsb.
      split; [auto|].
      intros [-> | [Hsp | [Hlt | Hfl]]]; [discriminate| |lia|exact Hfl].
      rewrite (strip_all_space _ Hsp) in Hlen. cbv in Hlen. congruence.
  - apply truthy_false in Ht. split; auto.
Qed.

Lemma is_valid_task_truthy (t : str) : is_valid_task t = true -> truthy t = true.
Proof. unfold is_valid_task. destruct (truthy t); [reflexivity | discriminate]. Qed.

(** C6. [is_valid_task t] is [false] exactly when [t] is empty or
    all white space, or its trimmed length is below 5, or its lower-case
    form contains one of "rm ", "remove", "delete", "chmod", "chown";
    for every other [t] it is [true]. *)
Theorem is_valid_task_spec (t : str) :
  (is_valid_task t = false <-> rejected t)
  /\ (is_valid_task t = true <-> ~ rejected t).
Proof.
  split; [apply is_valid_task_false|].
  rewrite <- is_valid_task_false.
  destruct (is_valid_task t); split; congruence.
Qed.

End ValidatorsFacts.

(** ** The path guard *)

Module SecurityFacts.
Import PyStr StrSpec PyStrFacts Py Os Security GuardSpec.

Section WithOS.
Context {FS : Type} `{!OS FS}.

Lemma validate_path_accepted (fs : FS) (path : str) :
  validate_path fs path = true <-> accepted fs path.
Proof.
  unfold validate_path, validate_path_body, accepted, startswith.
  destruct (resolve fs path) as [r|e] eqn:Hr; cbn.
  2: { split; [discriminate|]. intros (r & d & H & _). discriminate. }
  destruct (resolve fs "/data") as [d|e] eqn:Hd; cbn.
  2: { split; [discriminate|]. intros (r' & d & _ & H & _). discriminate. }
  destruct (String.prefix d r) eqn:Hp; cbn.
  - destruct (is_file fs r) as [[|]|e] eqn:Hf; cbn.
    + split; [|reflexivity]. intros _. exists r, d.
      repeat split; auto. apply prefix_app. exact Hp.
    + split; [discriminate|].
      intros (r' & d' & [= <-] & _ & _ & H). congruence.
    + split; [discriminate|].
      intros (r' & d' & [= <-] & _ & _ & H). congruence.
  - split; [discriminate|].
    intros (r' & d' & [= <-] & [= <-] & Hpre & _).
    apply prefix_app in Hpre. congruence.
Qed.

Lemma validate_path_raises (fs : FS) (path : str) (e : exn) :
  raises fs path e -> validate_path fs path = false.
Proof.
  unfold raises, validate_path, validate_path_body.
  intros [H | [H | (r & Hr & H)]].
  - rewrite H. reflexivity.
  - destruct (resolve fs path); cbn; [|reflexivity].
    rewrite H. reflexivity.
  - rewrite Hr. cbn.
    destruct (resolve fs "/data"); cbn; [|reflexivity].
    destruct (startswith r a); cbn; [|reflexivity].
    rewrite H. reflexivity.
Qed.

(** C1. [validate_path p] is [true] exactly when [p] resolves to a path
    whose text starts with the text of the resolved root "/data" and
    that is a regular file; when resolving or checking raises, the
    result is [false] (the function returns a [bool] in every case). *)
Theorem validate_path_spec (fs : FS) (path : str) :
  (validate_path fs path = true <-> accepted fs path)
  /\ (forall e, raises fs path e -> validate_path fs path = false).
Proof.
  split.
  - apply validate_path_accepted.
  - apply validate_path_raises.
Qed.

End WithOS.

(** *** The guard on the sample file system *)

Import Posix.

Lemma data2_not_under_data : ~ under ["data"] ["data2"; "x.txt"].
Proof. intros [rest H]. discriminate H. Qed.

(** C2. There is a regular file outside the root "/data", in the sibling
    directory "/data2", that the guard accepts. *)
Theorem validate_path_false_accept :
  exists (fs : filesystem) (path : str) (cs : list str) (text : str),
    realpath fs path = Some cs
    /\ ~ under ["data"] cs
    /\ stat fs path = inr (File true text)
    /\ validate_path fs path = true.
Proof.
  exists sample, "/data2/x.txt", ["data2"; "x.txt"], "outside".
  split; [vm_compute; reflexivity|].
  split; [exact data2_not_under_data|].
  split; vm_compute; reflexivity.
Qed.

(** The examples of the specification. *)
Example guard_file : validate_path sample "/data/x.txt" = true.
Proof. vm_compute. reflexivity. Qed.

Example guard_outside : validate_path sample "/etc/passwd" = false.
Proof. vm_compute. reflexivity. Qed.

Example guard_traversal : validate_path sample "/data/../etc/passwd" = false.
Proof. vm_compute. reflexivity. Qed.

Example guard_directory : validate_path sample "/data" = false.
Proof. vm_compute. reflexivity. Qed.

Example guard_symlink : validate_path sample "/data/link" = false.
Proof. vm_compute. reflexivity. Qed.

Example guard_missing : validate_path sample "/data/missing.txt" = false.
Proof. vm_compute. reflexivity. Qed.

(** An exception of [resolve] ends in [false]. *)
Example guard_null_byte :
  resolve sample (String (ascii_of_nat 0) "x") = Raise null_byte
  /\ validate_path sample (String (ascii_of_nat 0) "x") = false.
Proof. split; vm_compute; reflexivity. Qed.

Example guard_loop :
  (exists e, resolve sample "/data/loop" = Raise e)
  /\ validate_path sample "/data/loop" = false.
Proof. split; [eexists|]; vm_compute; reflexivity. Qed.

End SecurityFacts.

(** ** [GET /read] *)

Module ReadFacts.
Import PyStr Py Os World Security Main ReadSpec.

Section WithOS.
Context {FS : Type} `{!OS FS}.

Lemma read_rejected (w : world FS) (path : str) :
  validate_path (fs w) path = false ->
  read_response w path
  = Raise (HTTPException 400 "Invalid path: Must be within /data directory").
Proof.
  intros H. unfold read_response, read_file, try_except, read_file_body.
  rewrite H. reflexivity.
Qed.

Lemma read_absent (w : world FS) (path : str) :
  validate_path (fs w) path = true ->
  path_exists (fs w) path = Ok false ->
  read_response w path
  = Raise (HTTPException 404 ("File not found: " +:+ path)).
Proof.
  intros H He. unfold read_response, read_file, try_except, read_file_body.
  rewrite H, He. reflexivity.
Qed.

Lemma read_contents (w : world FS) (path text : str) :
  validate_path (fs w) path = true ->
  path_exists (fs w) path = Ok true ->
  read_text (fs w) path = Ok text ->
  read_file path w = (Ok (PlainTextResponse text), w).
Proof.
  intros H He Hr. unfold read_file, try_except, read_file_body.
  rewrite H, He. cbn. rewrite Hr. reflexivity.
Qed.

Lemma read_io_error (w : world FS) (path : str) (e : exn) :
  validate_path (fs w) path = true ->
  path_exists (fs w) path = Ok true ->
  read_text (fs w) path = Raise e ->
  is_HTTPException e = false ->
  read_response w path
  = Raise (HTTPException 500 ("Internal server error: " +:+ str_exn e)).
Proof.
  intros H He Hr Hh. unfold read_response, read_file, try_except, read_file_body.
  rewrite H, He. cbn. rewrite Hr. cbn. rewrite Hh. reflexivity.
Qed.

(** C3, amended.  For every request [GET /read?path=p]: when the guard
    rejects [p] the status is 400; when the guard accepts [p] and
    [Path(p).exists()] is false the status is 404; when the guard
    accepts [p], the file exists and its text can be read, the
    response is 200 with that text; when reading it raises, the
    status is 500. *)
Theorem read_file_status (w : world FS) (path : str) :
  (validate_path (fs w) path = false ->
   status_code (read_response w path) = 400)
  /\ (validate_path (fs w) path = true ->
      path_exists (fs w) path = Ok false ->
      status_code (read_response w path) = 404)
  /\ (forall text,
        validate_path (fs w) path = true ->
        path_exists (fs w) path = Ok true ->
        read_text (fs w) path = Ok text ->
        read_response w path = Ok (PlainTextResponse text)
        /\ status_code (read_response w path) = 200)
  /\ (forall e,
        validate_path (fs w) path = true ->
        path_exists (fs w) path = Ok true ->
        read_text (fs w) path = Raise e ->
        is_HTTPException e = false ->
        status_code (read_response w path) = 500).
Proof.
  split; [|split; [|split]].
  - intros H. rewrite read_rejected; auto.
  - intros H He. rewrite read_absent; auto.
  - intros text H He Hr. unfold read_response.
    rewrite (read_contents _ _ text); auto.
  - intros e H He Hr Hh. rewrite (read_io_error _ _ e); auto.
Qed.

(** A path that resolves to something that is not a regular file (a
    missing file, a directory) is rejected by the guard: the status is
    400, and the 404 of [read_file] is not reached. *)
Theorem read_not_a_file_400 (w : world FS) (path r : str) :
  resolve (fs w) path = Ok r ->
  is_file (fs w) r = Ok false ->
  validate_path (fs w) path = false
  /\ status_code (read_response w path) = 400.
Proof.
  intros Hr Hf.
  assert (Hv : validate_path (fs w) path = false).
  { unfold validate_path, validate_path_body. rewrite Hr. cbn.
    destruct (resolve (fs w) "/data"); cbn; [|reflexivity].
    destruct (startswith r a); cbn; [|reflexivity].
    rewrite Hf. reflexivity. }
  split; [exact Hv|]. rewrite (read_rejected _ _ Hv). reflexivity.
Qed.

End WithOS.

Import Posix SampleEnv.

(** C3 as stated fails: the guard accepts "/data/credit-card.png" and the
    file exists, but it is an image, reading it as text raises, and the
    status is 500, not 200. *)
Lemma read_file_unreadable :
  validate_path sample "/data/credit-card.png" = true
  /\ path_exists sample "/data/credit-card.png" = Ok true
  /\ status_code (read_response world0 "/data/credit-card.png") = 500
  /\ status_code (read_response world0 "/data/credit-card.png") <> 200.
Proof.
  repeat split; try (vm_compute; reflexivity). vm_compute. discriminate.
Qed.

(** The same for a text file whose mode forbids reading. *)
Example read_permission_denied :
  validate_path sample "/data/secret.txt" = true
  /\ path_exists sample "/data/secret.txt" = Ok true
  /\ read_response world0 "/data/secret.txt"
     = Raise (HTTPException 500
                "Internal server error: [Errno 13] Permission denied: '/data/secret.txt'").
Proof. repeat split; vm_compute; reflexivity. Qed.

(** Each case of [read_file_status] occurs on the sample file system. *)
Example read_400 :
  read_response world0 "/etc/passwd"
  = Raise (HTTPException 400 "Invalid path: Must be within /data directory").
Proof. vm_compute. reflexivity. Qed.

(** [Path.resolve] drops "nonexist/.." but the kernel does not walk
    through a directory that does not exist. *)
Example read_404 :
  validate_path sample "/data/nonexist/../x.txt" = true
  /\ path_exists sample "/data/nonexist/../x.txt" = Ok false
  /\ read_response world0 "/data/nonexist/../x.txt"
     = Raise (HTTPException 404 "File not found: /data/nonexist/../x.txt").
Proof. repeat split; vm_compute; reflexivity. Qed.

Example read_200 :
  read_response world0 "/data/x.txt" = Ok (PlainTextResponse "hello").
Proof. vm_compute. reflexivity. Qed.

Lemma read_not_a_file_400_witness :
  path_exists sample "/data/missing.txt" = Ok false
  /\ status_code (read_response world0 "/data/missing.txt") = 400.
Proof.
  split; [vm_compute; reflexivity|].
  apply (read_not_a_file_400 world0 "/data/missing.txt" "/data/missing.txt");
    vm_compute; reflexivity.
Defined.

End ReadFacts.

(** ** What [GET /read] can disclose on a POSIX file system *)

Module DisclosureFacts.
Import PyStr StrSpec PyStrFacts Py Os World Security Main GuardSpec.
Import SecurityFacts Posix.

(** Where the kernel's walk arrives, [os.path.realpath] arrives too: the
    two differ only on paths the kernel refuses. *)
Lemma namei_realpath (links : nat) (fs : filesystem) :
  forall (rest cur cs : list str),
    namei_from links fs cur rest = inr cs ->
    realpath_from links fs cur rest = Some cs.
Proof.
  induction links as [|links IH].
  - induction rest as [|name rest IHr]; intros cur cs; cbn.
    + intros [= ->]. reflexivity.
    + destruct (lookup_node fs cur) as [[| | |]|]; try discriminate.
      destruct (String.eqb name "..").
      * apply IHr.
      * destruct (lookup_node fs (cur ++ [name])) as [[| | |]|];
          try discriminate; apply IHr.
  - induction rest as [|name rest IHr]; intros cur cs; cbn.
    + intros [= ->]. reflexivity.
    + destruct (lookup_node fs cur) as [[| | |]|]; try discriminate.
      destruct (String.eqb name "..").
      * apply IHr.
      * destruct (lookup_node fs (cur ++ [name])) as [[| | |target]|];
          try discriminate; try apply IHr.
        apply IH.
Qed.

(** A text that [read_text] returns is the text, with its line ends
    read as text mode reads them, of the readable regular file the
    kernel's walk leads to. *)
Lemma posix_read_file (fs : filesystem) (p text : str) :
  posix_read fs p = Ok text ->
  has_nul p = false
  /\ exists cs raw, namei fs p = inr cs
                    /\ lookup_node fs cs = Some (File true raw)
                    /\ text = universal_newlines raw.
Proof.
  unfold posix_read, stat.
  destruct (has_nul p); [discriminate|].
  destruct (namei fs p) as [e|cs]; [discriminate|].
  destruct (lookup_node fs cs) as [[|[|] t|[|]|]|] eqn:Hl; try discriminate.
  intros [= <-]. split; [reflexivity|]. exists cs, t. auto.
Qed.

(** On a POSIX file system, a text that [GET /read] answers with is the
    text of a readable regular file, its line ends read as text mode
    reads them (CR LF and CR as LF), and the canonical path of that
    file (the path the kernel walks to from [path], every link and ".."
    followed) starts, as a string, with the canonical path of "/data". *)
Theorem read_file_discloses (w : world filesystem) (path content : str) :
  fst (read_file path w) = Ok (PlainTextResponse content) ->
  exists (cs : list str) (d raw : str),
    namei (fs w) path = inr cs
    /\ lookup_node (fs w) cs = Some (File true raw)
    /\ content = universal_newlines raw
    /\ resolve (fs w) "/data" = Ok d
    /\ startswith (render cs) d = true.
Proof.
  unfold read_file, try_except, read_file_body.
  destruct (validate_path (fs w) path) eqn:Hv; cbn [negb].
  2: { cbn. discriminate. }
  destruct (path_exists (fs w) path) as [[|]|e] eqn:He;
    cbn [mbind result_bind negb].
  2: { cbn. discriminate. }
  2: { cbn. destruct (is_HTTPException e); discriminate. }
  destruct (read_text (fs w) path) as [text|e] eqn:Hr; cbn [mbind result_bind].
  2: { cbn. destruct (is_HTTPException e); discriminate. }
  cbn [fst]. intros [= ->].
  apply posix_read_file in Hr as (Hnul & cs & raw & Hn & Hl & Htext).
  apply validate_path_accepted in Hv as (r & d & Hres & Hd & (rest & Hpre) & _).
  exists cs, d, raw. repeat (split; [assumption|]).
  cbn [resolve posix_os] in Hres. unfold posix_resolve in Hres.
  rewrite Hnul in Hres. unfold realpath in Hres. unfold namei in Hn.
  rewrite (namei_realpath _ _ _ _ _ Hn) in Hres. injection Hres as <-.
  unfold startswith. apply prefix_app. exists rest. exact Hpre.
Qed.

Import SampleEnv.

Lemma read_file_discloses_witness :
  fst (read_file "/data/x.txt" world0) = Ok (PlainTextResponse "hello")
  /\ exists (cs : list str) (d raw : str),
       namei sample "/data/x.txt" = inr cs
       /\ lookup_node sample cs = Some (File true raw)
       /\ "hello" = universal_newlines raw
       /\ resolve sample "/data" = Ok d
       /\ startswith (render cs) d = true.
Proof.
  assert (H : fst (read_file "/data/x.txt" world0)
              = Ok (PlainTextResponse "hello")) by (vm_compute; reflexivity).
  split; [exact H|].
  exact (read_file_discloses world0 "/data/x.txt" "hello" H).
Defined.

(** A file with the line ends CR LF and CR is served with LF. *)
Example read_file_newlines :
  fst (read_file "/data/dos.txt"
         (mkWorld
            (with_file sample "/data/dos.txt"
               ("a" +:+ String (ascii_of_nat 13) TaskHandler.nl +:+ "b"
                +:+ String (ascii_of_nat 13) "c" +:+ TaskHandler.nl))
            [] []))
  = Ok (PlainTextResponse
          ("a" +:+ TaskHandler.nl +:+ "b" +:+ TaskHandler.nl +:+ "c"
           +:+ TaskHandler.nl)).
Proof. vm_compute. reflexivity. Qed.

End DisclosureFacts.

(** ** Classification and dispatch *)

Module HandlerFacts.
Import PyStr StrSpec PyStrFacts Py Os World TaskHandler DispatchSpec.

Section WithEnv.
Context {FS : Type} `{!OS FS} `{!Env FS}.
Variable methods : list str.

Lemma classify_task_run (task : str) (w : world FS) :
  _classify_task task w
  = (gateway (classify_prompt task) ≫= json_loads, after_call w task).
Proof.
  unfold _classify_task, get_completion, after_call, lift.
  unfold mbind at 1, M_bind, bind.
  destruct (gateway (classify_prompt task)); reflexivity.
Qed.

Lemma classify_run (task : str) (w : world FS) :
  classify task w
  = (v ← gateway (classify_prompt task) ≫= json_loads;
     ty ← getitem v "task_type";
     ps ← getitem v "parameters";
     Ok (ty, ps),
     after_call w task).
Proof.
  unfold classify. unfold mbind at 1, M_bind, bind.
  rewrite classify_task_run.
  destruct (gateway (classify_prompt task) ≫= json_loads) as [v|e];
    [|reflexivity].
  cbn [mbind result_bind M_bind]. unfold bind, lift.
  destruct (getitem v "task_type") as [ty|e]; [|reflexivity].
  destruct (getitem v "parameters") as [ps|e]; reflexivity.
Qed.

Lemma handle_task_run (task : str) (w : world FS) :
  handle_task methods task w
  = match fst (classify task w) with
    | Raise e => (Raise e, after_call w task)
    | Ok (ty, ps) => dispatch methods ty ps (after_call w task)
    end.
Proof.
  unfold handle_task. unfold mbind at 1, M_bind, bind.
  rewrite classify_run. cbn [fst].
  match goal with |- context [mbind ?f ?x] => destruct (mbind f x) as [[ty ps]|e] end;
    reflexivity.
Qed.



(** *** Dispatch of a task type that is not registered *)

Lemma getattr_cases (name : str) :
  (In name methods /\ getattr methods name = Ok name)
  \/ (~ In name methods /\ exists msg,
        getattr methods name = Raise (PyExc "AttributeError" msg)).
Proof.
  unfold getattr.
  destruct (existsb (String.eqb name) methods) eqn:Hex.
  - left. split; [|reflexivity].
    apply existsb_exists in Hex as (x & Hin & Hx).
    apply String.eqb_eq in Hx. congruence.
  - right. split; [|eexists; reflexivity].
    intros Hin. apply not_true_iff_false in Hex. apply Hex.
    apply existsb_exists. exists name. split; [exact Hin|].
    apply String.eqb_refl.
Qed.

Lemma build_handlers_outcome (items : list (str * str)) (acc : gmap str str) :
  (exists h, build_handlers methods items acc = Ok h
             /\ forall s, ~ In s (map fst items) -> h !! s = acc !! s)
  \/ (exists msg,
        build_handlers methods items acc = Raise (PyExc "AttributeError" msg)).
Proof.
  revert acc. induction items as [|[k name] items IH]; intros acc; cbn.
  - left. exists acc. auto.
  - destruct (getattr_cases name) as [[_ ->] | [_ [msg ->]]]; cbn.
    + destruct (IH (<[k:=name]> acc)) as [(h & Hh & Hk) | (msg & Hmsg)].
      * left. exists h. split; [exact Hh|].
        intros s Hs. rewrite Hk by tauto.
        apply lookup_insert_ne. intros ->. tauto.
      * right. eauto.
    + right. eauto.
Qed.

Lemma build_handlers_bound (items : list (str * str)) (acc : gmap str str) :
  (forall name, In name (map snd items) -> In name methods) ->
  exists h, build_handlers methods items acc = Ok h.
Proof.
  revert acc. induction items as [|[k name] items IH]; intros acc Hb; cbn.
  - eauto.
  - destruct (getattr_cases name) as [[_ ->] | [Hno _]]; cbn.
    + apply IH. intros n Hn. apply Hb. cbn. auto.
    + exfalso. apply Hno, Hb. cbn. auto.
Qed.

Lemma dispatch_unknown (ty ps : json) (w : world FS) :
  outside_registry ty ->
  exists e,
    dispatch methods ty ps w = (Raise e, w)
    /\ is_HTTPException e = false
    /\ (all_bound methods -> hashable ty ->
        e = PyExc "ValueError" ("Unknown task type: " +:+ py_str ty)).
Proof.
  intros Hout. unfold dispatch, all_bound.
  unfold mbind at 1, M_bind, bind, lift.
  destruct (build_handlers_outcome handler_items ∅)
    as [(h & -> & Hk) | (msg & Hmsg)].
  2: { rewrite Hmsg. eexists. split; [reflexivity|]. split; [reflexivity|].
       intros Hb _.
       destruct (build_handlers_bound handler_items ∅ Hb) as [h Hh].
       congruence. }
  unfold mbind at 1, M_bind, bind.
  destruct ty as [| b | n | s | l | m]; cbn;
    try (eexists; split; [reflexivity|]; split; [reflexivity|];
         intros _ Hhash; solve [reflexivity | destruct Hhash]).
  cbn in Hout. fold registry_keys in Hk.
  rewrite (Hk s Hout), lookup_empty.
  eexists; split; [reflexivity|]; split; [reflexivity|]. reflexivity.
Qed.

End WithEnv.

(** With the class as it is written, the [handlers] dict cannot be built:
    seven of the methods it names are not defined.  Every dispatch raises
    [AttributeError] for the first of them, whatever the task type, and no
    handler runs. *)
Theorem dispatch_missing_method {FS : Type} `{!OS FS} `{!Env FS}
    (ty ps : json) (w : world FS) :
  dispatch TaskHandler_methods ty ps w
  = (Raise (PyExc "AttributeError"
              "'TaskHandler' object has no attribute '_handle_api_fetch'"),
     w).
Proof.
  unfold dispatch. unfold mbind at 1, M_bind, bind, lift.
  change (build_handlers TaskHandler_methods handler_items ∅)
    with (@Raise (gmap str str)
            (PyExc "AttributeError"
               "'TaskHandler' object has no attribute '_handle_api_fetch'")).
  reflexivity.
Qed.

End HandlerFacts.

(** ** [POST /run] *)

Module RunFacts.
Import PyStr StrSpec PyStrFacts Py Os World TaskHandler Main.
Import Validators ValidatorSpec ValidatorsFacts DispatchSpec HandlerFacts RunSpec.

Section WithEnv.
Context {FS : Type} `{!OS FS} `{!Env FS}.
Variable methods : list str.

Lemma marked_occurs (e : exn) :
  marked e = true
  <-> occurs "Invalid" (str_exn e) \/ occurs "Failed to parse" (str_exn e).
Proof.
  unfold marked. rewrite orb_true_iff, !contains_occurs. reflexivity.
Qed.

Lemma run_task_rejected (task : str) (w : world FS) :
  is_valid_task task = false ->
  run_task methods task w
  = (Raise (HTTPException 400 "Invalid task description"),
     printed w "Error executing task: 400: Invalid task description").
Proof.
  intros H. unfold run_task, run_task_body, try_except.
  rewrite H, orb_true_r. reflexivity.
Qed.

Lemma run_task_failure (task : str) (w w' : world FS) (e : exn) :
  is_valid_task task = true ->
  handle_task methods task w = (Raise e, w') ->
  is_HTTPException e = false ->
  run_task methods task w
  = (Raise (if marked e then HTTPException 400 (str_exn e)
            else HTTPException 500 ("Internal server error: " +:+ str_exn e)),
     printed w' ("Error executing task: " +:+ str_exn e)).
Proof.
  intros Hv Hh He. unfold run_task, run_task_body, try_except.
  rewrite Hv, (is_valid_task_truthy _ Hv). cbn [negb orb].
  unfold mbind at 1, M_bind, bind. rewrite Hh.
  unfold mbind, M_bind, bind, print, raise, printed. rewrite He.
  fold (marked e). destruct (marked e); reflexivity.
Qed.

Lemma run_task_failure_status (task : str) (w w' : world FS) (e : exn) :
  is_valid_task task = true ->
  handle_task methods task w = (Raise e, w') ->
  is_HTTPException e = false ->
  status_code (fst (run_task methods task w))
  = if marked e then 400 else 500.
Proof.
  intros Hv Hh He. rewrite (run_task_failure task w w' e Hv Hh He).
  cbn. destruct (marked e); reflexivity.
Qed.

(** C5. A task that is empty, all white space, shorter than 5 characters
    once trimmed, or that contains a deny-list token whatever its case,
    is rejected by the validator; [POST /run] answers 400, and neither
    the classifier nor the LLM service is called: no prompt is sent and
    the file system is as before. *)
Theorem rejected_task_400 (task : str) (w : world FS) :
  rejected task ->
  is_valid_task task = false
  /\ fst (run_task methods task w)
     = Raise (HTTPException 400 "Invalid task description")
  /\ status_code (fst (run_task methods task w)) = 400
  /\ llm_calls (snd (run_task methods task w)) = llm_calls w
  /\ fs (snd (run_task methods task w)) = fs w.
Proof.
  intros Hr. apply is_valid_task_false in Hr.
  rewrite (run_task_rejected task w Hr). auto.
Qed.

(** C10. When the task passes validation and handling it raises an
    exception [e] that is not an [HTTPException], the status is 400 if the
    message of [e] contains "Invalid" or "Failed to parse", and 500
    otherwise: the message decides, whatever the exception is. *)
Theorem error_status_by_message (task : str) (w w' : world FS) (e : exn) :
  is_valid_task task = true ->
  handle_task methods task w = (Raise e, w') ->
  is_HTTPException e = false ->
  (status_code (fst (run_task methods task w)) = 400
   <-> occurs "Invalid" (str_exn e) \/ occurs "Failed to parse" (str_exn e))
  /\ (status_code (fst (run_task methods task w)) = 500
      <-> ~ (occurs "Invalid" (str_exn e)
             \/ occurs "Failed to parse" (str_exn e))).
Proof.
  intros Hv Hh He.
  rewrite (run_task_failure_status task w w' e Hv Hh He), <- marked_occurs.
  destruct (marked e); split; split; intros H;
    solve [reflexivity | discriminate | congruence | exfalso; auto ].
Qed.

(** C4, amended.  When the classified task type is outside the registry,
    the dispatch raises before any handler runs: the world is the one the
    classification left.  [POST /run] answers by the text of the message:
    400 when it contains "Invalid" or "Failed to parse", 500 otherwise.
    When every method of the registry exists, the exception is the
    [ValueError] "Unknown task type: ...". *)
Theorem unknown_task_type (task response : str) (m : list (str * json))
    (ty ps : json) (w : world FS) :
  is_valid_task task = true ->
  gateway (classify_prompt task) = Ok response ->
  json_loads response = Ok (JObj m) ->
  dict_get m "task_type" = Some ty ->
  dict_get m "parameters" = Some ps ->
  outside_registry ty ->
  exists e,
    dispatch methods ty ps (after_call w task) = (Raise e, after_call w task)
    /\ handle_task methods task w = (Raise e, after_call w task)
    /\ is_HTTPException e = false
    /\ (all_bound methods -> hashable ty ->
        e = PyExc "ValueError" ("Unknown task type: " +:+ py_str ty))
    /\ status_code (fst (run_task methods task w))
       = (if contains "Invalid" (str_exn e)
             || contains "Failed to parse" (str_exn e)
          then 400 else 500)
    /\ snd (run_task methods task w)
       = printed (after_call w task) ("Error executing task: " +:+ str_exn e).
Proof.
  intros Hv Hg Hl Ht Hp Hout.
  destruct (dispatch_unknown methods ty ps (after_call w task) Hout)
    as (e & Hd & He & Hval).
  assert (Hh : handle_task methods task w = (Raise e, after_call w task)).
  { rewrite handle_task_run, classify_run, Hg. cbn.
    rewrite Hl. cbn. rewrite Ht, Hp. exact Hd. }
  exists e. repeat (split; [assumption|]).
  split.
  - apply (run_task_failure_status task w _ e Hv Hh He).
  - rewrite (run_task_failure task w _ e Hv Hh He). reflexivity.
Qed.

End WithEnv.

End RunFacts.

(** ** The endpoints on the sample file system *)

Module RunExamples.
Import PyStr StrSpec PyStrFacts Py Os World TaskHandler Main.
Import Validators ValidatorSpec ValidatorsFacts DispatchSpec HandlerFacts.
Import RunSpec RunFacts SampleEnv.

Lemma foo_outside : outside_registry (JStr "foo").
Proof.
  cbn. intros H. repeat (destruct H as [H|H]; [discriminate H|]). exact H.
Defined.

(** C4 as stated fails: the service classifies the task as "foo", which is
    no key of the registry, and [POST /run] answers 500, with the class as
    it is written and with the class completed. *)
Lemma unknown_task_type_500 :
  outside_registry (JStr "foo")
  /\ status_code
       (fst (@run_task _ _ (classifies_as _ "foo") TaskHandler_methods
               task world0)) = 500
  /\ fst (@run_task _ _ (classifies_as _ "foo") completed_methods task world0)
     = Raise (HTTPException 500
                "Internal server error: Unknown task type: foo").
Proof.
  split; [exact foo_outside|]. split; vm_compute; reflexivity.
Qed.

Lemma unknown_task_type_witness :
  exists e,
    @handle_task _ _ (classifies_as _ "foo") completed_methods task world0
    = (Raise e, after_call world0 task)
    /\ e = PyExc "ValueError" "Unknown task type: foo"
    /\ status_code
         (fst (@run_task _ _ (classifies_as _ "foo") completed_methods
                 task world0)) = 500.
Proof.
  destruct (@unknown_task_type _ _ (classifies_as _ "foo") completed_methods
              task (classification_text "foo")
              [("task_type", JStr "foo"); ("parameters", JObj [])]
              (JStr "foo") (JObj []) world0)
    as (e & _ & Hh & _ & Hval & Hst & _).
  - reflexivity.
  - reflexivity.
  - vm_compute. reflexivity.
  - reflexivity.
  - reflexivity.
  - exact foo_outside.
  - assert (He : e = PyExc "ValueError" "Unknown task type: foo").
    { apply Hval.
      - intros name Hn. cbn in Hn. unfold completed_methods. cbn.
        repeat (destruct Hn as [<-|Hn]; [tauto|]). destruct Hn.
      - exact I. }
    exists e. split; [exact Hh|]. split; [exact He|].
    rewrite Hst, He. vm_compute. reflexivity.
Defined.

(** The class as it is written lacks seven methods of the registry: the
    dict display raises before the lookup, whatever the task type. *)
Example missing_method :
  fst (@handle_task _ _ (classifies_as _ "sort_contacts") TaskHandler_methods
         task world0)
  = Raise (PyExc "AttributeError"
             "'TaskHandler' object has no attribute '_handle_api_fetch'").
Proof. vm_compute. reflexivity. Qed.

Lemma rejected_task_400_witness :
  rejected "remove it all"
  /\ status_code
       (fst (@run_task _ _ (classifies_as _ "foo") TaskHandler_methods
               "remove it all" world0)) = 400
  /\ llm_calls
       (snd (@run_task _ _ (classifies_as _ "foo") TaskHandler_methods
               "remove it all" world0)) = [].
Proof.
  assert (Hr : rejected "remove it all").
  { right. right. right. exists "remove". split; [cbn; auto|].
    exists "", " it all". reflexivity. }
  split; [exact Hr|].
  destruct (@rejected_task_400 _ _ (classifies_as _ "foo") TaskHandler_methods
              "remove it all" world0 Hr) as (_ & _ & Hs & Hl & _).
  split; [exact Hs | exact Hl].
Defined.


Lemma error_status_by_message_witness :
  @handle_task Posix.filesystem _ (env _ (Raise invalid_token) [])
    TaskHandler_methods task world0
  = (Raise invalid_token, after_call world0 task)
  /\ status_code
       (fst (@run_task Posix.filesystem _ (env _ (Raise invalid_token) [])
               TaskHandler_methods task world0)) = 400.
Proof.
  assert (Hh : @handle_task Posix.filesystem _ (env _ (Raise invalid_token) [])
                 TaskHandler_methods task world0
               = (Raise invalid_token, after_call world0 task)).
  { vm_compute. reflexivity. }
  split; [exact Hh|].
  apply (@error_status_by_message _ _ (env _ (Raise invalid_token) [])
           TaskHandler_methods task world0 _ invalid_token eq_refl Hh eq_refl).
  left. exists "LLM request failed: ", " token". reflexivity.
Defined.

(** An exception of another text gives 500. *)
Example error_500 :
  status_code
    (fst (@run_task Posix.filesystem _
            (env _ (Raise (PyExc "Exception" "LLM request failed: busy")) [])
            TaskHandler_methods task world0)) = 500.
Proof. vm_compute. reflexivity. Qed.


End RunExamples.

(** ** [POST /run] with the class as it is written *)

Module AsWrittenFacts.
Import PyStr StrSpec PyStrFacts Py Os World TaskHandler Main.
Import Validators ValidatorSpec ValidatorsFacts DispatchSpec HandlerFacts.
Import RunSpec RunFacts.

Section WithEnv.
Context {FS : Type} `{!OS FS} `{!Env FS}.

Lemma build_handlers_as_written :
  build_handlers TaskHandler_methods handler_items ∅
  = Raise (PyExc "AttributeError"
             "'TaskHandler' object has no attribute '_handle_api_fetch'").
Proof. vm_compute. reflexivity. Qed.

Lemma handle_task_as_written (task : str) (w : world FS) :
  exists e, handle_task TaskHandler_methods task w
            = (Raise e, after_call w task).
Proof.
  rewrite handle_task_run.
  destruct (fst (classify task w)) as [[ty ps]|e]; [|eauto].
  unfold dispatch. unfold mbind at 1, M_bind, bind, lift.
  rewrite build_handlers_as_written. eauto.
Qed.

Lemma run_task_raised (methods : list str) (task : str) (w w' : world FS)
    (e : exn) :
  is_valid_task task = true ->
  handle_task methods task w = (Raise e, w') ->
  exists status detail,
    run_task methods task w
    = (Raise (HTTPException status detail),
       printed w' ("Error executing task: " +:+ str_exn e)).
Proof.
  intros Hv Hh. destruct (is_HTTPException e) eqn:He.
  - destruct e as [s d|cls msg]; [|discriminate]. exists s, d.
    unfold run_task, run_task_body, try_except.
    rewrite Hv, (is_valid_task_truthy _ Hv). cbn [negb orb].
    unfold mbind at 1, M_bind, bind. rewrite Hh. reflexivity.
  - rewrite (run_task_failure methods task w w' e Hv Hh He).
    destruct (marked e); eauto.
Qed.

(** With the [TaskHandler] class as it is written, [POST /run] never
    answers with a result: for every task it raises an [HTTPException].
    The file system is left as it was, and the LLM service receives the
    classification prompt of a task that passes validation and nothing
    else. *)
Theorem run_task_never_succeeds (task : str) (w : world FS) :
  exists (status : Z) (detail : str),
    fst (run_task TaskHandler_methods task w)
    = Raise (HTTPException status detail)
    /\ fs (snd (run_task TaskHandler_methods task w)) = fs w
    /\ llm_calls (snd (run_task TaskHandler_methods task w))
       = (llm_calls w
          ++ (if is_valid_task task then [classify_prompt task] else []))%list.
Proof.
  destruct (is_valid_task task) eqn:Hv.
  - destruct (handle_task_as_written task w) as [e Hh].
    destruct (run_task_raised _ task w _ e Hv Hh) as (s & d & ->).
    exists s, d. auto.
  - rewrite (run_task_rejected _ task w Hv). eexists _, _.
    split; [reflexivity|]. split; [reflexivity|].
    cbn. rewrite app_nil_r. reflexivity.
Qed.

End WithEnv.

End AsWrittenFacts.

(** ** Dates *)

Module DatetimeFacts.
Import PyStr PyStrFacts Py Datetime DateSpec.

Lemma digit_char_digit (k : Z) :
  0 <= k <= 9 -> is_digit (digit_char k) = true /\ digit (digit_char k) = k.
Proof.
  intros Hk.
  assert (H : k = 0 \/ k = 1 \/ k = 2 \/ k = 3 \/ k = 4 \/ k = 5 \/ k = 6
              \/ k = 7 \/ k = 8 \/ k = 9) by lia.
  repeat (destruct H as [-> | H]; [split; reflexivity|]).
  subst k. split; reflexivity.
Qed.

Local Ltac div_lia := Z.to_euclidean_division_equations; lia.

Lemma re_Y_pad4 (y : Z) (rest : str) :
  0 <= y <= 9999 -> re_Y (pad4 y +:+ rest) = Some (y, rest).
Proof.
  intros Hy. unfold pad4. rewrite !app_cons, app_nil. unfold re_Y.
  destruct (digit_char_digit (y / 1000)) as [-> ->]; [div_lia|].
  destruct (digit_char_digit ((y / 100) mod 10)) as [-> ->]; [div_lia|].
  destruct (digit_char_digit ((y / 10) mod 10)) as [-> ->]; [div_lia|].
  destruct (digit_char_digit (y mod 10)) as [-> ->]; [div_lia|].
  cbn [andb]. do 2 f_equal. div_lia.
Qed.

Lemma re_dash_dash (rest : str) : re_dash ("-" +:+ rest) = Some rest.
Proof. reflexivity. Qed.

Lemma In_upto (n : nat) (k : Z) : 1 <= k <= Z.of_nat n -> In k (upto n).
Proof.
  intros Hk. unfold upto. apply in_map_iff.
  exists (Z.to_nat k). split; [lia|]. apply in_seq. lia.
Qed.

Lemma month_day_all :
  forallb (fun m => forallb (month_day_ok m) (upto 31)) (upto 12) = true.
Proof. vm_compute. reflexivity. Qed.

Lemma re_month_day_pad (m d : Z) :
  1 <= m <= 12 -> 1 <= d <= 31 ->
  re_month_day (re_m (pad2 m +:+ "-" +:+ pad2 d)) = Some (m, d, "").
Proof.
  intros Hm Hd.
  pose proof month_day_all as Hall.
  rewrite forallb_forall in Hall.
  specialize (Hall m (In_upto 12 m ltac:(lia))).
  rewrite forallb_forall in Hall.
  specialize (Hall d (In_upto 31 d ltac:(lia))).
  unfold month_day_ok in Hall.
  destruct (re_month_day _) as [[[m' d'] [|c tail]]|]; try discriminate.
  apply andb_true_iff in Hall as [H1 H2].
  apply Z.eqb_eq in H1, H2. congruence.
Qed.

Local Ltac month_cases m :=
  let H := fresh "H" in
  assert (H : m = 1 \/ m = 2 \/ m = 3 \/ m = 4 \/ m = 5 \/ m = 6 \/ m = 7
              \/ m = 8 \/ m = 9 \/ m = 10 \/ m = 11 \/ m = 12) by lia;
  repeat (destruct H as [H | H]; [subst m|]); [..|subst m].

Lemma days_in_month_le_31 (y m : Z) : days_in_month y m <= 31.
Proof.
  unfold days_in_month.
  destruct ((m =? 2) && is_leap y); [lia|].
  destruct (Z.to_nat m) as [|[|[|[|[|[|[|[|[|[|[|[|[|n]]]]]]]]]]]]];
    cbn; try lia.
  destruct n; cbn; lia.
Qed.

Lemma valid_date_bounds (y m d : Z) :
  valid_date y m d = true ->
  1 <= y <= 9999 /\ 1 <= m <= 12 /\ 1 <= d <= days_in_month y m.
Proof.
  unfold valid_date. rewrite !andb_true_iff, !Z.leb_le. tauto.
Qed.

(** [strptime] reads the ISO form of a date back. *)
Lemma strptime_isoformat (repr : str -> str) (y m d : Z) :
  valid_date y m d = true ->
  strptime repr (isoformat y m d) = Ok (y, m, d).
Proof.
  intros Hv. apply valid_date_bounds in Hv as (Hy & Hm & Hd).
  pose proof (days_in_month_le_31 y m) as H31.
  unfold strptime, re_match, isoformat.
  rewrite re_Y_pad4 by lia. cbn [mbind option_bind].
  rewrite re_dash_dash. cbn [mbind option_bind].
  rewrite re_month_day_pad by lia. cbn [mbind option_bind truthy].
  destruct (y <? 1) eqn:H1; [apply Z.ltb_lt in H1; lia|].
  destruct (days_in_month y m <? d) eqn:H2; [apply Z.ltb_lt in H2; lia|].
  reflexivity.
Qed.

(** *** The day of the week advances by one each day *)

Lemma days_before_month_succ (y m : Z) :
  1 <= m <= 11 ->
  days_before_month y (m + 1) = days_before_month y m + days_in_month y m.
Proof.
  intros Hm. unfold days_before_month, days_in_month.
  month_cases m; try lia; cbn; destruct (is_leap y); reflexivity.
Qed.

Lemma days_before_december (y : Z) :
  days_before_month y 12 = if is_leap y then 335 else 334.
Proof.
  unfold days_before_month. cbn. destruct (is_leap y); reflexivity.
Qed.

Lemma days_before_year_succ (y : Z) :
  days_before_year (y + 1)
  = days_before_year y + if is_leap y then 366 else 365.
Proof.
  unfold days_before_year, is_leap.
  replace (y + 1 - 1) with y by lia.
  destruct (Z.eqb_spec (y mod 4) 0), (Z.eqb_spec (y mod 100) 0),
    (Z.eqb_spec (y mod 400) 0); cbn [andb orb negb]; div_lia.
Qed.

Lemma ymd2ord_next_day (y m d : Z) :
  valid_date y m d = true ->
  (let '(y', m', d') := next_day (y, m, d) in ymd2ord y' m' d')
  = ymd2ord y m d + 1.
Proof.
  intros Hv. apply valid_date_bounds in Hv as (Hy & Hm & Hd).
  unfold next_day, ymd2ord.
  destruct (Z.ltb_spec d (days_in_month y m)); [lia|].
  destruct (Z.ltb_spec m 12).
  - rewrite days_before_month_succ by lia.
    change (days_before_month y 1) with 0. lia.
  - assert (m = 12) by lia. subst m.
    rewrite days_before_year_succ, days_before_december.
    change (days_before_month (y + 1) 1) with 0.
    assert (days_in_month y 12 = 31) by reflexivity.
    destruct (is_leap y); lia.
Qed.

Lemma weekday_next_day (date : Z * Z * Z) :
  (let '(y, m, d) := date in valid_date y m d = true) ->
  weekday_of (next_day date) = (weekday_of date + 1) mod 7.
Proof.
  destruct date as [[y m] d]. intros Hv.
  pose proof (ymd2ord_next_day y m d Hv) as Hn.
  unfold weekday_of. destruct (next_day (y, m, d)) as [[y' m'] d'].
  unfold weekday. rewrite Hn.
  rewrite Zplus_mod_idemp_l. f_equal. lia.
Qed.

(** The anchor of the specification: 2024-01-03 is a Wednesday. *)
Example wednesday_2024_01_03 : weekday 2024 1 3 = 2.
Proof. reflexivity. Qed.

End DatetimeFacts.

(** ** The weekday-count handler *)

Module WeekdayFacts.
Import PyStr PyStrFacts Py Os World Datetime DateSpec DatetimeFacts.
Import TaskHandler.

Section WithEnv.
Context {FS : Type} `{!OS FS} `{!Env FS}.

Lemma count_wednesdays_iso (lines : list str) (dates : list (Z * Z * Z)) :
  Forall2 iso_line lines dates ->
  count_wednesdays lines = Ok (wednesdays dates).
Proof.
  induction 1 as [|line [[y m] d] lines dates [Hv Hl] _ IH].
  - reflexivity.
  - cbn [count_wednesdays].
    rewrite <- (trimmed_strip _ _ Hl), (strptime_isoformat _ _ _ _ Hv).
    cbn [mbind result_bind]. rewrite IH. cbn [mbind result_bind].
    f_equal. unfold wednesdays. cbn [List.filter is_wednesday].
    destruct (weekday y m d =? 2); cbn [length]; lia.
Qed.

(** C8. When every line of /data/dates.txt is an ISO date, the handler
    writes to /data/dates-wednesdays.txt the decimal count of the lines
    whose date is a Wednesday, and succeeds when that write does. *)
Theorem weekday_counting_output (params : json) (w : world FS) (text : str)
    (dates : list (Z * Z * Z)) :
  open_read (fs w) "/data/dates.txt" = Ok text ->
  Forall2 iso_line (readlines text) dates ->
  _handle_weekday_counting params w
  = (match fst (open_write (fs w) "/data/dates-wednesdays.txt"
                  (str_of_Z (wednesdays dates))) with
     | Ok _ => Ok success
     | Raise e =>
         Raise (PyExc "Exception" ("Failed to count weekdays: " +:+ str_exn e))
     end,
     mkWorld
       (snd (open_write (fs w) "/data/dates-wednesdays.txt"
               (str_of_Z (wednesdays dates))))
       (llm_calls w) (stdout w)).
Proof.
  intros Hread Hlines.
  unfold _handle_weekday_counting, reraise, try_except.
  change (data_dir "dates.txt") with "/data/dates.txt".
  change (data_dir "dates-wednesdays.txt") with "/data/dates-wednesdays.txt".
  unfold mbind at 1, M_bind, bind, read_file_text. rewrite Hread.
  unfold mbind at 1, M_bind, bind, lift.
  rewrite (count_wednesdays_iso _ _ Hlines).
  unfold mbind at 1, M_bind, bind, write_file_text. cbn [fs llm_calls stdout].
  destruct (open_write (fs w) "/data/dates-wednesdays.txt"
              (str_of_Z (wednesdays dates))) as [[[]|e] fs'];
    reflexivity.
Qed.

End WithEnv.

Import SampleEnv.

(** The example of the specification: of 2024-01-01, 2024-01-03 and
    2024-01-10 two are Wednesdays, and the output file reads "2". *)
Lemma weekday_counting_output_witness :
  readlines dates_text
  = ["2024-01-01" +:+ nl; "2024-01-03" +:+ nl; "2024-01-10" +:+ nl]
  /\ wednesdays [(2024, 1, 1); (2024, 1, 3); (2024, 1, 10)] = 2
  /\ fst (@_handle_weekday_counting _ _ (classifies_as _ "count_weekdays")
            (JObj []) dates_world) = Ok success
  /\ read_text
       (fs (snd (@_handle_weekday_counting _ _
                   (classifies_as _ "count_weekdays") (JObj []) dates_world)))
       "/data/dates-wednesdays.txt" = Ok "2".
Proof.
  split; [vm_compute; reflexivity|]. split; [reflexivity|].
  rewrite (@weekday_counting_output _ _ (classifies_as _ "count_weekdays")
             (JObj []) dates_world dates_text
             [(2024, 1, 1); (2024, 1, 3); (2024, 1, 10)]).
  - split; vm_compute; reflexivity.
  - vm_compute. reflexivity.
  - change (readlines dates_text)
      with ["2024-01-01" +:+ nl; "2024-01-03" +:+ nl; "2024-01-10" +:+ nl].
    constructor; [split; [reflexivity|]|].
    { exact (strip_trimmed ("2024-01-01" +:+ nl)). }
    constructor; [split; [reflexivity|]|].
    { exact (strip_trimmed ("2024-01-03" +:+ nl)). }
    constructor; [split; [reflexivity|]|].
    { exact (strip_trimmed ("2024-01-10" +:+ nl)). }
    constructor.
Defined.

(** A blank line is not a date: the handler raises and writes nothing. *)
Example weekday_counting_blank_line :
  @_handle_weekday_counting _ _ (classifies_as _ "count_weekdays") (JObj [])
    (mkWorld (with_file Posix.sample "/data/dates.txt"
                ("2024-01-03" +:+ nl +:+ nl)) [] [])
  = (Raise (PyExc "Exception"
              "Failed to count weekdays: time data '' does not match format '%Y-%m-%d'"),
     mkWorld (with_file Posix.sample "/data/dates.txt"
                ("2024-01-03" +:+ nl +:+ nl)) [] []).
Proof. vm_compute. reflexivity. Qed.

End WeekdayFacts.

(** ** The registry of handlers, and a request from end to end *)

Module RegistryFacts.
Import PyStr StrSpec PyStrFacts Py Os World Datetime DateSpec DatetimeFacts.
Import TaskHandler Main Validators ValidatorsFacts DispatchSpec HandlerFacts.
Import WeekdayFacts.

Lemma registry_keys_nodup : List.NoDup registry_keys.
Proof.
  unfold registry_keys. cbn.
  repeat (constructor;
          [cbn; intros H;
           repeat (destruct H as [H|H]; [discriminate H|]); exact H|]).
  constructor.
Qed.

Section WithEnv.
Context {FS : Type} `{!OS FS} `{!Env FS}.
Variable methods : list str.

Lemma build_handlers_lookup (items : list (str * str)) (acc : gmap str str) :
  (forall name, In name (map snd items) -> In name methods) ->
  List.NoDup (map fst items) ->
  exists h,
    build_handlers methods items acc = Ok h
    /\ forall k name, In (k, name) items -> h !! k = Some name.
Proof.
  revert acc. induction items as [|[k name] items IH]; intros acc Hb Hnd.
  - exists acc. split; [reflexivity|]. intros k name [].
  - cbn in Hnd. apply List.NoDup_cons_iff in Hnd as [Hk Hnd].
    cbn [build_handlers].
    destruct (getattr_cases methods name) as [[_ ->] | [Hno _]].
    2: { exfalso. apply Hno, Hb. cbn. auto. }
    cbn [mbind result_bind].
    destruct (IH (<[k:=name]> acc)) as (h & Hh & Hl); [|exact Hnd|].
    { intros n Hn. apply Hb. cbn. auto. }
    exists h. split; [exact Hh|].
    intros k' name' [[= <- <-]|Hin]; [|apply Hl, Hin].
    destruct (build_handlers_outcome methods items (<[k:=name]> acc))
      as [(h' & Hh' & Hkeep) | (msg & Hmsg)]; [|congruence].
    assert (h' = h) as -> by congruence.
    rewrite (Hkeep k).
    + apply lookup_insert_eq.
    + exact Hk.
Qed.

Lemma dispatch_registered (k name : str) (ps : json) (w : world FS) :
  all_bound methods ->
  In (k, name) handler_items ->
  dispatch methods (JStr k) ps w = call_method name ps w.
Proof.
  intros Hb Hin. unfold dispatch. unfold mbind at 1, M_bind, bind, lift.
  destruct (build_handlers_lookup handler_items ∅ Hb)
    as (h & -> & Hl).
  { exact registry_keys_nodup. }
  unfold mbind at 1, M_bind, bind. cbn [handlers_get].
  rewrite (Hl k name Hin). reflexivity.
Qed.

Lemma handle_task_classified (task response : str) (m : list (str * json))
    (ty ps : json) (w : world FS) :
  gateway (classify_prompt task) = Ok response ->
  json_loads response = Ok (JObj m) ->
  dict_get m "task_type" = Some ty ->
  dict_get m "parameters" = Some ps ->
  handle_task methods task w = dispatch methods ty ps (after_call w task).
Proof.
  intros Hg Hl Ht Hp. rewrite handle_task_run, classify_run, Hg. cbn.
  rewrite Hl. cbn. rewrite Ht, Hp. reflexivity.
Qed.

(** For an object on which every method of the [handlers] dict exists,
    each of the seventeen task types is dispatched to the method the
    dict pairs with it; a classification with that task type makes
    [handle_task] call that method on the classified parameters, after
    the one classification prompt. *)
Theorem registry_dispatch (k name : str) (ps : json) (w : world FS) :
  all_bound methods ->
  In (k, name) handler_items ->
  dispatch methods (JStr k) ps w = call_method name ps w
  /\ forall (task response : str) (m : list (str * json)),
       gateway (classify_prompt task) = Ok response ->
       json_loads response = Ok (JObj m) ->
       dict_get m "task_type" = Some (JStr k) ->
       dict_get m "parameters" = Some ps ->
       handle_task methods task w = call_method name ps (after_call w task).
Proof.
  intros Hb Hin. split; [apply dispatch_registered; assumption|].
  intros task response m Hg Hl Ht Hp.
  rewrite (handle_task_classified task response m (JStr k) ps w Hg Hl Ht Hp).
  apply dispatch_registered; assumption.
Qed.

(** The weekday handler on a file whose lines parse. *)
Lemma weekday_counting_run (params : json) (w : world FS) (text : str)
    (n : Z) :
  open_read (fs w) "/data/dates.txt" = Ok text ->
  count_wednesdays (readlines text) = Ok n ->
  _handle_weekday_counting params w
  = (match fst (open_write (fs w) "/data/dates-wednesdays.txt" (str_of_Z n))
     with
     | Ok _ => Ok success
     | Raise e =>
         Raise (PyExc "Exception" ("Failed to count weekdays: " +:+ str_exn e))
     end,
     mkWorld
       (snd (open_write (fs w) "/data/dates-wednesdays.txt" (str_of_Z n)))
       (llm_calls w) (stdout w)).
Proof.
  intros Hread Hcount.
  unfold _handle_weekday_counting, reraise, try_except.
  change (data_dir "dates.txt") with "/data/dates.txt".
  change (data_dir "dates-wednesdays.txt") with "/data/dates-wednesdays.txt".
  unfold mbind at 1, M_bind, bind, read_file_text. rewrite Hread.
  unfold mbind at 1, M_bind, bind, lift. rewrite Hcount.
  unfold mbind at 1, M_bind, bind, write_file_text. cbn [fs llm_calls stdout].
  destruct (open_write (fs w) "/data/dates-wednesdays.txt" (str_of_Z n))
    as [[[]|e] fs']; reflexivity.
Qed.

(** A request from end to end.  For an object on which every method of
    the registry exists: when the task passes validation, the service
    classifies it as "count_weekdays", every line of /data/dates.txt is
    an ISO date and the output file can be written, [POST /run] answers
    200 with the body [{"status": "success", "result": {"status":
    "success"}}]; the output file holds the number of Wednesdays, one
    prompt was sent, and nothing is printed.  The classified parameters
    play no part. *)
Theorem run_count_weekdays (task response : str) (m : list (str * json))
    (ps : json) (w : world FS) (text : str) (dates : list (Z * Z * Z))
    (fs' : FS) :
  all_bound methods ->
  is_valid_task task = true ->
  gateway (classify_prompt task) = Ok response ->
  json_loads response = Ok (JObj m) ->
  dict_get m "task_type" = Some (JStr "count_weekdays") ->
  dict_get m "parameters" = Some ps ->
  open_read (fs w) "/data/dates.txt" = Ok text ->
  Forall2 iso_line (readlines text) dates ->
  open_write (fs w) "/data/dates-wednesdays.txt" (str_of_Z (wednesdays dates))
  = (Ok tt, fs') ->
  run_task methods task w
  = (Ok (JSONResponse
           (JObj [("status", JStr "success"); ("result", success)])),
     mkWorld fs' (llm_calls w ++ [classify_prompt task]) (stdout w))
  /\ status_code (fst (run_task methods task w)) = 200.
Proof.
  intros Hb Hv Hg Hl Ht Hp Hread Hlines Hwrite.
  assert (Hh : handle_task methods task w
               = (Ok success,
                  mkWorld fs' (llm_calls w ++ [classify_prompt task])
                    (stdout w))).
  { rewrite (handle_task_classified task response m _ ps w Hg Hl Ht Hp).
    rewrite (dispatch_registered "count_weekdays" "_handle_weekday_counting").
    - unfold call_method. cbn [String.eqb Ascii.eqb Bool.eqb].
      rewrite (weekday_counting_run ps (after_call w task) text
                 (wednesdays dates)).
      + cbn [after_call fs llm_calls stdout]. rewrite Hwrite. reflexivity.
      + exact Hread.
      + apply count_wednesdays_iso. exact Hlines.
    - exact Hb.
    - cbn. tauto. }
  assert (Hr : run_task methods task w
               = (Ok (JSONResponse
                        (JObj [("status", JStr "success");
                               ("result", success)])),
                  mkWorld fs' (llm_calls w ++ [classify_prompt task])
                    (stdout w))).
  { unfold run_task, run_task_body, try_except.
    rewrite Hv, (is_valid_task_truthy _ Hv). cbn [negb orb].
    unfold mbind at 1, M_bind, bind. rewrite Hh. reflexivity. }
  rewrite Hr. auto.
Qed.

End WithEnv.

Import SampleEnv.

Lemma completed_bound : all_bound completed_methods.
Proof.
  intros name Hn. cbn in Hn. unfold completed_methods. cbn.
  repeat (destruct Hn as [<-|Hn]; [tauto|]). destruct Hn.
Qed.

Lemma registry_dispatch_witness :
  @dispatch _ _ (classifies_as _ "sort_contacts") completed_methods
    (JStr "sort_contacts") (JObj []) (contacts_world contacts)
  = @call_method _ _ (classifies_as _ "sort_contacts")
      "_handle_contact_sorting" (JObj []) (contacts_world contacts).
Proof.
  refine (proj1 (@registry_dispatch _ _ (classifies_as _ "sort_contacts")
                   completed_methods "sort_contacts" "_handle_contact_sorting"
                   (JObj []) (contacts_world contacts) completed_bound _)).
  cbn. tauto.
Defined.

Lemma run_count_weekdays_witness :
  status_code
    (fst (@run_task _ _ (classifies_as _ "count_weekdays") completed_methods
            "count the Wednesdays in /data/dates.txt" dates_world)) = 200
  /\ read_text
       (fs (snd (@run_task _ _ (classifies_as _ "count_weekdays")
                   completed_methods
                   "count the Wednesdays in /data/dates.txt" dates_world)))
       "/data/dates-wednesdays.txt" = Ok "2".
Proof.
  destruct (@run_count_weekdays _ _ (classifies_as _ "count_weekdays")
              completed_methods "count the Wednesdays in /data/dates.txt"
              (classification_text "count_weekdays")
              [("task_type", JStr "count_weekdays"); ("parameters", JObj [])]
              (JObj []) dates_world dates_text
              [(2024, 1, 1); (2024, 1, 3); (2024, 1, 10)]
              (with_file (fs dates_world) "/data/dates-wednesdays.txt" "2"))
    as [Hr Hs].
  - exact completed_bound.
  - vm_compute. reflexivity.
  - reflexivity.
  - vm_compute. reflexivity.
  - reflexivity.
  - reflexivity.
  - vm_compute. reflexivity.
  - change (readlines dates_text)
      with ["2024-01-01" +:+ nl; "2024-01-03" +:+ nl; "2024-01-10" +:+ nl].
    constructor; [split; [reflexivity|]|].
    { exact (strip_trimmed ("2024-01-01" +:+ nl)). }
    constructor; [split; [reflexivity|]|].
    { exact (strip_trimmed ("2024-01-03" +:+ nl)). }
    constructor; [split; [reflexivity|]|].
    { exact (strip_trimmed ("2024-01-10" +:+ nl)). }
    constructor.
  - vm_compute. reflexivity.
  - split; [exact Hs|]. rewrite Hr. vm_compute. reflexivity.
Defined.

End RegistryFacts.

(** ** Orders given by a comparison function *)

Module OrderFacts.
Import OrderSpec.

Section Total.
Context {T : Type} (cmp : T -> T -> comparison) (Hcmp : total_cmp cmp).

Local Abbreviation ltb := (OrderSpec.ltb cmp).

Lemma cmp_refl (x : T) : cmp x x = Eq.
Proof. apply Hcmp. reflexivity. Qed.

Lemma cmp_gt_lt (x y : T) : cmp x y = Gt -> cmp y x = Lt.
Proof. intros H. rewrite (cmp_antisym cmp Hcmp x y), H. reflexivity. Qed.

Lemma cmp_lt_gt (x y : T) : cmp x y = Lt -> cmp y x = Gt.
Proof. intros H. rewrite (cmp_antisym cmp Hcmp x y), H. reflexivity. Qed.

(** One step of a lexicographic comparison is transitive when the
    comparison of the rests is. *)
Lemma then_cmp_trans (a b c : T) (r12 r23 r13 : comparison) :
  (r12 = Lt -> r23 = Lt -> r13 = Lt) ->
  then_cmp (cmp a b) r12 = Lt ->
  then_cmp (cmp b c) r23 = Lt ->
  then_cmp (cmp a c) r13 = Lt.
Proof.
  intros Hr. unfold then_cmp.
  destruct (cmp a b) eqn:Hab; try discriminate.
  - apply Hcmp in Hab. subst b.
    destruct (cmp a c); try discriminate; auto.
  - intros _. destruct (cmp b c) eqn:Hbc; try discriminate.
    + apply Hcmp in Hbc. subst c. rewrite Hab. reflexivity.
    + intros _. rewrite (cmp_trans cmp Hcmp a b c Hab Hbc). reflexivity.
Qed.

Lemma then_cmp_eq (a b : T) (r : comparison) :
  then_cmp (cmp a b) r = Eq <-> a = b /\ r = Eq.
Proof.
  unfold then_cmp. destruct (cmp a b) eqn:Hab.
  - apply Hcmp in Hab. tauto.
  - split; [discriminate|]. intros [-> _]. rewrite cmp_refl in Hab.
    discriminate.
  - split; [discriminate|]. intros [-> _]. rewrite cmp_refl in Hab.
    discriminate.
Qed.

Lemma then_cmp_antisym (a b : T) (r r' : comparison) :
  r' = CompOpp r ->
  then_cmp (cmp b a) r' = CompOpp (then_cmp (cmp a b) r).
Proof.
  intros ->. unfold then_cmp. rewrite (cmp_antisym cmp Hcmp a b).
  destruct (cmp a b); reflexivity.
Qed.

Lemma ltb_irrefl (x : T) : ltb x x = false.
Proof. unfold ltb. rewrite cmp_refl. reflexivity. Qed.

Lemma ltb_trans (x y z : T) :
  ltb x y = true -> ltb y z = true -> ltb x z = true.
Proof.
  unfold ltb, is_lt. intros Hxy Hyz.
  destruct (cmp x y) eqn:H1; try discriminate.
  destruct (cmp y z) eqn:H2; try discriminate.
  rewrite (cmp_trans cmp Hcmp x y z H1 H2). reflexivity.
Qed.

Lemma ltb_negtrans (x y z : T) :
  ltb x y = false -> ltb y z = false -> ltb x z = false.
Proof.
  unfold ltb, is_lt. intros Hxy Hyz.
  destruct (cmp x z) eqn:Hxz; try reflexivity. exfalso.
  destruct (cmp x y) eqn:H1; try discriminate.
  - apply Hcmp in H1. subst y. rewrite Hxz in Hyz. discriminate.
  - apply cmp_gt_lt in H1.
    rewrite (cmp_trans cmp Hcmp y x z H1 Hxz) in Hyz. discriminate.
Qed.

Lemma ltb_asym (x y : T) : ltb x y = true -> ltb y x = false.
Proof.
  intros H. destruct (ltb y x) eqn:H'; [|reflexivity].
  pose proof (ltb_trans x y x H H') as Hxx. rewrite ltb_irrefl in Hxx.
  discriminate.
Qed.

(** Neither is below the other exactly when they are equal. *)
Lemma ltb_equiv (x y : T) :
  ltb x y = false -> ltb y x = false -> x = y.
Proof.
  unfold ltb, is_lt. intros H1 H2.
  destruct (cmp x y) eqn:Hxy; try discriminate.
  - apply Hcmp. exact Hxy.
  - apply cmp_gt_lt in Hxy. rewrite Hxy in H2. discriminate.
Qed.

End Total.

Lemma ascii_total : total_cmp Ascii.compare.
Proof.
  split.
  - intros x y. split; [apply Ascii.compare_eq_iff|].
    intros ->. unfold Ascii.compare. apply N.compare_refl.
  - intros x y. apply Ascii.compare_antisym.
  - intros x y z. unfold Ascii.compare. rewrite !N.compare_lt_iff. lia.
Qed.

Lemma string_compare_cons (a b : ascii) (s t : string) :
  String.compare (String a s) (String b t)
  = then_cmp (Ascii.compare a b) (String.compare s t).
Proof. cbn. unfold then_cmp. destruct (Ascii.compare a b); reflexivity. Qed.

Lemma string_total : total_cmp String.compare.
Proof.
  split.
  - intros x y. split; [apply String.compare_eq_iff|].
    intros ->. induction y as [|c y IH]; [reflexivity|].
    rewrite string_compare_cons.
    apply (then_cmp_eq _ ascii_total). auto.
  - intros x y. apply String.compare_antisym.
  - intros x. induction x as [|a x IH]; intros [|b y] [|c z];
      try (cbn; congruence).
    rewrite !string_compare_cons.
    apply (then_cmp_trans _ ascii_total). apply IH.
Qed.

Lemma lex_total {A B : Type} (ca : A -> A -> comparison)
    (cb : B -> B -> comparison) :
  total_cmp ca -> total_cmp cb -> total_cmp (lex ca cb).
Proof.
  intros Ha Hb. split.
  - intros [a b] [a' b']. unfold lex. cbn [fst snd].
    rewrite (then_cmp_eq _ Ha), (cmp_eq cb Hb). split.
    + intros [-> ->]. reflexivity.
    + intros [= -> ->]. auto.
  - intros [a b] [a' b']. unfold lex. cbn [fst snd].
    apply (then_cmp_antisym _ Ha). apply Hb.
  - intros [a b] [a' b'] [a'' b'']. unfold lex. cbn [fst snd].
    apply (then_cmp_trans _ Ha). apply Hb.
Qed.

End OrderFacts.

(** ** [sorted] is a stable sort *)

Module SortedFacts.
Import Py PySorted StableSort.

Section Sort.
Context {K A : Type}.
Variable lt : K -> K -> result bool.

(** [ltb] is a strict weak order, and [lt] computes it on the keys of
    [D]. *)
Variable D : K -> Prop.
Variable ltb : K -> K -> bool.
Hypothesis lt_ltb : forall x y, D x -> D y -> lt x y = Ok (ltb x y).
Hypothesis key_irrefl : forall x, ltb x x = false.
Hypothesis key_trans :
  forall x y z, ltb x y = true -> ltb y z = true -> ltb x z = true.
Hypothesis key_negtrans :
  forall x y z, ltb x y = false -> ltb y z = false -> ltb x z = false.

Implicit Types (x y : K * A) (l acc : list (K * A)).

Local Abbreviation ins := (StableSort.ins ltb).
Local Abbreviation isort_into := (StableSort.isort_into ltb).
Local Abbreviation le := (StableSort.le ltb).
Local Abbreviation keys_in := (StableSort.keys_in D).

Lemma ins_perm x l : Permutation (x :: l) (ins x l).
Proof.
  induction l as [|y l IH]; cbn; [reflexivity|].
  destruct (ltb (fst x) (fst y)); [reflexivity|].
  rewrite perm_swap. constructor. exact IH.
Qed.

Lemma isort_into_perm acc l : Permutation (acc ++ l) (isort_into acc l).
Proof.
  revert acc. induction l as [|x l IH]; intros acc; cbn.
  - rewrite app_nil_r. reflexivity.
  - rewrite <- IH, <- ins_perm. symmetry. apply Permutation_middle.
Qed.

Lemma ins_keys x l : D (fst x) -> keys_in l -> keys_in (ins x l).
Proof.
  intros Hx Hl. unfold keys_in.
  rewrite <- (ins_perm x l). constructor; assumption.
Qed.

Lemma insert_ins x l :
  D (fst x) -> keys_in l -> insert lt x l = Ok (ins x l).
Proof.
  intros Hx. induction 1 as [|y l Hy Hl IH]; cbn; [reflexivity|].
  rewrite (lt_ltb _ _ Hx Hy). cbn.
  destruct (ltb (fst x) (fst y)); [reflexivity|].
  rewrite IH. reflexivity.
Qed.

Lemma sort_into_isort acc l :
  keys_in acc -> keys_in l -> sort_into lt acc l = Ok (isort_into acc l).
Proof.
  intros Hacc Hl. revert acc Hacc.
  induction Hl as [|x l Hx Hl IH]; intros acc Hacc; cbn; [reflexivity|].
  rewrite (insert_ins x acc Hx Hacc). cbn.
  apply IH. apply ins_keys; assumption.
Qed.

Lemma key_asym (a b : K) : ltb a b = true -> ltb b a = false.
Proof.
  intros H. destruct (ltb b a) eqn:H'; [|reflexivity].
  pose proof (key_trans a b a H H') as Haa. rewrite key_irrefl in Haa.
  discriminate.
Qed.

Lemma le_trans x y z : le x y -> le y z -> le x z.
Proof. unfold le. intros H1 H2. exact (key_negtrans _ _ _ H2 H1). Qed.

Lemma ins_sorted x l : StronglySorted le l -> StronglySorted le (ins x l).
Proof.
  induction 1 as [|y l Hs IH Hall]; cbn.
  - repeat constructor.
  - destruct (ltb (fst x) (fst y)) eqn:Hxy.
    + assert (Hle : le x y) by (apply key_asym; exact Hxy).
      constructor; [constructor; assumption|].
      constructor; [exact Hle|].
      eapply List.Forall_impl; [|exact Hall].
      intros z Hz. exact (le_trans x y z Hle Hz).
    + constructor; [exact IH|].
      rewrite <- (ins_perm x l). constructor; [exact Hxy | exact Hall].
Qed.

Lemma isort_into_sorted acc l :
  StronglySorted le acc -> StronglySorted le (isort_into acc l).
Proof.
  revert acc. induction l as [|x l IH]; intros acc Hacc; cbn; [exact Hacc|].
  apply IH, ins_sorted, Hacc.
Qed.

(** *** Stability *)

Section Stable.
Variable P : K * A -> bool.

Local Abbreviation one_class := (StableSort.one_class ltb P).

Lemma filter_none l :
  (forall z, In z l -> P z = false) -> List.filter P l = [].
Proof.
  induction l as [|z l IH]; intros H; cbn; [reflexivity|].
  rewrite (H z (or_introl eq_refl)). apply IH. intros z' Hz'.
  apply H. right. exact Hz'.
Qed.

Lemma ins_filter x l :
  StronglySorted le l -> one_class (x :: l) ->
  List.filter P (ins x l) = (List.filter P l ++ List.filter P [x])%list.
Proof.
  induction 1 as [|y l Hs IH Hall]; intros Hc; cbn [ins].
  - reflexivity.
  - destruct (ltb (fst x) (fst y)) eqn:Hxy.
    + cbn [List.filter]. destruct (P x) eqn:Hpx.
      * assert (Hnone : List.filter P (y :: l) = []).
        { apply filter_none. intros z Hz.
          destruct (P z) eqn:Hpz; [exfalso|reflexivity].
          assert (Hxz : ltb (fst x) (fst z) = false).
          { apply Hc; cbn; auto. }
          assert (Hzy : ltb (fst z) (fst y) = false).
          { destruct Hz as [<-|Hz]; [apply key_irrefl|].
            rewrite List.Forall_forall in Hall. apply (Hall z Hz). }
          rewrite (key_negtrans _ _ _ Hxz Hzy) in Hxy. discriminate. }
        cbn [List.filter] in Hnone. rewrite Hnone. reflexivity.
      * rewrite app_nil_r. reflexivity.
    + cbn [List.filter]. rewrite IH.
      * destruct (P y); reflexivity.
      * intros a b Ha Hb. apply Hc.
        -- destruct Ha as [<-|Ha]; cbn; auto.
        -- destruct Hb as [<-|Hb]; cbn; auto.
Qed.

Lemma isort_into_filter acc l :
  StronglySorted le acc -> one_class (acc ++ l) ->
  List.filter P (isort_into acc l)
  = (List.filter P acc ++ List.filter P l)%list.
Proof.
  revert acc. induction l as [|x l IH]; intros acc Hacc Hc; cbn [isort_into].
  - cbn. rewrite app_nil_r. reflexivity.
  - rewrite IH.
    + rewrite ins_filter; [|exact Hacc|].
      * cbn [List.filter]. rewrite <- app_assoc.
        destruct (P x); reflexivity.
      * intros a b Ha Hb. apply Hc.
        -- destruct Ha as [<-|Ha]; apply in_or_app; cbn; auto.
        -- destruct Hb as [<-|Hb]; apply in_or_app; cbn; auto.
    + apply ins_sorted, Hacc.
    + intros a b Ha Hb. apply Hc.
      * apply in_app_or in Ha as [Ha|Ha].
        -- apply (Permutation_in _ (Permutation_sym (ins_perm x acc))) in Ha.
           destruct Ha as [<-|Ha]; apply in_or_app; cbn; auto.
        -- apply in_or_app; cbn; auto.
      * apply in_app_or in Hb as [Hb|Hb].
        -- apply (Permutation_in _ (Permutation_sym (ins_perm x acc))) in Hb.
           destruct Hb as [<-|Hb]; apply in_or_app; cbn; auto.
        -- apply in_or_app; cbn; auto.
Qed.

End Stable.

(** *** A sorted list is left as it is *)

Lemma ins_last x acc :
  Forall (fun y => le y x) acc -> ins x acc = (acc ++ [x])%list.
Proof.
  induction 1 as [|y acc Hy Hall IH]; cbn; [reflexivity|].
  unfold le in Hy. rewrite Hy, IH. reflexivity.
Qed.

Lemma sorted_app_inv acc x l :
  StronglySorted le (acc ++ x :: l) -> Forall (fun y => le y x) acc.
Proof.
  induction acc as [|y acc IH]; cbn; intros H; [constructor|].
  apply StronglySorted_inv in H as [Hs Hall].
  constructor; [|apply IH, Hs].
  rewrite List.Forall_forall in Hall. apply Hall.
  apply in_or_app. cbn. auto.
Qed.

Lemma isort_into_sorted_id acc l :
  StronglySorted le (acc ++ l) -> isort_into acc l = (acc ++ l)%list.
Proof.
  revert acc. induction l as [|x l IH]; intros acc Hs; cbn [isort_into].
  - rewrite app_nil_r. reflexivity.
  - rewrite (ins_last x acc (sorted_app_inv acc x l Hs)).
    rewrite IH; rewrite <- app_assoc; [reflexivity | exact Hs].
Qed.

End Sort.

End SortedFacts.

(** ** Texts without carriage return are read back as written *)

Module NewlineFacts.
Import PyStr PyStrFacts Py TaskHandler PhaseA Posix SampleEnv NewlineSpec.

Lemma universal_newlines_no_cr (s : str) :
  no_cr s = true -> universal_newlines s = s.
Proof.
  induction s as [|c s IH]; cbn [no_cr universal_newlines]; [reflexivity|].
  destruct (Ascii.eqb c (ascii_of_nat 13)); cbn [negb andb]; [discriminate|].
  intros H. rewrite (IH H). reflexivity.
Qed.

Lemma no_cr_app (a b : str) : no_cr (a +:+ b) = no_cr a && no_cr b.
Proof.
  induction a as [|c a IH]; [reflexivity|].
  rewrite app_cons. cbn [no_cr]. rewrite IH, andb_assoc. reflexivity.
Qed.

(** The text of a list of values, from the texts of the values. *)
Lemma dumps_list_no_cr (l : list json) :
  Forall (fun x => no_cr (dumps "  " x) = true) l ->
  no_cr (dumps "" (JList l)) = true.
Proof.
  intros H. destruct H as [|x l Hx Hl]; [reflexivity|].
  cbn [dumps]. change ("" +:+ "  ") with "  ".
  rewrite !no_cr_app, Hx.
  change (no_cr "[") with true. change (no_cr nl) with true.
  change (no_cr "  ") with true.
  change (no_cr "]") with true. change (no_cr "") with true.
  cbn [andb]. rewrite andb_true_r.
  induction Hl as [|y l Hy Hl IH]; [reflexivity|].
  rewrite !no_cr_app, Hy, IH. reflexivity.
Qed.

Lemma join_no_cr (l : list str) :
  Forall (fun x => no_cr x = true) l -> no_cr (join nl l) = true.
Proof.
  induction 1 as [|x l Hx Hl IH]; [reflexivity|].
  cbn [join]. destruct l as [|y l]; [exact Hx|].
  rewrite !no_cr_app, Hx, IH. reflexivity.
Qed.

Lemma posix_read_stat (fs : filesystem) (p raw : str) :
  has_nul p = false ->
  stat fs p = inr (File true raw) ->
  no_cr raw = true ->
  posix_read fs p = Ok raw.
Proof.
  intros Hn Hs Hr. unfold posix_read. rewrite Hn, Hs.
  rewrite (universal_newlines_no_cr _ Hr). reflexivity.
Qed.

End NewlineFacts.

(** ** The contact-sort handler *)

Module ContactFacts.
Import PyStr PyStrFacts Py Os World PyCompare PySorted TaskHandler.
Import OrderSpec OrderFacts StableSort SortedFacts ContactSpec.

Lemma key_total : total_cmp key_cmp.
Proof. apply lex_total; apply string_total. Qed.

Lemma key_ltb_irrefl (x : json * json) : key_ltb x x = false.
Proof. apply (ltb_irrefl _ key_total). Qed.

Lemma key_ltb_trans (x y z : json * json) :
  key_ltb x y = true -> key_ltb y z = true -> key_ltb x z = true.
Proof. apply (ltb_trans _ key_total). Qed.

Lemma key_ltb_negtrans (x y z : json * json) :
  key_ltb x y = false -> key_ltb y z = false -> key_ltb x z = false.
Proof. apply (ltb_negtrans _ key_total). Qed.

Lemma string_ltb_lt (s t : str) : String.ltb s t = is_lt (String.compare s t).
Proof. unfold String.ltb. destruct (String.compare s t); reflexivity. Qed.

Lemma string_eqb_compare (s t : str) :
  String.eqb s t = match String.compare s t with Eq => true | _ => false end.
Proof.
  destruct (String.eqb_spec s t) as [->|Hne].
  - rewrite (cmp_refl _ string_total). reflexivity.
  - destruct (String.compare s t) eqn:Hc; try reflexivity.
    apply String.compare_eq_iff in Hc. contradiction.
Qed.

Lemma tuple_lt_strings (a b : json * json) :
  both_str a -> both_str b -> tuple_lt a b = Ok (key_ltb a b).
Proof.
  intros (l1 & f1 & ->) (l2 & f2 & ->).
  unfold tuple_lt, key_ltb, ltb, key_cmp, lex, then_cmp, proj.
  cbn [fst snd py_eq py_lt text_of].
  rewrite !string_eqb_compare, !string_ltb_lt.
  destruct (String.compare l1 l2); try reflexivity.
  destruct (String.compare f1 f2); reflexivity.
Qed.

Lemma contact_key_named (r : json) :
  named r -> contact_key r = Ok (fst (deco r)) /\ both_str (fst (deco r)).
Proof.
  intros [[last first] Hn]. unfold deco. rewrite Hn. cbn [fst].
  split; [|exists last, first; reflexivity].
  destruct r as [| | | | |m]; try discriminate. cbn in Hn.
  unfold contact_key, getitem.
  destruct (dict_get m "last_name") as [[| | |l| |]|]; try discriminate.
  destruct (dict_get m "first_name") as [[| | |f| |]|]; try discriminate.
  injection Hn as -> ->. reflexivity.
Qed.

Lemma decorate_named (l : list json) :
  Forall named l -> decorate contact_key l = Ok (map deco l).
Proof.
  induction 1 as [|r l Hr Hl IH]; cbn; [reflexivity|].
  destruct (contact_key_named r Hr) as [-> _]. cbn.
  rewrite IH. cbn. unfold deco at 2. reflexivity.
Qed.

Lemma deco_keys (l : list json) :
  Forall named l -> keys_in both_str (map deco l).
Proof.
  unfold keys_in. induction 1 as [|r l Hr Hl IH]; cbn; constructor; auto.
  apply contact_key_named, Hr.
Qed.

Lemma map_snd_deco (l : list json) : map snd (map deco l) = l.
Proof. induction l as [|r l IH]; cbn; congruence. Qed.

Lemma proj_deco (r : json) (k : str * str) :
  names r = Some k -> proj (fst (deco r)) = k.
Proof. intros H. unfold deco. rewrite H. destruct k. reflexivity. Qed.

Lemma filter_map_snd {X Y : Type} (P : Y -> bool) (l : list (X * Y)) :
  List.filter P (map snd l) = map snd (List.filter (fun x => P (snd x)) l).
Proof.
  induction l as [|x l IH]; cbn; [reflexivity|].
  destruct (P (snd x)); cbn; congruence.
Qed.

Lemma sorted_map {X Y : Type} (R : X -> X -> Prop) (R' : Y -> Y -> Prop)
    (f : X -> Y) (l : list X) :
  (forall x y, In x l -> In y l -> R x y -> R' (f x) (f y)) ->
  StronglySorted R l -> StronglySorted R' (map f l).
Proof.
  intros Hf Hs. induction Hs as [|x l Hs IH Hall]; cbn; constructor.
  - apply IH. intros a b Ha Hb. apply Hf; cbn; auto.
  - rewrite List.Forall_forall in *. intros y' Hy'.
    apply in_map_iff in Hy' as (y & <- & Hy).
    apply Hf; cbn; auto.
Qed.

Lemma has_names_key (k : str * str) (r : json) :
  has_names k r = true <-> names r = Some k.
Proof.
  unfold has_names. destruct (names r) as [[l f]|]; destruct k as [l' f'];
    cbn [fst snd]; [|split; discriminate].
  rewrite andb_true_iff, !String.eqb_eq. split.
  - intros [-> ->]. reflexivity.
  - intros [= -> ->]. auto.
Qed.

Section Properties.
Variable contacts : list json.
Hypothesis Hnamed : Forall named contacts.

Let s := isort_into key_ltb [] (map deco contacts).

Lemma sorted_is_sorted_records :
  sorted tuple_lt contact_key contacts = Ok (sorted_records contacts).
Proof.
  unfold sorted. rewrite (decorate_named _ Hnamed). cbn.
  rewrite (sort_into_isort tuple_lt both_str key_ltb tuple_lt_strings).
  - reflexivity.
  - constructor.
  - apply deco_keys, Hnamed.
Qed.

Lemma s_perm : Permutation (map deco contacts) s.
Proof. apply (isort_into_perm key_ltb [] (map deco contacts)). Qed.

Lemma s_elements (p : (json * json) * json) :
  In p s -> named (snd p) /\ p = deco (snd p).
Proof.
  intros Hp. apply (Permutation_in _ (Permutation_sym s_perm)) in Hp.
  apply in_map_iff in Hp as (r & <- & Hr). cbn. split; [|reflexivity].
  rewrite List.Forall_forall in Hnamed. auto.
Qed.

Lemma s_sorted : StronglySorted (le key_ltb) s.
Proof.
  apply isort_into_sorted.
  - exact key_ltb_irrefl.
  - exact key_ltb_trans.
  - exact key_ltb_negtrans.
  - constructor.
Qed.

Lemma records_perm : Permutation contacts (sorted_records contacts).
Proof.
  unfold sorted_records. fold s. rewrite <- s_perm, map_snd_deco.
  reflexivity.
Qed.

Lemma records_named : Forall named (sorted_records contacts).
Proof.
  apply (Permutation_Forall records_perm). exact Hnamed.
Qed.

Lemma records_sorted : StronglySorted names_le (sorted_records contacts).
Proof.
  unfold sorted_records. fold s.
  apply (sorted_map (le key_ltb)); [|exact s_sorted].
  intros p p' Hp Hp' Hle.
  destruct (s_elements p Hp) as [[a Ha] Ep].
  destruct (s_elements p' Hp') as [[b Hb] Ep'].
  exists a, b. split; [exact Ha|]. split; [exact Hb|].
  unfold le, key_ltb, ltb in Hle. rewrite Ep, Ep' in Hle.
  rewrite (proj_deco _ _ Ha), (proj_deco _ _ Hb) in Hle.
  intros Hgt. rewrite (cmp_gt_lt _ key_total a b Hgt) in Hle. discriminate.
Qed.

Lemma records_stable (k : str * str) :
  List.filter (has_names k) (sorted_records contacts)
  = List.filter (has_names k) contacts.
Proof.
  unfold sorted_records. fold s. rewrite filter_map_snd.
  unfold s. rewrite isort_into_filter.
  - cbn [List.filter app]. rewrite <- filter_map_snd, map_snd_deco.
    reflexivity.
  - exact key_ltb_irrefl.
  - exact key_ltb_trans.
  - exact key_ltb_negtrans.
  - constructor.
  - cbn [app]. intros p p' Hp Hp' Hk Hk'.
    apply in_map_iff in Hp as (r & <- & Hr).
    apply in_map_iff in Hp' as (r' & <- & Hr').
    change (snd (deco r)) with r in Hk.
    change (snd (deco r')) with r' in Hk'.
    apply has_names_key in Hk, Hk'.
    unfold key_ltb. rewrite (proj_deco _ _ Hk), (proj_deco _ _ Hk').
    apply (ltb_irrefl _ key_total).
Qed.

Lemma records_again :
  sorted tuple_lt contact_key (sorted_records contacts)
  = Ok (sorted_records contacts).
Proof.
  unfold sorted. rewrite (decorate_named _ records_named). cbn.
  assert (Hs : map deco (sorted_records contacts) = s).
  { unfold sorted_records. fold s.
    assert (H : forall p, In p s -> p = deco (snd p))
      by (intros p Hp; apply (s_elements p Hp)).
    induction s as [|p l IH]; cbn; [reflexivity|].
    rewrite <- (H p) by (cbn; auto). f_equal. apply IH.
    intros p' Hp'. apply H. cbn. auto. }
  rewrite Hs.
  rewrite (sort_into_isort tuple_lt both_str key_ltb tuple_lt_strings).
  - cbn. rewrite isort_into_sorted_id; [reflexivity|]. exact s_sorted.
  - constructor.
  - rewrite <- Hs. apply deco_keys, records_named.
Qed.

Lemma records_sorted_id :
  StronglySorted names_le contacts -> sorted_records contacts = contacts.
Proof.
  intros Hs. unfold sorted_records.
  rewrite isort_into_sorted_id; [apply map_snd_deco|].
  cbn [app]. apply (sorted_map names_le); [|exact Hs].
  intros r r' _ _ (a & b & Ha & Hb & Hle).
  unfold le, key_ltb, ltb.
  rewrite (proj_deco _ _ Ha), (proj_deco _ _ Hb).
  destruct (key_cmp b a) eqn:Hba; try reflexivity.
  apply (cmp_lt_gt _ key_total) in Hba. contradiction.
Qed.

End Properties.

Section WithEnv.
Context {FS : Type} `{!OS FS} `{!Env FS}.

(** C9, amended.  When /data/contacts.json holds a JSON array of records
    whose [last_name] and [first_name] are strings, the handler writes to
    /data/contacts-sorted.json the same records (as a multiset), in
    ascending order of (last name, first name), records of equal names
    in their input order; sorting the output again, or any list already in
    order, changes nothing. *)
Theorem contact_sorting_output (params : json) (w : world FS) (text : str)
    (contacts : list json) :
  open_read (fs w) "/data/contacts.json" = Ok text ->
  json_loads text = Ok (JList contacts) ->
  Forall named contacts ->
  exists out,
    Permutation contacts out
    /\ StronglySorted names_le out
    /\ (forall k,
          List.filter (has_names k) out = List.filter (has_names k) contacts)
    /\ sorted tuple_lt contact_key out = Ok out
    /\ (StronglySorted names_le contacts -> out = contacts)
    /\ _handle_contact_sorting params w
       = (match fst (open_write (fs w) "/data/contacts-sorted.json"
                       (json_dumps (JList out))) with
          | Ok _ => Ok success
          | Raise e =>
              Raise (PyExc "Exception"
                       ("Failed to sort contacts: " +:+ str_exn e))
          end,
          mkWorld
            (snd (open_write (fs w) "/data/contacts-sorted.json"
                    (json_dumps (JList out))))
            (llm_calls w) (stdout w)).
Proof.
  intros Hread Hloads Hnamed. exists (sorted_records contacts).
  split; [apply records_perm|].
  split; [apply records_sorted, Hnamed|].
  split; [intros k; apply records_stable; exact Hnamed|].
  split; [apply records_again, Hnamed|].
  split; [apply records_sorted_id|].
  unfold _handle_contact_sorting, reraise, try_except.
  change (data_dir "contacts.json") with "/data/contacts.json".
  change (data_dir "contacts-sorted.json") with "/data/contacts-sorted.json".
  unfold mbind at 1, M_bind, bind, read_file_text. rewrite Hread.
  unfold mbind at 1, M_bind, bind, lift. rewrite Hloads.
  unfold mbind at 1, M_bind, bind. cbn [iterate mbind result_bind].
  rewrite (sorted_is_sorted_records contacts Hnamed).
  unfold mbind at 1, M_bind, bind, write_file_text. cbn [fs llm_calls stdout].
  destruct (open_write (fs w) "/data/contacts-sorted.json"
              (json_dumps (JList (sorted_records contacts)))) as [[[]|e] fs'];
    reflexivity.
Qed.

End WithEnv.

Import SampleEnv.

(** C9 as stated fails: both records have the two fields, but one last
    name is [null] and the other a string; [sorted] raises [TypeError]
    and no output file is written. *)
Lemma contact_sorting_mixed_names :
  Forall has_both mixed_contacts
  /\ @_handle_contact_sorting _ _ (contacts_env mixed_contacts) (JObj [])
       (contacts_world mixed_contacts)
     = (Raise (PyExc "Exception"
                 "Failed to sort contacts: '<' not supported between instances of 'str' and 'NoneType'"),
        contacts_world mixed_contacts)
  /\ path_exists (fs (contacts_world mixed_contacts))
       "/data/contacts-sorted.json" = Ok false.
Proof.
  split.
  - repeat constructor; eexists _, _, _; repeat split; reflexivity.
  - split; vm_compute; reflexivity.
Qed.

Lemma contacts_named : Forall named contacts.
Proof. repeat constructor; eexists; reflexivity. Qed.

Lemma contact_sorting_output_witness :
  exists out,
    Permutation contacts out
    /\ StronglySorted names_le out
    /\ fst (@_handle_contact_sorting _ _ (contacts_env contacts) (JObj [])
              (contacts_world contacts)) = Ok success
    /\ read_text
         (fs (snd (@_handle_contact_sorting _ _ (contacts_env contacts)
                     (JObj []) (contacts_world contacts))))
         "/data/contacts-sorted.json" = Ok (dumps "" (JList out)).
Proof.
  destruct (@contact_sorting_output _ _ (contacts_env contacts) (JObj [])
              (contacts_world contacts) (dumps "" (JList contacts)) contacts)
    as (out & Hperm & Hsorted & _ & _ & _ & Hrun).
  - vm_compute. reflexivity.
  - vm_compute. reflexivity.
  - exact contacts_named.
  - exists out. split; [exact Hperm|]. split; [exact Hsorted|].
    rewrite Hrun. cbn [fst snd fs]. clear Hrun Hsorted.
    change (json_dumps (JList out)) with (dumps "" (JList out)).
    assert (Ht : NewlineSpec.no_cr (dumps "" (JList out)) = true).
    { apply NewlineFacts.dumps_list_no_cr.
      apply (Permutation_Forall Hperm).
      repeat (constructor; [vm_compute; reflexivity|]). constructor. }
    clear Hperm. revert Ht. generalize (dumps "" (JList out)). intros t Ht.
    split; [vm_compute; reflexivity|].
    apply NewlineFacts.posix_read_stat; [| |exact Ht];
      vm_compute; rewrite ?String.eqb_refl; reflexivity.
Defined.

(** The sample contacts in order: the two equal records keep their order,
    and "Smith, Al" comes before "Smith, Bob". *)
Example contacts_sorted :
  sorted tuple_lt contact_key contacts
  = Ok [ contact (JStr "Adams") (JStr "Zoe");
         contact (JStr "Adams") (JStr "Zoe");
         JObj [("first_name", JStr "Al"); ("last_name", JStr "Smith");
               ("email", JStr "al@example.com")];
         contact (JStr "Smith") (JStr "Bob") ].
Proof. vm_compute. reflexivity. Qed.

End ContactFacts.

(** ** The similar-comments handler *)

Module SimilarFacts.
Import PyStr Py Os World TaskHandler OsDir PhaseA.

Section WithEnv.
Context {FS : Type} `{!OS FS} `{!Env FS} `{!Embeddings FS}.

Lemma cosine_similarity_missing :
  getattr TaskHandler_methods "_cosine_similarity"
  = Raise (PyExc "AttributeError"
             "'TaskHandler' object has no attribute '_cosine_similarity'").
Proof. vm_compute. reflexivity. Qed.

(** With two comments or more, the first pair is compared, and the
    method that compares it does not exist. *)
Lemma compare_first_pair (c1 c2 : str) (rest : list str) (embeddings : value)
    (w : world FS) :
  for_each (index_pairs (length (c1 :: c2 :: rest)))
    (compare_pair TaskHandler_methods (c1 :: c2 :: rest) embeddings)
    (minus_one, None) w
  = (Raise (PyExc "AttributeError"
              "'TaskHandler' object has no attribute '_cosine_similarity'"),
     w).
Proof.
  unfold index_pairs. cbn [length seq flat_map Nat.sub map app for_each].
  unfold mbind at 1, M_bind, bind.
  unfold compare_pair. unfold mbind at 1, M_bind, bind, lift.
  rewrite cosine_similarity_missing. reflexivity.
Qed.

(** With the class as it is written, the handler never succeeds and
    never writes a result.  It raises "Failed to find similar comments:
    ..." in every world: with two comments or more because the method
    [_cosine_similarity] does not exist, with fewer because there is no
    pair to join.  The output file is left as it was, or created empty
    in the second case. *)
Theorem similar_comments_never_succeeds (params : json) (w : world FS) :
  exists (msg : str) (w' : world FS),
    _handle_similar_comments TaskHandler_methods params w
    = (Raise (PyExc "Exception" ("Failed to find similar comments: " +:+ msg)),
       w')
    /\ (fs w' = fs w
        \/ fs w' = snd (open_write (fs w) "/data/comments-similar.txt" ""))
    /\ (forall text,
          open_read (fs w) "/data/comments.txt" = Ok text ->
          (2 <= length (splitlines text))%nat ->
          fs w' = fs w).
Proof.
  unfold _handle_similar_comments, reraise, try_except.
  change (data_dir "comments.txt") with "/data/comments.txt".
  change (data_dir "comments-similar.txt") with "/data/comments-similar.txt".
  unfold mbind at 1, M_bind, bind, read_file_text.
  destruct (open_read (fs w) "/data/comments.txt") as [text|e] eqn:Hread.
  2: { eexists _, _. split; [reflexivity|]. split; [left; reflexivity|].
       intros text [=]. }
  unfold mbind at 1, M_bind, bind, get_embeddings.
  destruct (embeddings_gateway (splitlines text)) as [embeddings|e].
  2: { eexists _, _. split; [reflexivity|]. split; [left; reflexivity|].
       reflexivity. }
  unfold mbind at 1, M_bind, bind.
  destruct (splitlines text) as [|c1 [|c2 rest]] eqn:Hlines.
  - cbn [length index_pairs seq flat_map for_each mret M_ret ret].
    unfold mbind at 1, M_bind, bind. cbn [join_pair write_file_result].
    unfold mbind at 1, M_bind, bind, write_file_text. cbn [fs llm_calls stdout].
    destruct (open_write (fs w) "/data/comments-similar.txt" "")
      as [[[]|e] fs'] eqn:Hw;
      (eexists _, _; split; [reflexivity|]; split; [right; reflexivity|];
       intros text' [= <-] Hlen; rewrite Hlines in Hlen; cbn in Hlen; lia).
  - cbn [length index_pairs seq flat_map Nat.sub map app for_each mret M_ret
           ret].
    unfold mbind at 1, M_bind, bind. cbn [join_pair write_file_result].
    unfold mbind at 1, M_bind, bind, write_file_text. cbn [fs llm_calls stdout].
    destruct (open_write (fs w) "/data/comments-similar.txt" "")
      as [[[]|e] fs'] eqn:Hw;
      (eexists _, _; split; [reflexivity|]; split; [right; reflexivity|];
       intros text' [= <-] Hlen; rewrite Hlines in Hlen; cbn in Hlen; lia).
  - rewrite compare_first_pair.
    eexists _, _. split; [reflexivity|]. split; [left; reflexivity|].
    reflexivity.
Qed.

End WithEnv.

End SimilarFacts.

(** ** The recent-logs handler *)

Module LogFacts.
Import PyStr PyStrFacts Py Os World PySorted TaskHandler OsDir PhaseA.
Import StableSort SortedFacts LogSpec.

Lemma time_ltb_lt (a b : Q) : time_ltb a b = true <-> (a < b)%Q.
Proof.
  unfold time_ltb. rewrite Qlt_alt.
  destruct (a ?= b)%Q; split; congruence.
Qed.

Lemma time_ltb_le (a b : Q) : time_ltb a b = false <-> (b <= a)%Q.
Proof.
  split.
  - intros H. apply Qnot_lt_le. intros Hlt.
    apply time_ltb_lt in Hlt. congruence.
  - intros H. destruct (time_ltb a b) eqn:E; [|reflexivity].
    apply time_ltb_lt in E. exfalso. exact (Qle_not_lt _ _ H E).
Qed.

Lemma time_ltb_irrefl (a : Q) : time_ltb a a = false.
Proof. apply time_ltb_le, Qle_refl. Qed.

Lemma time_ltb_trans (a b c : Q) :
  time_ltb a b = true -> time_ltb b c = true -> time_ltb a c = true.
Proof. rewrite !time_ltb_lt. apply Qlt_trans. Qed.

Lemma time_ltb_negtrans (a b c : Q) :
  time_ltb a b = false -> time_ltb b c = false -> time_ltb a c = false.
Proof. rewrite !time_ltb_le. intros H1 H2. exact (Qle_trans _ _ _ H2 H1). Qed.

Lemma float_lt_ltb (a b : Q) :
  True -> True -> float_lt a b = Ok (time_ltb a b).
Proof. reflexivity. Qed.

(** *** Sorted lists, reversed and cut *)

Section Lists.
Context {X : Type}.
Variable R : X -> X -> Prop.

Lemma sorted_snoc (l : list X) (x : X) :
  StronglySorted R l -> Forall (fun y => R y x) l ->
  StronglySorted R (l ++ [x]).
Proof.
  induction 1 as [|y l Hs IH Hall]; intros Hx; cbn.
  - repeat constructor.
  - apply List.Forall_cons_iff in Hx as [Hy Hx].
    constructor; [apply IH, Hx|].
    apply List.Forall_app. split; [exact Hall|]. repeat constructor. exact Hy.
Qed.

Lemma sorted_rev (l : list X) :
  StronglySorted (fun a b => R b a) l -> StronglySorted R (rev l).
Proof.
  induction 1 as [|x l Hs IH Hall]; cbn; [constructor|].
  apply sorted_snoc; [exact IH|].
  rewrite List.Forall_forall in *. intros y Hy. apply Hall.
  apply in_rev. exact Hy.
Qed.

Lemma sorted_app (l1 l2 : list X) :
  StronglySorted R (l1 ++ l2) ->
  StronglySorted R l1
  /\ forall a b, In a l1 -> In b l2 -> R a b.
Proof.
  induction l1 as [|x l1 IH]; cbn; intros H.
  - split; [constructor|]. intros a b [].
  - apply StronglySorted_inv in H as [Hs Hall].
    destruct (IH Hs) as [H1 H2]. split.
    + constructor; [exact H1|].
      apply List.Forall_app in Hall. tauto.
    + intros a b [<-|Ha] Hb; [|apply H2; assumption].
      rewrite List.Forall_forall in Hall. apply Hall.
      apply in_or_app. auto.
Qed.

End Lists.

Lemma filter_rev {X : Type} (P : X -> bool) (l : list X) :
  List.filter P (rev l) = rev (List.filter P l).
Proof.
  induction l as [|x l IH]; cbn; [reflexivity|].
  rewrite List.filter_app, IH. cbn. destruct (P x); cbn.
  - reflexivity.
  - rewrite app_nil_r. reflexivity.
Qed.

(** *** The order of the files *)

Section Order.
Variable t : str -> Q.
Variable files : list str.

Let s := isort_into time_ltb [] (rev (map (timed t) files)).

Lemma timed_perm : Permutation (map (timed t) files) s.
Proof.
  unfold s. rewrite <- (isort_into_perm time_ltb [] _). cbn [app].
  apply Permutation_rev.
Qed.

Lemma map_snd_timed (l : list str) : map snd (map (timed t) l) = l.
Proof. induction l as [|f l IH]; cbn; congruence. Qed.

Lemma by_recency_perm : Permutation files (by_recency t files).
Proof.
  unfold by_recency. fold s. rewrite <- Permutation_rev, <- timed_perm.
  rewrite map_snd_timed. reflexivity.
Qed.

Lemma timed_elements (p : Q * str) : In p s -> p = timed t (snd p).
Proof.
  intros Hp. apply (Permutation_in _ (Permutation_sym timed_perm)) in Hp.
  apply in_map_iff in Hp as (f & <- & _). reflexivity.
Qed.

Lemma timed_sorted : StronglySorted (le time_ltb) s.
Proof.
  apply isort_into_sorted.
  - exact time_ltb_irrefl.
  - exact time_ltb_trans.
  - exact time_ltb_negtrans.
  - constructor.
Qed.

Lemma by_recency_sorted : StronglySorted (newer t) (by_recency t files).
Proof.
  unfold by_recency. fold s.
  apply (ContactFacts.sorted_map (fun a b => le time_ltb b a)).
  - intros p p' Hp Hp' Hle. unfold le in Hle.
    apply in_rev in Hp, Hp'.
    rewrite (timed_elements p Hp), (timed_elements p' Hp') in Hle. cbn in Hle.
    apply time_ltb_le in Hle. exact Hle.
  - exact (sorted_rev (fun a b => le time_ltb b a) s timed_sorted).
Qed.

Lemma by_recency_stable (q : Q) :
  List.filter (has_time t q) (by_recency t files)
  = List.filter (has_time t q) files.
Proof.
  unfold by_recency. fold s. rewrite ContactFacts.filter_map_snd.
  rewrite filter_rev. unfold s.
  rewrite isort_into_filter.
  - cbn [List.filter app]. rewrite filter_rev, rev_involutive.
    rewrite <- ContactFacts.filter_map_snd, map_snd_timed. reflexivity.
  - exact time_ltb_irrefl.
  - exact time_ltb_trans.
  - exact time_ltb_negtrans.
  - constructor.
  - cbn [app]. intros p p' Hp Hp' Hq Hq'.
    apply in_rev in Hp, Hp'.
    apply in_map_iff in Hp as (f & <- & _).
    apply in_map_iff in Hp' as (f' & <- & _).
    cbn in *. unfold has_time in Hq, Hq'.
    apply Qeq_bool_iff in Hq, Hq'.
    apply time_ltb_le. rewrite Hq, Hq'. apply Qle_refl.
Qed.

End Order.

Section WithEnv.
Context {FS : Type} `{!OS FS} `{!Env FS} `{!DirOS FS}.

Lemma decorate_timed (fs : FS) (t : str -> Q) (files : list str) :
  (forall f, In f files -> st_mtime fs ("/data/logs/" +:+ f) = Ok (t f)) ->
  decorate (fun x => st_mtime fs ("/data/logs" +:+ "/" +:+ x)) files
  = Ok (map (timed t) files).
Proof.
  induction files as [|f files IH]; intros H; cbn [decorate map].
  - reflexivity.
  - change ("/data/logs" +:+ "/" +:+ f) with ("/data/logs/" +:+ f).
    rewrite (H f) by (cbn; auto). cbn [mbind result_bind].
    rewrite IH by (intros f' Hf'; apply H; cbn; auto). reflexivity.
Qed.

Lemma sorted_reverse_by_recency (fs : FS) (t : str -> Q) (files : list str) :
  (forall f, In f files -> st_mtime fs ("/data/logs/" +:+ f) = Ok (t f)) ->
  sorted_reverse float_lt
    (fun x => st_mtime fs ("/data/logs" +:+ "/" +:+ x)) files
  = Ok (by_recency t files).
Proof.
  intros H. unfold sorted_reverse. rewrite (decorate_timed fs t files H).
  cbn [mbind result_bind].
  rewrite (sort_into_isort float_lt (fun _ => True) time_ltb float_lt_ltb).
  - reflexivity.
  - constructor.
  - apply List.Forall_forall. intros x _. exact I.
Qed.

Lemma first_lines_run (line : str -> str) (l : list str) (acc : list str)
    (w : world FS) :
  (forall f, In f l -> open_readline (fs w) ("/data/logs/" +:+ f)
                       = Ok (line f)) ->
  for_each l (read_first_line "/data/logs") acc w
  = (Ok (acc ++ map (fun f => strip (line f)) l)%list, w).
Proof.
  revert acc. induction l as [|f l IH]; intros acc H; cbn [for_each map].
  - rewrite app_nil_r. reflexivity.
  - unfold mbind at 1, M_bind, bind. unfold read_first_line at 1.
    change ("/data/logs" +:+ "/" +:+ f) with ("/data/logs/" +:+ f).
    rewrite (H f) by (cbn; auto). cbn [mbind result_bind].
    rewrite IH by (intros f' Hf'; apply H; cbn; auto).
    rewrite <- app_assoc. reflexivity.
Qed.

(** When the files that match "*.log" in /data/logs have the time stamps
    [t] and the first lines [line], the handler writes to
    /data/logs-recent.txt the trimmed first lines of at most ten of
    them, one per line: no file left out is more recent than a file
    listed, the listed files go from the most recent to the oldest, and
    files of equal time stamp keep the order of the directory listing.
    It succeeds when that write does. *)
Theorem recent_logs_output (params : json) (w : world FS) (files : list str)
    (t : str -> Q) (line : str -> str) :
  glob (fs w) "/data/logs" "*.log" = (files, None) ->
  (forall f, In f files -> st_mtime (fs w) ("/data/logs/" +:+ f) = Ok (t f)) ->
  (forall f, In f files ->
     open_readline (fs w) ("/data/logs/" +:+ f) = Ok (line f)) ->
  exists chosen rest : list str,
    Permutation files (chosen ++ rest)
    /\ length chosen = Nat.min 10 (length files)
    /\ StronglySorted (newer t) (chosen ++ rest)
    /\ (forall q, List.filter (has_time t q) (chosen ++ rest)
                  = List.filter (has_time t q) files)
    /\ _handle_recent_logs params w
       = (match fst (open_write (fs w) "/data/logs-recent.txt"
                       (join nl (map (fun f => strip (line f)) chosen))) with
          | Ok _ => Ok success
          | Raise e =>
              Raise (PyExc "Exception"
                       ("Failed to process log files: " +:+ str_exn e))
          end,
          mkWorld
            (snd (open_write (fs w) "/data/logs-recent.txt"
                    (join nl (map (fun f => strip (line f)) chosen))))
            (llm_calls w) (stdout w)).
Proof.
  intros Hglob Htime Hline.
  exists (firstn 10 (by_recency t files)), (skipn 10 (by_recency t files)).
  split; [rewrite firstn_skipn; apply by_recency_perm|].
  split.
  { rewrite length_firstn.
    rewrite <- (Permutation_length (by_recency_perm t files)). reflexivity. }
  split; [rewrite firstn_skipn; apply by_recency_sorted|].
  split; [intros q; rewrite firstn_skipn; apply by_recency_stable|].
  unfold _handle_recent_logs, reraise, try_except.
  change (data_dir "logs-recent.txt") with "/data/logs-recent.txt".
  change (data_dir "logs") with "/data/logs".
  unfold mbind at 1, M_bind, bind.
  rewrite Hglob. unfold list_of_yielded. cbn [fst snd mbind result_bind].
  rewrite (sorted_reverse_by_recency (fs w) t files Htime).
  cbn [mbind result_bind].
  unfold mbind at 1, M_bind, bind.
  rewrite (first_lines_run line).
  2: { intros f Hf. apply Hline.
       apply (Permutation_in _ (Permutation_sym (by_recency_perm t files))).
       rewrite <- (firstn_skipn 10 (by_recency t files)).
       apply in_or_app. left. exact Hf. }
  cbn [app].
  unfold mbind at 1, M_bind, bind, write_file_text. cbn [fs llm_calls stdout].
  destruct (open_write (fs w) "/data/logs-recent.txt" _) as [[[]|e] fs'];
    reflexivity.
Qed.

End WithEnv.

Import SampleEnv SampleDir.

(** The three sample logs: the most recent first, each first line
    trimmed. *)
Example recent_logs_sample :
  read_text
    (fs (snd (@_handle_recent_logs _ _ _ (JObj []) world0)))
    "/data/logs-recent.txt"
  = Ok ("connected" +:+ nl +:+ "listening" +:+ nl +:+ "started").
Proof. vm_compute. reflexivity. Qed.

Lemma recent_logs_output_witness :
  exists chosen rest : list str,
    Permutation ["app.log"; "db.log"; "web.log"] (chosen ++ rest)
    /\ length chosen = 3%nat
    /\ StronglySorted (newer log_time) (chosen ++ rest)
    /\ fst (@_handle_recent_logs _ _ _ (JObj []) world0)
       = Ok success
    /\ read_text
         (fs (snd (@_handle_recent_logs _ _ _ (JObj [])
                     world0)))
         "/data/logs-recent.txt"
       = Ok (join nl (map (fun f => strip (log_line f)) chosen)).
Proof.
  destruct (@recent_logs_output _ _ _ (JObj []) world0
              ["app.log"; "db.log"; "web.log"] log_time log_line)
    as (chosen & rest & Hperm & Hlen & Hsorted & _ & Hrun).
  - reflexivity.
  - intros f [<-|[<-|[<-|[]]]]; reflexivity.
  - intros f [<-|[<-|[<-|[]]]]; reflexivity.
  - exists chosen, rest. split; [exact Hperm|]. split; [exact Hlen|].
    split; [exact Hsorted|].
    rewrite Hrun. cbn [fst snd fs].
    assert (Ht : NewlineSpec.no_cr
                   (join nl (map (fun f => strip (log_line f)) chosen))
                 = true).
    { apply NewlineFacts.join_no_cr. apply List.Forall_map.
      assert (Hall : Forall
                       (fun f => NewlineSpec.no_cr (strip (log_line f)) = true)
                       (chosen ++ rest)).
      { apply (Permutation_Forall Hperm).
        repeat (constructor; [vm_compute; reflexivity|]). constructor. }
      apply List.Forall_app in Hall. tauto. }
    clear - Ht. revert Ht.
    generalize (join nl (map (fun f => strip (log_line f)) chosen)).
    intros t Ht. split; [vm_compute; reflexivity|].
    apply NewlineFacts.posix_read_stat; [| |exact Ht];
      vm_compute; rewrite ?String.eqb_refl; reflexivity.
Defined.

End LogFacts.

(** ** The Markdown-index handler *)

Module IndexFacts.
Import PyStr StrSpec PyStrFacts Py Os World TaskHandler OsDir PhaseA IndexSpec.

Lemma startswith_heading (line : str) :
  startswith line "# " = true <-> is_heading line.
Proof. unfold startswith, is_heading. apply prefix_app. Qed.

Lemma slice_heading (rest : str) : slice_from 2 ("# " +:+ rest) = rest.
Proof. reflexivity. Qed.

(** The title the handler takes from a text is the rest, trimmed, of
    its first line that starts with "# "; a text has no title exactly
    when none of its lines starts with "# ". *)
Theorem first_heading_spec (lines : list str) :
  (forall title, first_heading lines = Some title <-> heading_of lines title)
  /\ (first_heading lines = None <-> Forall (fun l => ~ is_heading l) lines).
Proof.
  induction lines as [|line lines [IHs IHn]]; cbn [first_heading].
  - split.
    + intros title. split; [discriminate|].
      intros (before & rest & after & H & _). destruct before; discriminate.
    + split; [constructor | reflexivity].
  - destruct (startswith line "# ") eqn:Hs.
    + apply startswith_heading in Hs as Hh. destruct Hh as [rest ->].
      split.
      * intros title. rewrite slice_heading. split.
        -- intros [= <-]. exists [], rest, lines.
           split; [reflexivity|]. split; [constructor|apply strip_trimmed].
        -- intros (before & rest' & after & H & Hb & Ht).
           destruct before as [|b before].
           ++ cbn in H. injection H as H _. change (rest = rest') in H.
              subst rest'. rewrite (trimmed_strip _ _ Ht). reflexivity.
           ++ cbn in H. injection H as <- _.
              apply List.Forall_cons_iff in Hb as [Hb _].
              exfalso. apply Hb. exists rest. reflexivity.
      * split; [discriminate|]. intros H.
        apply List.Forall_cons_iff in H as [H _].
        exfalso. apply H. exists rest. reflexivity.
    + assert (Hno : ~ is_heading line).
      { intros Hh. apply startswith_heading in Hh. congruence. }
      split.
      * intros title. rewrite IHs. split.
        -- intros (before & rest & after & -> & Hb & Ht).
           exists (line :: before), rest, after.
           split; [reflexivity|]. split; [constructor; assumption|exact Ht].
        -- intros (before & rest & after & H & Hb & Ht).
           destruct before as [|b before].
           ++ cbn in H. injection H as -> _. exfalso. apply Hno.
              exists rest. reflexivity.
           ++ cbn in H. injection H as <- ->.
              apply List.Forall_cons_iff in Hb as [_ Hb].
              exists before, rest, after. auto.
      * rewrite IHn. split.
        -- intros H. constructor; assumption.
        -- intros H. apply List.Forall_cons_iff in H. tauto.
Qed.

Lemma dict_set_fresh {V : Type} (m : list (str * V)) (k : str) (v : V) :
  ~ In k (map fst m) -> dict_set m k v = (m ++ [(k, v)])%list.
Proof.
  induction m as [|[k' v'] m IH]; cbn; intros Hk; [reflexivity|].
  destruct (String.eqb_spec k k') as [->|_]; [tauto|].
  rewrite IH by tauto. reflexivity.
Qed.

Lemma entries_keys (content : str -> str) (files : list str) (k : str) :
  In k (map fst (entries content files)) -> In k files.
Proof.
  unfold entries. induction files as [|f files IH]; cbn; [tauto|].
  rewrite map_app, in_app_iff. intros [H|H]; [|auto].
  destruct (first_heading (lines_of (content f))); cbn in H; tauto.
Qed.

Lemma entries_cons (content : str -> str) (f : str) (files : list str) :
  entries content (f :: files)
  = (match first_heading (lines_of (content f)) with
     | Some title => [(f, JStr title)]
     | None => []
     end ++ entries content files)%list.
Proof. reflexivity. Qed.

Lemma dict_get_absent (m : list (str * json)) (k : str) :
  ~ In k (map fst m) -> dict_get m k = None.
Proof.
  induction m as [|[k' v'] m IH]; cbn; intros Hk; [reflexivity|].
  destruct (String.eqb_spec k k') as [->|_]; [tauto|]. apply IH. tauto.
Qed.

Lemma entries_lookup (content : str -> str) (files : list str) (f : str) :
  List.NoDup files -> In f files ->
  dict_get (entries content files) f
  = option_map JStr (first_heading (lines_of (content f))).
Proof.
  induction 1 as [|f' files Hf' Hnd IH]; intros Hin; [destruct Hin|].
  rewrite entries_cons.
  destruct (String.eqb_spec f f') as [->|Hne].
  - destruct (first_heading (lines_of (content f'))) as [title|]; cbn.
    + rewrite String.eqb_refl. reflexivity.
    + apply dict_get_absent. intros Hk. apply Hf'.
      exact (entries_keys _ _ _ Hk).
  - destruct Hin as [->|Hin]; [congruence|].
    destruct (first_heading (lines_of (content f'))) as [title|]; cbn.
    + destruct (String.eqb_spec f f') as [->|_]; [congruence|]. exact (IH Hin).
    + exact (IH Hin).
Qed.

Section WithEnv.
Context {FS : Type} `{!OS FS} `{!Env FS} `{!DirOS FS}.

Lemma index_loop (content : str -> str) (files : list str)
    (acc : list (str * json)) (w : world FS) :
  List.NoDup files ->
  (forall f, In f files -> ~ In f (map fst acc)) ->
  (forall f, In f files ->
     open_read (fs w) ("/data/docs/" +:+ f) = Ok (content f)) ->
  for_each files (index_file "/data/docs") acc w
  = (Ok (acc ++ entries content files)%list, w).
Proof.
  intros Hnd. revert acc.
  induction Hnd as [|f files Hf Hnd IH]; intros acc Hacc Hread;
    cbn [for_each].
  - cbn. rewrite app_nil_r. reflexivity.
  - unfold mbind at 1, M_bind, bind. unfold index_file at 1.
    unfold mbind at 1, M_bind, bind, read_file_text.
    change ("/data/docs" +:+ "/" +:+ f) with ("/data/docs/" +:+ f).
    rewrite (Hread f) by (cbn; auto).
    rewrite entries_cons. fold (lines_of (content f)).
    destruct (first_heading (lines_of (content f))) as [title|];
      cbn [mret M_ret ret].
    + rewrite dict_set_fresh by (apply Hacc; cbn; auto).
      rewrite IH.
      * rewrite <- app_assoc. reflexivity.
      * intros f' Hf'. rewrite map_app, in_app_iff. cbn.
        intros [H|[H|[]]]; [apply (Hacc f'); cbn; auto|].
        apply Hf. rewrite H. exact Hf'.
      * intros f' Hf'. apply Hread. cbn. auto.
    + rewrite IH.
      * reflexivity.
      * intros f' Hf'. apply Hacc. cbn. auto.
      * intros f' Hf'. apply Hread. cbn. auto.
Qed.

(** When the Markdown files under /data/docs are [files] (paths relative
    to that directory) and their texts are [content], the handler writes
    to /data/docs/index.json the JSON object that maps the path of each
    file that has a level-1 heading to its title, in the order of the
    listing; a file without such a heading has no entry.  It succeeds
    when that write does. *)
Theorem markdown_index_output (params : json) (w : world FS)
    (files : list str) (content : str -> str) :
  glob (fs w) "/data/docs" "**/*.md" = (files, None) ->
  List.NoDup files ->
  (forall f, In f files ->
     open_read (fs w) ("/data/docs/" +:+ f) = Ok (content f)) ->
  (forall f, In f files ->
     dict_get (entries content files) f
     = option_map JStr (first_heading (lines_of (content f))))
  /\ (forall f, ~ In f files -> dict_get (entries content files) f = None)
  /\ _handle_markdown_index params w
     = (match fst (open_write (fs w) "/data/docs/index.json"
                     (json_dumps (JObj (entries content files)))) with
        | Ok _ => Ok success
        | Raise e =>
            Raise (PyExc "Exception"
                     ("Failed to create markdown index: " +:+ str_exn e))
        end,
        mkWorld
          (snd (open_write (fs w) "/data/docs/index.json"
                  (json_dumps (JObj (entries content files)))))
          (llm_calls w) (stdout w)).
Proof.
  intros Hglob Hnd Hread.
  split; [intros f Hf; apply entries_lookup; assumption|].
  split.
  { intros f Hf. apply dict_get_absent. intros Hk. apply Hf.
    exact (entries_keys _ _ _ Hk). }
  unfold _handle_markdown_index, reraise, try_except.
  change (data_dir "docs/index.json") with "/data/docs/index.json".
  change (data_dir "docs") with "/data/docs".
  unfold mbind at 1, M_bind, bind.
  rewrite Hglob. unfold for_each_yielded. cbn [fst snd].
  unfold mbind at 1, M_bind, bind.
  rewrite (index_loop content files [] w Hnd); [|intros f _ []|exact Hread].
  cbn [app mret M_ret ret].
  unfold mbind at 1, M_bind, bind, write_file_text. cbn [fs llm_calls stdout].
  destruct (open_write (fs w) "/data/docs/index.json" _) as [[[]|e] fs'];
    reflexivity.
Qed.

End WithEnv.

Import SampleEnv SampleDir.

(** The sample files: "c.md" has no level-1 heading and no entry. *)
Example markdown_index_sample :
  entries md_text ["a.md"; "sub/b.md"; "c.md"]
  = [("a.md", JStr "Alpha"); ("sub/b.md", JStr "Beta")].
Proof. vm_compute. reflexivity. Qed.

Lemma markdown_index_output_witness :
  dict_get (entries md_text ["a.md"; "sub/b.md"; "c.md"]) "sub/b.md"
  = Some (JStr "Beta")
  /\ dict_get (entries md_text ["a.md"; "sub/b.md"; "c.md"]) "c.md" = None
  /\ fst (@_handle_markdown_index _ _ (env _ (Ok "") []) _ (JObj [])
            docs_world) = Ok success
  /\ read_text
       (fs (snd (@_handle_markdown_index _ _ (env _ (Ok "") []) _ (JObj [])
                   docs_world)))
       "/data/docs/index.json"
     = Ok (dumps "" (JObj [("a.md", JStr "Alpha"); ("sub/b.md", JStr "Beta")])).
Proof.
  destruct (@markdown_index_output _ _ (env _ (Ok "") []) _ (JObj [])
              docs_world ["a.md"; "sub/b.md"; "c.md"] md_text)
    as (Hl & _ & Hrun).
  - reflexivity.
  - repeat (constructor;
            [cbn; intros H;
             repeat (destruct H as [H|H]; [discriminate H|]); exact H|]).
    constructor.
  - intros f [<-|[<-|[<-|[]]]]; vm_compute; reflexivity.
  - split; [rewrite Hl by (cbn; tauto); vm_compute; reflexivity|].
    split; [vm_compute; reflexivity|].
    rewrite Hrun. split; vm_compute; reflexivity.
Defined.

End IndexFacts.

(** ** The e-mail handler *)

Module EmailFacts.
Import PyStr StrSpec PyStrFacts Py Os World TaskHandler PhaseA ClientSpec.

Section WithEnv.
Context {FS : Type} `{!OS FS} `{!LLMClient.Http}.
Variable token : str.

(** The handler sends one prompt, which carries the text of
    /data/email.txt as it is.  When the client raises, the handler
    raises "Failed to extract email: ..." and writes nothing.  When the
    client returns a string, the handler writes it, trimmed, to
    /data/email-sender.txt and succeeds when that write does.  When
    the client returns a value that is not a string, the output file has
    been opened, and so created or emptied, before [strip] raises
    [AttributeError]: the handler raises and leaves the file empty. *)
Theorem email_extraction_output (params : json) (w : world FS)
    (content : str) :
  open_read (fs w) "/data/email.txt" = Ok content ->
  occurs content (email_prompt content)
  /\ (forall e,
        LLMClient.get_completion token (email_prompt content) = Raise e ->
        _handle_email_extraction token params w
        = (Raise (PyExc "Exception"
                    ("Failed to extract email: " +:+ str_exn e)),
           asked w (email_prompt content)))
  /\ (forall answer,
        LLMClient.get_completion token (email_prompt content)
        = Ok (JStr answer) ->
        exists address,
          trimmed answer address
          /\ _handle_email_extraction token params w
             = (match fst (open_write (fs w) "/data/email-sender.txt"
                             address) with
                | Ok _ => Ok success
                | Raise e =>
                    Raise (PyExc "Exception"
                             ("Failed to extract email: " +:+ str_exn e))
                end,
                mkWorld
                  (snd (open_write (fs w) "/data/email-sender.txt" address))
                  (llm_calls w ++ [email_prompt content]) (stdout w)))
  /\ (forall v,
        LLMClient.get_completion token (email_prompt content) = Ok v ->
        (forall s, v <> JStr s) ->
        _handle_email_extraction token params w
        = (Raise
             (PyExc "Exception"
                ("Failed to extract email: "
                 +:+ match fst (open_write (fs w) "/data/email-sender.txt" "")
                     with
                     | Ok _ =>
                         "'" +:+ PyCompare.type_name v
                         +:+ "' object has no attribute 'strip'"
                     | Raise e => str_exn e
                     end)),
           mkWorld (snd (open_write (fs w) "/data/email-sender.txt" ""))
             (llm_calls w ++ [email_prompt content]) (stdout w))).
Proof.
  intros Hread. split; [|split; [|split]].
  - exists (nl +:+ "            Extract the sender's email address from this email:"
            +:+ nl +:+ "            "),
           (nl +:+ "            Return only the email address, nothing else."
            +:+ nl +:+ "            ").
    reflexivity.
  - intros e He.
    unfold _handle_email_extraction, reraise, try_except.
    change (data_dir "email.txt") with "/data/email.txt".
    unfold mbind at 1, M_bind, bind, read_file_text. rewrite Hread.
    unfold mbind at 1, M_bind, bind, await_completion. rewrite He.
    reflexivity.
  - intros answer Ha. exists (strip answer). split; [apply strip_trimmed|].
    unfold _handle_email_extraction, reraise, try_except.
    change (data_dir "email.txt") with "/data/email.txt".
    change (data_dir "email-sender.txt") with "/data/email-sender.txt".
    unfold mbind at 1, M_bind, bind, read_file_text. rewrite Hread.
    unfold mbind at 1, M_bind, bind, await_completion. rewrite Ha.
    cbn [value_strip write_file_result].
    unfold mbind at 1, M_bind, bind, write_file_text. cbn [fs llm_calls stdout].
    destruct (open_write (fs w) "/data/email-sender.txt" (strip answer))
      as [[[]|e] fs']; reflexivity.
  - intros v Hv Hns.
    assert (Hs : value_strip v
                 = Raise (PyExc "AttributeError"
                            ("'" +:+ PyCompare.type_name v
                             +:+ "' object has no attribute 'strip'"))).
    { destruct v as [| | |s| |]; try reflexivity.
      exfalso. exact (Hns s eq_refl). }
    unfold _handle_email_extraction, reraise, try_except.
    change (data_dir "email.txt") with "/data/email.txt".
    change (data_dir "email-sender.txt") with "/data/email-sender.txt".
    unfold mbind at 1, M_bind, bind, read_file_text. rewrite Hread.
    unfold mbind at 1, M_bind, bind, await_completion. rewrite Hv, Hs.
    cbn [write_file_result].
    unfold mbind at 1, M_bind, bind.
    unfold mbind at 1, M_bind, bind, write_file_text. cbn [fs llm_calls stdout].
    destruct (open_write (fs w) "/data/email-sender.txt" "")
      as [[[]|e] fs']; reflexivity.
Qed.

End WithEnv.

End EmailFacts.

(** ** The client of the LLM service *)

Module ClientFacts.
Import PyStr StrSpec PyStrFacts Py Os World TaskHandler Main LLMClient.
Import Validators ValidatorsFacts DispatchSpec HandlerFacts RunSpec RunFacts.
Import ClientSpec.

Lemma getitem_ok (v : json) (k : str) (x : json) :
  getitem v k = Ok x <-> exists m, v = JObj m /\ dict_get m k = Some x.
Proof.
  split.
  - destruct v as [| | | | |m]; try discriminate. cbn.
    destruct (dict_get m k) as [y|] eqn:Hk; [|discriminate].
    intros [= ->]. eauto.
  - intros (m & -> & Hk). cbn. rewrite Hk. reflexivity.
Qed.

Lemma getitem_first (v x : json) :
  getitem_int v 0 = Ok x
  <-> (exists l, v = JList (x :: l))
      \/ (exists c s, v = JStr (String c s) /\ x = JStr (String c EmptyString)).
Proof.
  split.
  - destruct v as [| | |s|l|m]; try discriminate.
    + destruct s as [|c s]; [discriminate|].
      unfold getitem_int, len. cbn [String.length].
      replace (0 <? Z.of_nat (S (String.length s))) with true
        by (symmetry; apply Z.ltb_lt; lia).
      cbn. intros [= <-]. right. eauto.
    + destruct l as [|y l]; [discriminate|].
      unfold getitem_int. cbn [length].
      replace (0 <? Z.of_nat (S (length l))) with true
        by (symmetry; apply Z.ltb_lt; lia).
      cbn. intros [= <-]. left. eauto.
  - intros [(l & ->) | (c & s & -> & ->)].
    + unfold getitem_int. cbn [length].
      replace (0 <? Z.of_nat (S (length l))) with true
        by (symmetry; apply Z.ltb_lt; lia).
      reflexivity.
    + unfold getitem_int, len. cbn [String.length].
      replace (0 <? Z.of_nat (S (String.length s))) with true
        by (symmetry; apply Z.ltb_lt; lia).
      reflexivity.
Qed.

Section WithHttp.
Context `{!Http}.

(** [get_completion] returns [content] exactly when the service answers
    with status 200 and a JSON object whose [choices] is a list that
    begins with an object whose [message] is an object with the field
    [content].  With any other status it raises "LLM request failed: "
    followed by the text of the response, whatever that text is; an
    exception of the transport is passed on. *)
Theorem get_completion_outcome (token prompt : str) :
  (forall content,
     get_completion token prompt = Ok content
     <-> exists r body first choices message,
           post (completion_request token prompt) = Ok r
           /\ r_status_code r = 200
           /\ r_json r = Ok (JObj body)
           /\ dict_get body "choices" = Some (JList (JObj first :: choices))
           /\ dict_get first "message" = Some (JObj message)
           /\ dict_get message "content" = Some content)
  /\ (forall r,
        post (completion_request token prompt) = Ok r ->
        r_status_code r <> 200 ->
        get_completion token prompt
        = Raise (PyExc "Exception" ("LLM request failed: " +:+ r_text r)))
  /\ (forall e,
        post (completion_request token prompt) = Raise e ->
        get_completion token prompt = Raise e).
Proof.
  unfold get_completion. split; [|split].
  - intros content. split.
    + destruct (post (completion_request token prompt)) as [r|e];
        [|discriminate].
      cbn [mbind result_bind].
      destruct (r_status_code r =? 200) eqn:Hs; [|discriminate].
      apply Z.eqb_eq in Hs. cbn [negb].
      destruct (r_json r) as [v|e] eqn:Hj; [|discriminate].
      cbn [mbind result_bind].
      destruct (getitem v "choices") as [a|e] eqn:Ha; [|discriminate].
      cbn [mbind result_bind].
      destruct (getitem_int a 0) as [b|e] eqn:Hb; [|discriminate].
      cbn [mbind result_bind].
      destruct (getitem b "message") as [c|e] eqn:Hc; [|discriminate].
      cbn [mbind result_bind]. intros Hd.
      apply getitem_ok in Ha as (body & -> & Ha).
      apply getitem_ok in Hc as (first & -> & Hc).
      apply getitem_ok in Hd as (message & -> & Hd).
      apply getitem_first in Hb as [(l & ->) | (ch & s & _ & [=])].
      exists r, body, first, l, message. repeat split; assumption.
    + intros (r & body & first & choices & message
              & -> & Hs & Hj & Ha & Hc & Hd).
      cbn [mbind result_bind]. rewrite Hs, Z.eqb_refl, Hj.
      cbn [negb mbind result_bind].
      assert (H1 : getitem (JObj body) "choices"
                   = Ok (JList (JObj first :: choices)))
        by (apply getitem_ok; eauto).
      assert (H2 : getitem_int (JList (JObj first :: choices)) 0
                   = Ok (JObj first))
        by (apply getitem_first; left; eauto).
      assert (H3 : getitem (JObj first) "message" = Ok (JObj message))
        by (apply getitem_ok; eauto).
      assert (H4 : getitem (JObj message) "content" = Ok content)
        by (apply getitem_ok; eauto).
      rewrite H1. cbn [mbind result_bind]. rewrite H2.
      cbn [mbind result_bind]. rewrite H3. cbn [mbind result_bind].
      exact H4.
  - intros r -> Hs. cbn [mbind result_bind].
    apply Z.eqb_neq in Hs. rewrite Hs. reflexivity.
  - intros e ->. reflexivity.
Qed.

End WithHttp.

(** *** A failure of the service, seen from [POST /run] *)

Lemma contains_skip (sub : str) (c : ascii) (s : str) :
  String.prefix sub (String c s) = false ->
  contains sub (String c s) = contains sub s.
Proof. intros H. cbn [contains]. rewrite H. reflexivity. Qed.

Lemma marked_request_failed (t : str) :
  marked (PyExc "Exception" ("LLM request failed: " +:+ t))
  = contains "Invalid" t || contains "Failed to parse" t.
Proof.
  unfold marked. cbn [str_exn].
  change ("LLM request failed: " +:+ t)
    with (String "L" (String "L" (String "M" (String " " (String "r"
         (String "e" (String "q" (String "u" (String "e" (String "s"
         (String "t" (String " " (String "f" (String "a" (String "i"
         (String "l" (String "e" (String "d" (String ":" (String " " t)
         ))))))))))))))))))).
  rewrite !contains_skip by reflexivity. reflexivity.
Qed.

Section WithEnv.
Context {FS : Type} `{!OS FS} `{!Env FS} `{!Http}.
Variable methods : list str.

(** When the service answers the classification request of a task that
    passes validation with a status other than 200, [POST /run] answers
    400 if the text of that answer contains "Invalid" or "Failed to
    parse", and 500 otherwise; the detail carries that text.  No handler
    runs: the file system is as before. *)
Theorem upstream_error_status (token task : str) (w : world FS)
    (r : response) :
  served_by token ->
  is_valid_task task = true ->
  post (completion_request token (classify_prompt task)) = Ok r ->
  r_status_code r <> 200 ->
  fst (run_task methods task w)
  = Raise (if contains "Invalid" (r_text r)
              || contains "Failed to parse" (r_text r)
           then HTTPException 400 ("LLM request failed: " +:+ r_text r)
           else HTTPException 500
                  ("Internal server error: LLM request failed: "
                   +:+ r_text r))
  /\ fs (snd (run_task methods task w)) = fs w.
Proof.
  intros Hserved Hv Hpost Hs.
  assert (Hg : gateway (classify_prompt task)
               = Raise (PyExc "Exception"
                          ("LLM request failed: " +:+ r_text r))).
  { specialize (Hserved (classify_prompt task)).
    unfold get_completion in Hserved. rewrite Hpost in Hserved.
    cbn [mbind result_bind] in Hserved.
    apply Z.eqb_neq in Hs. rewrite Hs in Hserved. exact Hserved. }
  assert (Hh : handle_task methods task w
               = (Raise (PyExc "Exception"
                           ("LLM request failed: " +:+ r_text r)),
                  after_call w task)).
  { rewrite handle_task_run, classify_run, Hg. reflexivity. }
  rewrite (run_task_failure methods task w _ _ Hv Hh eq_refl).
  rewrite marked_request_failed. cbn [fst snd].
  split; [|reflexivity].
  destruct (contains "Invalid" (r_text r)
            || contains "Failed to parse" (r_text r)); reflexivity.
Qed.

End WithEnv.

End ClientFacts.

(** ** Inputs on which the handlers of A3 and A4 fail, and texts the
    validator keeps rejecting *)

Module FailureFacts.
Import PyStr StrSpec PyStrFacts Py Os World PyCompare PySorted Datetime.
Import TaskHandler Validators ValidatorSpec ValidatorsFacts ContactSpec.

Section WithEnv.
Context {FS : Type} `{!OS FS} `{!Env FS}.

Lemma count_wednesdays_raise (lines : list str) (line : str) (e : exn) :
  In line lines ->
  strptime repr_str (strip line) = Raise e ->
  exists e', count_wednesdays lines = Raise e'.
Proof.
  induction lines as [|l lines IH]; intros Hin He; [destruct Hin|].
  cbn [count_wednesdays].
  destruct (strptime repr_str (strip l)) as [[[y m] d]|e0] eqn:Hl;
    cbn [mbind result_bind]; [|eauto].
  destruct Hin as [->|Hin]; [congruence|].
  destruct (IH Hin He) as [e' ->]. cbn [mbind result_bind]. eauto.
Qed.

Lemma strptime_blank (line : str) :
  all_space line = true ->
  strptime repr_str (strip line)
  = Raise (PyExc "ValueError"
             ("time data " +:+ repr_str ""
              +:+ " does not match format '%Y-%m-%d'")).
Proof. intros H. rewrite (strip_all_space _ H). reflexivity. Qed.

(** One line of /data/dates.txt that is blank, or that [strptime] does
    not accept for another reason, makes the handler fail, whatever the
    other lines are: it raises "Failed to count weekdays: ..." and the
    world is as before, so no output is written. *)
Theorem weekday_counting_bad_line (params : json) (w : world FS)
    (text line : str) :
  open_read (fs w) "/data/dates.txt" = Ok text ->
  In line (readlines text) ->
  all_space line = true
  \/ (exists e, strptime repr_str (strip line) = Raise e) ->
  exists msg,
    _handle_weekday_counting params w
    = (Raise (PyExc "Exception" ("Failed to count weekdays: " +:+ msg)), w).
Proof.
  intros Hread Hin Hbad.
  assert (He : exists e, strptime repr_str (strip line) = Raise e).
  { destruct Hbad as [Hsp|He]; [|exact He].
    eexists. apply strptime_blank, Hsp. }
  destruct He as [e He].
  destruct (count_wednesdays_raise _ _ _ Hin He) as [e' Hc].
  exists (str_exn e').
  unfold _handle_weekday_counting, reraise, try_except.
  change (data_dir "dates.txt") with "/data/dates.txt".
  unfold mbind at 1, M_bind, bind, read_file_text. rewrite Hread.
  unfold mbind at 1, M_bind, bind, lift. rewrite Hc. reflexivity.
Qed.

Lemma decorate_raise {K A : Type} (key : A -> result K) (l : list A) (r : A)
    (e : exn) :
  In r l -> key r = Raise e -> exists e', decorate key l = Raise e'.
Proof.
  induction l as [|x l IH]; intros Hin He; [destruct Hin|].
  cbn [decorate].
  destruct (key x) as [k|e0] eqn:Hx; cbn [mbind result_bind]; [|eauto].
  destruct Hin as [->|Hin]; [congruence|].
  destruct (IH Hin He) as [e' ->]. cbn [mbind result_bind]. eauto.
Qed.

Lemma contact_key_missing (r : json) :
  ~ has_both r -> exists e, contact_key r = Raise e.
Proof.
  intros Hno. unfold contact_key.
  destruct r as [| | | | |m]; cbn; eauto.
  destruct (dict_get m "last_name") as [last|] eqn:Hl; cbn; [|eauto].
  destruct (dict_get m "first_name") as [first|] eqn:Hf; cbn; [|eauto].
  exfalso. apply Hno. exists m, last, first. auto.
Qed.

(** One record of /data/contacts.json that is not an object with both
    name fields makes the handler fail, whatever the other records are:
    it raises "Failed to sort contacts: ..." and the world is as before,
    so no output is written. *)
Theorem contact_sorting_missing_field (params : json) (w : world FS)
    (text : str) (contacts : list json) (r : json) :
  open_read (fs w) "/data/contacts.json" = Ok text ->
  json_loads text = Ok (JList contacts) ->
  In r contacts ->
  ~ has_both r ->
  exists msg,
    _handle_contact_sorting params w
    = (Raise (PyExc "Exception" ("Failed to sort contacts: " +:+ msg)), w).
Proof.
  intros Hread Hloads Hin Hno.
  destruct (contact_key_missing r Hno) as [e He].
  destruct (decorate_raise contact_key contacts r e Hin He) as [e' Hd].
  exists (str_exn e').
  unfold _handle_contact_sorting, reraise, try_except.
  change (data_dir "contacts.json") with "/data/contacts.json".
  unfold mbind at 1, M_bind, bind, read_file_text. rewrite Hread.
  unfold mbind at 1, M_bind, bind, lift. rewrite Hloads.
  unfold mbind at 1, M_bind, bind. cbn [iterate mbind result_bind].
  unfold sorted. rewrite Hd. reflexivity.
Qed.

End WithEnv.

(** *** The validator on longer texts *)

Lemma lower_app (a b : str) : lower (a +:+ b) = lower a +:+ lower b.
Proof.
  induction a as [|c a IH]; [reflexivity|].
  rewrite app_cons. cbn [lower]. rewrite app_cons, IH. reflexivity.
Qed.

Lemma occurs_context (sub a t b : str) :
  occurs sub t -> occurs sub (a +:+ t +:+ b).
Proof.
  intros (pre & post & ->). exists (a +:+ pre), (post +:+ b).
  rewrite !app_assoc_str. reflexivity.
Qed.

(** A task that is rejected although it is long enough stays rejected
    inside any longer text: nothing put before or after it makes the
    validator accept it. *)
Theorem is_valid_task_context (a t b : str) :
  5 <= len (strip t) ->
  is_valid_task t = false ->
  is_valid_task (a +:+ t +:+ b) = false.
Proof.
  intros Hlen Hrej. apply is_valid_task_false.
  apply is_valid_task_false in Hrej.
  destruct Hrej as [-> | [Hsp | [Hshort | (op & Hop & Hocc)]]].
  - cbv in Hlen. congruence.
  - rewrite (strip_all_space _ Hsp) in Hlen. cbv in Hlen. congruence.
  - apply short_strip in Hshort. lia.
  - right. right. right. exists op. split; [exact Hop|].
    rewrite !lower_app. apply occurs_context, Hocc.
Qed.

End FailureFacts.

(** ** The uv-installation handler *)

Module UvFacts.
Import PyStr Py Os World TaskHandler PhaseA.

Section WithEnv.
Context {FS : Type} `{!Subprocess FS}.

(** The e-mail address is looked up in the parameters only after the two
    downloads have run: when the parameters are an object without
    [email] and the two commands succeed, the handler raises "Failed to
    handle uv installation: 'email'" in the world the two commands
    left, and the data generator is not run. *)
Theorem uv_installation_missing_email (m : list (str * json))
    (w w1 w2 : world FS) :
  dict_get m "email" = None ->
  subprocess_run
    [JStr "curl"; JStr "-LsSf"; JStr "https://astral.sh/uv/install.sh"] w
  = (Ok tt, w1) ->
  subprocess_run
    [JStr "wget";
     JStr "https://raw.githubusercontent.com/sanand0/tools-in-data-science-public/tds-2025-01/project-1/datagen.py"]
    w1
  = (Ok tt, w2) ->
  _handle_uv_installation (JObj m) w
  = (Raise (PyExc "Exception" "Failed to handle uv installation: 'email'"),
     w2).
Proof.
  intros Hm Hcurl Hwget.
  unfold _handle_uv_installation, reraise, try_except.
  unfold mbind at 1, M_bind, bind. rewrite Hcurl.
  unfold mbind at 1, M_bind, bind. rewrite Hwget.
  unfold mbind at 1, M_bind, bind, lift. cbn [getitem]. rewrite Hm.
  reflexivity.
Qed.

End WithEnv.

Import SampleEnv SampleClient.

Lemma uv_installation_missing_email_witness :
  @_handle_uv_installation _ echoing (JObj []) world0
  = (Raise (PyExc "Exception" "Failed to handle uv installation: 'email'"),
     mkWorld Posix.sample []
       [ "curl -LsSf https://astral.sh/uv/install.sh";
         "wget https://raw.githubusercontent.com/sanand0/tools-in-data-science-public/tds-2025-01/project-1/datagen.py" ]).
Proof.
  apply (@uv_installation_missing_email _ echoing [] world0
           (mkWorld Posix.sample []
              ["curl -LsSf https://astral.sh/uv/install.sh"])).
  - reflexivity.
  - reflexivity.
  - reflexivity.
Defined.

End UvFacts.

(** ** The handlers and the client on the sample worlds *)

Module HandlerExamples.
Import PyStr StrSpec PyStrFacts Py Os World PyCompare PySorted Datetime.
Import TaskHandler Main Validators ValidatorSpec ValidatorsFacts ContactSpec.
Import PhaseA LLMClient ClientSpec EmailFacts ClientFacts FailureFacts.
Import SampleEnv SampleClient.

Lemma email_extraction_output_witness :
  fst (@_handle_email_extraction _ _
         (answering 200 "" (Ok (completion_body (JStr email_answer))))
         "secret" (JObj []) email_world) = Ok success
  /\ read_text
       (fs (snd (@_handle_email_extraction _ _
                   (answering 200 "" (Ok (completion_body (JStr email_answer))))
                   "secret" (JObj []) email_world)))
       "/data/email-sender.txt" = Ok "alice@example.com".
Proof.
  destruct (@email_extraction_output _ _
              (answering 200 "" (Ok (completion_body (JStr email_answer))))
              "secret" (JObj []) email_world email_text) as (_ & _ & H & _).
  - vm_compute. reflexivity.
  - destruct (H email_answer eq_refl) as (address & Htrim & Hrun).
    rewrite Hrun, (trimmed_strip _ _ Htrim).
    split; vm_compute; reflexivity.
Defined.

(** A completion that is [null]: the output file is created empty and
    the handler raises. *)
Example email_null_completion :
  @_handle_email_extraction _ _ (answering 200 "" (Ok (completion_body JNull)))
    "secret" (JObj []) email_world
  = (Raise (PyExc "Exception"
              "Failed to extract email: 'NoneType' object has no attribute 'strip'"),
     mkWorld (with_file (fs email_world) "/data/email-sender.txt" "")
       [email_prompt email_text] []).
Proof. vm_compute. reflexivity. Qed.

Lemma client_served (token : str) (http : Http)
    (base : Env Posix.filesystem) :
  @served_by _ (client_env http token base) http token.
Proof.
  intros prompt. cbn [gateway client_env].
  destruct (get_completion token prompt) as [[| | |s| |]|e]; reflexivity.
Qed.

Lemma upstream_error_status_witness :
  fst (@run_task _ _ (client_env refusing "secret" (env _ (Ok "") []))
         TaskHandler_methods task world0)
  = Raise (HTTPException 400 "LLM request failed: Invalid token").
Proof.
  refine (proj1 (@upstream_error_status _ _
                   (client_env refusing "secret" (env _ (Ok "") []))
                   refusing TaskHandler_methods "secret" task world0
                   (mkResponse 401 "Invalid token"
                      (Raise (PyExc "JSONDecodeError"
                                "Expecting value: line 1 column 1 (char 0)")))
                   (client_served _ _ _) _ _ _)).
  - vm_compute. reflexivity.
  - reflexivity.
  - cbn. discriminate.
Defined.

Lemma weekday_counting_bad_line_witness :
  exists msg,
    @_handle_weekday_counting _ _ (env _ (Ok "") []) (JObj [])
      (mkWorld (with_file Posix.sample "/data/dates.txt"
                  ("2024-01-03" +:+ nl +:+ nl)) [] [])
    = (Raise (PyExc "Exception" ("Failed to count weekdays: " +:+ msg)),
       mkWorld (with_file Posix.sample "/data/dates.txt"
                  ("2024-01-03" +:+ nl +:+ nl)) [] []).
Proof.
  apply (@weekday_counting_bad_line _ _ (env _ (Ok "") []) (JObj []) _
           ("2024-01-03" +:+ nl +:+ nl) nl).
  - vm_compute. reflexivity.
  - vm_compute. auto.
  - left. reflexivity.
Defined.

Lemma contact_sorting_missing_field_witness :
  exists msg,
    @_handle_contact_sorting _ _
      (contacts_env [contact (JStr "Smith") (JStr "Bob");
                     JObj [("first_name", JStr "Zoe")]])
      (JObj [])
      (contacts_world [contact (JStr "Smith") (JStr "Bob");
                       JObj [("first_name", JStr "Zoe")]])
    = (Raise (PyExc "Exception" ("Failed to sort contacts: " +:+ msg)),
       contacts_world [contact (JStr "Smith") (JStr "Bob");
                       JObj [("first_name", JStr "Zoe")]]).
Proof.
  apply (@contact_sorting_missing_field _ _
           (contacts_env [contact (JStr "Smith") (JStr "Bob");
                          JObj [("first_name", JStr "Zoe")]])
           (JObj []) _
           (dumps "" (JList [contact (JStr "Smith") (JStr "Bob");
                             JObj [("first_name", JStr "Zoe")]]))
           [contact (JStr "Smith") (JStr "Bob");
            JObj [("first_name", JStr "Zoe")]]
           (JObj [("first_name", JStr "Zoe")])).
  - vm_compute. reflexivity.
  - vm_compute. reflexivity.
  - cbn. auto.
  - intros (m & last & first & [= <-] & Hl & _). discriminate Hl.
Defined.

Lemma is_valid_task_context_witness :
  is_valid_task ("please " +:+ "delete it" +:+ " now") = false.
Proof.
  apply (is_valid_task_context "please " "delete it" " now").
  - vm_compute. discriminate.
  - vm_compute. reflexivity.
Defined.

End HandlerExamples.

